(** * Enhanced Agent Engine: request routing, sessions and tool results

    A shallow embedding of the Python sources
      - [main_orchestrator.py]   (ChatbotOrchestrator),
      - [agents/enhanced_coordinator.py] (workflow declarations and the
        workflow map),
      - [tools/git_tools.py], [tools/jira_tools.py], [tools/pdf_tools.py],
    together with the properties stated about them.

    Python strings are modelled as [string]: a sequence of characters with
    code points below 256.  Python dictionaries returned by the tools are
    association lists from keys to dynamically typed values. *)

From Stdlib Require Import String Ascii List Bool NArith ZArith Lia.
From stdpp Require Import base option gmap strings.

Import ListNotations.
Local Open Scope string_scope.

(** ** Python values and string primitives *)

Module Py.

(** Dynamically typed values, as far as the tools build them. *)
#[warnings="-register-all"] Inductive value : Type :=
| VNone
| VBool (b : bool)
| VInt (z : Z)
| VStr (s : string)
| VList (l : list value)
| VDict (d : list (string * value)).

Definition dict : Type := list (string * value).

(** [d.get(k)]: the first binding of [k], if any. *)
Fixpoint get (k : string) (d : dict) : option value :=
  match d with
  | [] => None
  | (k', v) :: d' => if String.eqb k k' then Some v else get k d'
  end.

(** [str.lower()] on one character.  Below code point 256 the characters
    with a distinct lower case are A-Z and the Latin-1 capitals
    U+00C0..U+00DE except the multiplication sign U+00D7. *)
Definition lower_char (c : ascii) : ascii :=
  let n := N_of_ascii c in
  if ((65 <=? n) && (n <=? 90))%N
     || ((192 <=? n) && (n <=? 222) && negb (n =? 215))%N
  then ascii_of_N (n + 32)
  else c.

Fixpoint lower (s : string) : string :=
  match s with
  | EmptyString => EmptyString
  | String c s' => String (lower_char c) (lower s')
  end.

(** [s.startswith(p)] *)
Fixpoint startswith (p s : string) : bool :=
  match p, s with
  | EmptyString, _ => true
  | String a p', String b s' => Ascii.eqb a b && startswith p' s'
  | String _ _, EmptyString => false
  end.

(** [kw in s]: [kw] occurs as a contiguous substring of [s]. *)
Fixpoint contains (kw s : string) : bool :=
  startswith kw s ||
  match s with
  | EmptyString => false
  | String _ s' => contains kw s'
  end.

(** [any(kw in s for kw in kws)] *)
Definition any_in (kws : list string) (s : string) : bool :=
  existsb (fun kw => contains kw s) kws.

(** [str.strip()]: white space is removed at both ends.  Below code point
    256 the white-space characters are U+0009..U+000D, U+001C..U+0020,
    U+0085 and U+00A0. *)
Definition isspace (c : ascii) : bool :=
  let n := N_of_ascii c in
  (((9 <=? n) && (n <=? 13)) || ((28 <=? n) && (n <=? 32))
   || (n =? 133) || (n =? 160))%N.

Fixpoint lstrip (s : string) : string :=
  match s with
  | EmptyString => EmptyString
  | String c s' => if isspace c then lstrip s' else s
  end.

Fixpoint rstrip (s : string) : string :=
  match s with
  | EmptyString => EmptyString
  | String c s' =>
      match rstrip s' with
      | EmptyString => if isspace c then EmptyString else String c EmptyString
      | r => String c r
      end
  end.

Definition strip (s : string) : string := rstrip (lstrip s).

(** [os.path.basename(p)]: what follows the last slash. *)
Fixpoint basename (p : string) : string :=
  match p with
  | EmptyString => EmptyString
  | String _ p' => if contains "/" p then basename p' else p
  end.

(** Truthiness of a string: [not s] holds for the empty string only. *)
Definition nonempty (s : string) : bool :=
  match s with EmptyString => false | String _ _ => true end.

(** Exceptions, by the class an [except] clause tells apart. *)
Inductive exn : Type :=
| TimeoutExpired (msg : string) (* subprocess.TimeoutExpired *)
| Exception (msg : string)      (* any other Exception; msg is str(e) *)
| BaseException (msg : string). (* KeyboardInterrupt, SystemExit, ... *)

(** A call either returns or raises. *)
Inductive outcome (A : Type) : Type :=
| Return (a : A)
| Raise (e : exn).
Arguments Return {A} a.
Arguments Raise {A} e.

Definition bind {A B} (m : outcome A) (k : A -> outcome B) : outcome B :=
  match m with
  | Return a => k a
  | Raise e => Raise e
  end.

End Py.

Notation "'let!' x ':=' m 'in' k" := (Py.bind m (fun x => k))
  (at level 10, x name, m at level 100, k at level 200).

(** ** main_orchestrator.py: request classification *)

Module Classifier.
Import Py.

Definition git_keywords := ["git"; "repository"; "repo"; "github"; "gitlab"].
Definition git_analysis_keywords := ["analyze"; "changes"; "diff"; "commit"].
Definition jira_keywords := ["jira"; "ticket"; "issue"; "story"].
Definition jira_test_keywords := ["test"; "case"; "scenario"].
Definition pdf_keywords := ["pdf"; "document"; "file"].
Definition script_keywords := ["script"; "automation"; "generate"].
Definition test_keywords := ["test"; "unittest"; "pytest"].
Definition code_keywords := ["analyze"; "code"; "review"].

(** [ChatbotOrchestrator._detect_request_type] *)
Definition _detect_request_type (message : string) : string :=
  let message_lower := lower message in
  if any_in git_keywords message_lower then
    if any_in git_analysis_keywords message_lower then "git_analysis"
    else "git_pull"
  else if any_in jira_keywords message_lower then
    if any_in jira_test_keywords message_lower then "jira_test_generation"
    else "jira_analysis"
  else if any_in pdf_keywords message_lower then "pdf_processing"
  else if any_in script_keywords message_lower then "script_generation"
  else if any_in test_keywords message_lower then "test_generation"
  else if any_in code_keywords message_lower then "code_analysis"
  else "general_chat".

(** Every name some [return] of the classifier produces. *)
Definition request_types : list string :=
  ["git_analysis"; "git_pull"; "jira_test_generation"; "jira_analysis";
   "pdf_processing"; "script_generation"; "test_generation";
   "code_analysis"; "general_chat"].


(** A precedence order: keyword families, each with the names it may
    resolve to, the first family that matches deciding. *)
Definition precedence : list (list string * list string) :=
  [(git_keywords, ["git_analysis"; "git_pull"]);
   (jira_keywords, ["jira_test_generation"; "jira_analysis"]);
   (pdf_keywords, ["pdf_processing"]);
   (script_keywords, ["script_generation"]);
   (test_keywords, ["test_generation"]);
   (code_keywords, ["code_analysis"])].

Fixpoint resolve (order : list (list string * list string))
    (default_names : list string) (text : string) : list string :=
  match order with
  | [] => default_names
  | (keywords, names) :: order' =>
      if any_in keywords text then names
      else resolve order' default_names text
  end.

(** A request mentions a word when its lower-cased text contains it. *)
Definition mentions (word message : string) : bool :=
  contains (lower word) (lower message).

End Classifier.

(** ** agents/enhanced_coordinator.py: workflows and the workflow map *)

Module Coordinator.
Import Py.

(** Agents.  The leaf agents are the module-level [LlmAgent] objects the
    coordinator imports; the composite ones are built with the two
    combinators it uses. *)
#[warnings="-register-all"] Inductive agent : Type :=
| code_analyzer_agent
| test_case_designer_agent
| test_implementer_agent
| test_runner_agent
| debugger_and_refiner_agent
| git_analyzer_agent
| jira_integration_agent
| pdf_processor_agent
| script_generator_agent
| strategy_planner_agent
| SequentialAgent (name : string) (sub_agents : list agent)
| LoopAgent (name : string) (sub_agents : list agent) (max_iterations : nat).

Definition git_workflow : agent :=
  SequentialAgent "GitWorkflow"
    [git_analyzer_agent; code_analyzer_agent; strategy_planner_agent].

Definition jira_workflow : agent :=
  SequentialAgent "JiraWorkflow"
    [jira_integration_agent; test_case_designer_agent; test_implementer_agent].

Definition pdf_workflow : agent :=
  SequentialAgent "PdfWorkflow" [pdf_processor_agent; strategy_planner_agent].

Definition script_workflow : agent :=
  SequentialAgent "ScriptWorkflow"
    [script_generator_agent; test_implementer_agent].

Definition test_refinement_loop : agent :=
  LoopAgent "TestRefinementLoop"
    [test_runner_agent; debugger_and_refiner_agent] 3.

Definition test_generation_workflow : agent :=
  SequentialAgent "TestGenerationWorkflow"
    [code_analyzer_agent; test_case_designer_agent; test_implementer_agent;
     test_refinement_loop].

(** The [workflow_map] of [execute_selected_workflow]. *)
Definition workflow_map : gmap string agent :=
  list_to_map
    [("git_workflow", git_workflow);
     ("jira_workflow", jira_workflow);
     ("pdf_workflow", pdf_workflow);
     ("script_workflow", script_workflow);
     ("test_generation_workflow", test_generation_workflow)].

(** The keys of [workflow_map]. *)
Definition workflow_names : list string :=
  ["git_workflow"; "jira_workflow"; "pdf_workflow"; "script_workflow";
   "test_generation_workflow"].

(** [execute_selected_workflow].  The session state is a dictionary; the
    selected name is read with default [''].  Membership in a dictionary
    hashes the key, which raises [TypeError] for a list or a dictionary
    and finds nothing for any other value that is not one of the keys. *)
Definition execute_selected_workflow (state : gmap string value)
  : outcome (option agent) :=
  let selected_workflow := default (VStr "") (state !! "selected_workflow") in
  match selected_workflow with
  | VStr name =>
      match workflow_map !! name with
      | Some workflow_agent => Return (Some workflow_agent)
      | None => Return None
      end
  | VList _ => Raise (Exception "unhashable type: 'list'")
  | VDict _ => Raise (Exception "unhashable type: 'dict'")
  | _ => Return None
  end.

End Coordinator.

(** ** main_orchestrator.py: sessions and message processing *)

Module Orchestrator.
Import Py Classifier.

(** A session of the in-memory session service.  The service hands out a
    new session at every call; its identifier is modelled by the number of
    sessions the service created before it. *)
Record Session : Type := mkSession {
  session_id : nat;
  session_app_name : string;
  session_user_id : string
}.

(** [ChatbotOrchestrator]: the sessions the service holds and the
    [active_sessions] dictionary. *)
Record orchestrator : Type := mkOrchestrator {
  service_sessions : list Session;
  active_sessions : gmap string Session
}.

(** [ChatbotOrchestrator.__init__] *)
Definition new_orchestrator : orchestrator :=
  {| service_sessions := []; active_sessions := ∅ |}.

(** [ChatbotOrchestrator.create_session]: the orchestrator it leaves and
    the number of the session it filed.  The read of [session.session_id]
    for the value returned is modelled apart, in [SessionCalls]; it comes
    after the session is filed and does not change the orchestrator. *)
Definition create_session (self : orchestrator) (user_id : string)
  : orchestrator * nat :=
  let session :=
    {| session_id := List.length (service_sessions self);
       session_app_name := "enhanced_agent_engine";
       session_user_id := user_id |} in
  ({| service_sessions := service_sessions self ++ [session];
      active_sessions := <[user_id := session]> (active_sessions self) |},
   session_id session).

(** [ChatbotOrchestrator._format_request], before [json.dumps]. *)
Definition _format_request (message request_type : string) (timestamp : value)
  : dict :=
  let task :=
    if String.eqb request_type "git_analysis" then "analyze_git_repository"
    else if String.eqb request_type "jira_test_generation"
      then "generate_tests_from_jira"
    else if String.eqb request_type "pdf_processing"
      then "process_pdf_document"
    else if String.eqb request_type "script_generation"
      then "generate_automation_script"
    else if String.eqb request_type "test_generation"
      then "generate_test_suite"
    else if String.eqb request_type "code_analysis"
      then "analyze_code_changes"
    else "general_assistance" in
  [("user_message", VStr message);
   ("request_type", VStr request_type);
   ("timestamp", timestamp);
   ("task", VStr task)].

(** What [process_user_message] passes to [runner.run_async]. *)
Record run_call : Type := mkRunCall {
  call_user_id : string;
  call_session_id : option nat;
  call_content : dict
}.

(** [ChatbotOrchestrator.process_user_message], up to the call of the
    runner (whose streamed answer is the agents' output): the orchestrator
    it leaves, and the request it formats with the number of the sender's
    session.  The read of [session_id] on the session object is modelled
    apart, in [SessionCalls]. *)
Definition process_user_message (self : orchestrator)
    (user_id message : string) (timestamp : value)
  : orchestrator * run_call :=
  let self :=
    match active_sessions self !! user_id with
    | None => fst (create_session self user_id)
    | Some _ => self
    end in
  let request_type := _detect_request_type message in
  let formatted_request := _format_request message request_type timestamp in
  (self,
   {| call_user_id := user_id;
      call_session_id := session_id <$> active_sessions self !! user_id;
      call_content := formatted_request |}).

(** The request type a call to the runner carries. *)
Definition detected_type (c : run_call) : option value :=
  get "request_type" (call_content c).

(** The calls made on an orchestrator during the life of the process. *)
Inductive op : Type :=
| OpCreate (user_id : string)
| OpMessage (user_id message : string) (timestamp : value).

Definition step (self : orchestrator) (o : op) : orchestrator :=
  match o with
  | OpCreate user_id => fst (create_session self user_id)
  | OpMessage user_id message timestamp =>
      fst (process_user_message self user_id message timestamp)
  end.

Definition run (self : orchestrator) (ops : list op) : orchestrator :=
  fold_left step ops self.

(** The calls [main] makes: one session for the demo user at start-up,
    then one [process_user_message] per line read. *)
Definition main (inputs : list (string * value)) : list op :=
  OpCreate "demo_user"
  :: map (fun i => OpMessage "demo_user" (fst i) (snd i)) inputs.

Definition is_message (o : op) : bool :=
  match o with
  | OpMessage _ _ _ => true
  | OpCreate _ => false
  end.

Definition is_message_of (user_id : string) (o : op) : bool :=
  match o with
  | OpMessage u _ _ => String.eqb u user_id
  | OpCreate _ => false
  end.

End Orchestrator.

(** ** tools/git_tools.py: cloning a repository *)

Module GitTools.
Import Py.

(** [subprocess.CompletedProcess] with [capture_output=True, text=True]. *)
Record CompletedProcess : Type := mkCompleted {
  returncode : Z;
  stdout : string;
  stderr : string
}.

(** What the operating system answers.  [mkdtemp] gets the prefix;
    [subprocess_run] gets the command line and the time-out in seconds. *)
Record system : Type := mkSystem {
  mkdtemp : string -> outcome string;
  subprocess_run : list string -> option Z -> outcome CompletedProcess
}.

Definition clone_cmd (repository_url branch target_dir : string)
  : list string :=
  ["git"; "clone"; "--branch"; branch; repository_url; target_dir].

Definition commit_cmd (target_dir : string) : list string :=
  ["git"; "-C"; target_dir; "rev-parse"; "HEAD"].

(** The [try] block of [clone_repository]. *)
Definition clone_repository_body (sys : system)
    (repository_url branch : string) (target_dir : option string)
  : outcome dict :=
  let! target_dir :=
    match target_dir with
    | None => mkdtemp sys "git_analysis_"
    | Some d => Return d
    end in
  let! result :=
    subprocess_run sys (clone_cmd repository_url branch target_dir)
      (Some 300%Z) in
  if negb (returncode result =? 0)%Z then
    Return
      [("status", VStr "error");
       ("message", VStr ("Failed to clone repository: " +:+ stderr result));
       ("local_path", VStr "")]
  else
    let! commit_result := subprocess_run sys (commit_cmd target_dir) None in
    let commit_hash :=
      if (returncode commit_result =? 0)%Z
      then strip (stdout commit_result) else "" in
    Return
      [("status", VStr "success");
       ("message",
        VStr ("Successfully cloned repository to " +:+ target_dir));
       ("local_path", VStr target_dir);
       ("repository_url", VStr repository_url);
       ("branch", VStr branch);
       ("commit_hash", VStr commit_hash)].

(** [clone_repository]: the body under its two [except] clauses.  An
    exception outside the [Exception] class is not caught. *)
Definition clone_repository (sys : system)
    (repository_url branch : string) (target_dir : option string)
  : outcome dict :=
  match clone_repository_body sys repository_url branch target_dir with
  | Return d => Return d
  | Raise (TimeoutExpired _) =>
      Return
        [("status", VStr "error");
         ("message", VStr "Repository clone timed out");
         ("local_path", VStr "")]
  | Raise (Exception e) =>
      Return
        [("status", VStr "error");
         ("message", VStr ("Error cloning repository: " +:+ e));
         ("local_path", VStr "")]
  | Raise (BaseException e) => Raise (BaseException e)
  end.

(** The failures of a clone: the temporary directory cannot be made, a
    subprocess cannot be run or times out, or [git clone] exits with a
    status other than zero. *)
Definition clone_fails (sys : system)
    (repository_url branch : string) (target_dir : option string) : Prop :=
  match
    (match target_dir with
     | None => mkdtemp sys "git_analysis_"
     | Some d => Return d
     end)
  with
  | Raise _ => True
  | Return d =>
      match subprocess_run sys (clone_cmd repository_url branch d)
              (Some 300%Z) with
      | Raise _ => True
      | Return result =>
          returncode result <> 0%Z \/
          exists e, subprocess_run sys (commit_cmd d) None = Raise e
      end
  end.

(** The system raises nothing outside the [Exception] class. *)
Definition expected_failures_only (sys : system) : Prop :=
  (forall p m, mkdtemp sys p <> Raise (BaseException m)) /\
  (forall c t m, subprocess_run sys c t <> Raise (BaseException m)).

(** The shape of an error result. *)
Definition is_error_result (d : dict) : Prop :=
  get "status" d = Some (VStr "error") /\
  (exists m, get "message" d = Some (VStr m) /\ m <> "") /\
  get "local_path" d = Some (VStr "").

(** A system whose [git clone] never finishes in time. *)
Definition slow_system : system :=
  {| mkdtemp := fun p => Return ("/tmp/" +:+ p +:+ "0");
     subprocess_run := fun _ _ =>
       Raise (TimeoutExpired "timed out after 300 seconds") |}.

(** A system whose [git clone] exits with status 128. *)
Definition failing_system : system :=
  {| mkdtemp := fun p => Return ("/tmp/" +:+ p +:+ "0");
     subprocess_run := fun _ _ =>
       Return {| returncode := 128; stdout := "";
                 stderr := "fatal: repository not found" |} |}.

End GitTools.

(** ** tools/jira_tools.py: fetching a ticket *)

Module JiraTools.
Import Py.

Definition is_upper (c : ascii) : bool :=
  let n := N_of_ascii c in ((65 <=? n) && (n <=? 90))%N.

Definition is_digit (c : ascii) : bool :=
  let n := N_of_ascii c in ((48 <=? n) && (n <=? 57))%N.

(** The longest prefix whose characters satisfy [p], and what follows. *)
Fixpoint span (p : ascii -> bool) (s : string) : string * string :=
  match s with
  | EmptyString => (EmptyString, EmptyString)
  | String c s' =>
      if p c then let (a, b) := span p s' in (String c a, b)
      else (EmptyString, s)
  end.

(** [s] without its prefix [p], when it starts with [p]. *)
Fixpoint strip_prefix (p s : string) : option string :=
  match p, s with
  | EmptyString, _ => Some s
  | String a p', String b s' =>
      if Ascii.eqb a b then strip_prefix p' s' else None
  | String _ _, EmptyString => None
  end.

(** The group [([A-Z]+-\d+)] matched at the start of [s].  Each of the two
    repetitions is greedy; a shorter run of capitals would have to be
    followed by a hyphen where a capital stands, so no other split
    matches. *)
Definition match_ticket_id (s : string) : option string :=
  let (letters, rest) := span is_upper s in
  match letters, rest with
  | String _ _, String "-"%char rest' =>
      let (digits, _) := span is_digit rest' in
      match digits with
      | String _ _ => Some (letters +:+ "-" +:+ digits)
      | EmptyString => None
      end
  | _, _ => None
  end.

(** [re.search(r'/browse/([A-Z]+-\d+)', s)]: group 1 of the leftmost
    match. *)
Fixpoint search_browse (s : string) : option string :=
  match strip_prefix "/browse/" s ≫= match_ticket_id with
  | Some ticket_id => Some ticket_id
  | None =>
      match s with
      | EmptyString => None
      | String _ s' => search_browse s'
      end
  end.

(** [urllib.parse.urlparse]: the scheme and the network location, or the
    [ValueError] it raises. *)
Inductive parsed : Type :=
| ParseResult (scheme netloc : string)
| ValueError (msg : string).

Definition mock_ticket_data : list (string * dict) :=
  [("PROJ-123",
    [("title", VStr "Implement user authentication system");
     ("description", VStr "As a user, I want to be able to log in to the system securely so that I can access my personal dashboard.");
     ("status", VStr "In Progress");
     ("priority", VStr "High");
     ("assignee", VStr "john.doe@company.com");
     ("reporter", VStr "product.manager@company.com");
     ("acceptance_criteria", VList
        [VStr "User can log in with valid email and password";
         VStr "System displays error message for invalid credentials";
         VStr "User session expires after 30 minutes of inactivity";
         VStr "Password must meet complexity requirements";
         VStr "Account locks after 5 failed login attempts"]);
     ("labels", VList
        [VStr "authentication"; VStr "security"; VStr "user-management"]);
     ("components", VList [VStr "Frontend"; VStr "Backend"; VStr "Database"])]);
   ("STORY-456",
    [("title", VStr "Add shopping cart functionality");
     ("description", VStr "Implement shopping cart where users can add, remove, and modify items before checkout.");
     ("status", VStr "To Do");
     ("priority", VStr "Medium");
     ("assignee", VStr "jane.smith@company.com");
     ("reporter", VStr "business.analyst@company.com");
     ("acceptance_criteria", VList
        [VStr "Users can add items to cart from product pages";
         VStr "Users can view cart contents and total price";
         VStr "Users can modify quantities or remove items";
         VStr "Cart persists across browser sessions";
         VStr "Cart shows real-time inventory availability"]);
     ("labels", VList [VStr "e-commerce"; VStr "shopping"; VStr "frontend"]);
     ("components", VList [VStr "Frontend"; VStr "API"; VStr "Database"])])].

Fixpoint lookup_ticket (ticket_id : string) (data : list (string * dict))
  : option dict :=
  match data with
  | [] => None
  | (k, v) :: data' =>
      if String.eqb ticket_id k then Some v else lookup_ticket ticket_id data'
  end.

(** [ticket_data[k]] for a key the mock data always has. *)
Definition field (k : string) (ticket_data : dict) : value :=
  default VNone (get k ticket_data).

Definition generic_ticket (ticket_id : string) : dict :=
  [("ticket_id", VStr ticket_id);
   ("title", VStr ("Generic ticket " +:+ ticket_id));
   ("description", VStr "This is a mock ticket for demonstration purposes.");
   ("status", VStr "Open");
   ("priority", VStr "Medium");
   ("assignee", VStr "unassigned");
   ("reporter", VStr "system");
   ("acceptance_criteria", VList
      [VStr "Implement the required functionality";
       VStr "Add appropriate error handling";
       VStr "Include unit tests";
       VStr "Update documentation"]);
   ("labels", VList [VStr "feature"; VStr "development"]);
   ("components", VList [VStr "Backend"])].

Definition known_ticket (ticket_id : string) (ticket_data : dict) : dict :=
  [("ticket_id", VStr ticket_id);
   ("title", field "title" ticket_data);
   ("description", field "description" ticket_data);
   ("status", field "status" ticket_data);
   ("priority", field "priority" ticket_data);
   ("assignee", field "assignee" ticket_data);
   ("reporter", field "reporter" ticket_data);
   ("acceptance_criteria", field "acceptance_criteria" ticket_data);
   ("labels", field "labels" ticket_data);
   ("components", field "components" ticket_data)].

Section Fetch.

(** The URL parser of the standard library. *)
Variable urlparse : string -> parsed.

(** The ticket identifier [fetch_jira_ticket] works with, when the
    extraction step does not raise. *)
Definition extract_ticket_id (ticket_url_or_id jira_base_url : string)
  : outcome string :=
  if startswith "http" ticket_url_or_id then
    let ticket_id := default "" (search_browse ticket_url_or_id) in
    if negb (nonempty jira_base_url) then
      match urlparse ticket_url_or_id with
      | ParseResult scheme netloc => Return ticket_id
      | ValueError msg => Raise (Exception msg)
      end
    else Return ticket_id
  else Return ticket_url_or_id.

(** The [try] block of [fetch_jira_ticket]. *)
Definition fetch_jira_ticket_body
    (ticket_url_or_id jira_base_url username api_token : string)
  : outcome dict :=
  let! ticket_id := extract_ticket_id ticket_url_or_id jira_base_url in
  if negb (nonempty ticket_id) then
    Return
      [("status", VStr "error");
       ("message", VStr "Invalid ticket URL or ID");
       ("ticket", VNone)]
  else
    match lookup_ticket ticket_id mock_ticket_data with
    | Some ticket_data =>
        Return
          [("status", VStr "success");
           ("message", VStr ("Successfully fetched ticket " +:+ ticket_id));
           ("ticket", VDict (known_ticket ticket_id ticket_data))]
    | None =>
        Return
          [("status", VStr "success");
           ("message", VStr ("Successfully fetched ticket " +:+ ticket_id));
           ("ticket", VDict (generic_ticket ticket_id))]
    end.

(** [fetch_jira_ticket] *)
Definition fetch_jira_ticket
    (ticket_url_or_id jira_base_url username api_token : string)
  : outcome dict :=
  match fetch_jira_ticket_body ticket_url_or_id jira_base_url
          username api_token with
  | Return d => Return d
  | Raise (TimeoutExpired e)
  | Raise (Exception e) =>
      Return
        [("status", VStr "error");
         ("message", VStr ("Error fetching JIRA ticket: " +:+ e));
         ("ticket", VNone)]
  | Raise (BaseException e) => Raise (BaseException e)
  end.

End Fetch.

(** The identifier the ticket text yields: the matched group for a URL
    (empty when nothing matches), the text itself otherwise. *)
Definition extracted_id (ticket_url_or_id : string) : string :=
  if startswith "http" ticket_url_or_id
  then default "" (search_browse ticket_url_or_id)
  else ticket_url_or_id.

(** The URL parser is called, and raises, on this input. *)
Definition parse_fails (urlparse : string -> parsed)
    (ticket_url_or_id jira_base_url : string) : bool :=
  startswith "http" ticket_url_or_id && negb (nonempty jira_base_url) &&
  match urlparse ticket_url_or_id with
  | ValueError _ => true
  | ParseResult _ _ => false
  end.

(** The ticket of a result, when it is a dictionary. *)
Definition ticket_of (d : dict) : option dict :=
  match get "ticket" d with
  | Some (VDict t) => Some t
  | _ => None
  end.

(** *** The bracket check of the URL parser

    [urllib.parse.urlsplit] cuts the scheme at the first colon and, after
    a double slash, the network location at the first of [/?#]; it raises
    [ValueError] when the network location has one square bracket without
    the other.  The definition covers URLs without tab, carriage return,
    line feed and leading blanks, which the parser removes first. *)

Definition is_scheme_char (c : ascii) : bool :=
  let n := N_of_ascii c in
  (((97 <=? n) && (n <=? 122)) || ((65 <=? n) && (n <=? 90))
   || ((48 <=? n) && (n <=? 57))
   || (n =? 43) || (n =? 45) || (n =? 46))%N.

Definition is_alpha (c : ascii) : bool :=
  let n := N_of_ascii c in
  (((97 <=? n) && (n <=? 122)) || ((65 <=? n) && (n <=? 90)))%N.

Fixpoint all_chars (p : ascii -> bool) (s : string) : bool :=
  match s with
  | EmptyString => true
  | String c s' => p c && all_chars p s'
  end.

Definition split_scheme (url : string) : string * string :=
  let (before, rest) := span (fun c => negb (Ascii.eqb c ":")) url in
  match before, rest with
  | String c _, String _ after =>
      if is_alpha c && all_chars is_scheme_char before
      then (lower before, after) else (EmptyString, url)
  | _, _ => (EmptyString, url)
  end.

Definition split_netloc (url : string) : string :=
  match strip_prefix "//" url with
  | Some rest =>
      fst (span (fun c => negb (Ascii.eqb c "/" || Ascii.eqb c "?"
                                || Ascii.eqb c "#")) rest)
  | None => EmptyString
  end.

Definition urlsplit_brackets (url : string) : parsed :=
  let (scheme, rest) := split_scheme url in
  let netloc := split_netloc rest in
  if (contains "[" netloc && negb (contains "]" netloc))
     || (contains "]" netloc && negb (contains "[" netloc))
  then ValueError "Invalid IPv6 URL"
  else ParseResult scheme netloc.

End JiraTools.

(** ** tools/pdf_tools.py: extracting a document *)

Module PdfTools.
Import Py.

Definition section (section_id title content : string) (page_number : Z)
    (section_type : string) : value :=
  VDict
    [("section_id", VStr section_id);
     ("title", VStr title);
     ("content", VStr content);
     ("page_number", VInt page_number);
     ("section_type", VStr section_type)].

Section Extract.

(** [os.path.exists] on the file system the tool runs on. *)
Variable path_exists : string -> bool.

(** The two multi-line texts of the mock documents. *)
Variable user_manual_content : string.
Variable api_spec_content : string.

Definition user_manual_pdf : dict :=
  [("title", VStr "User Authentication System - Requirements Document");
   ("total_pages", VInt 15);
   ("content", VStr user_manual_content);
   ("sections", VList
      [section "1" "Introduction"
         "This document outlines the requirements for implementing a secure user authentication system."
         1 "content";
       section "2" "Functional Requirements"
         "User Registration, User Login, Password Management requirements..."
         2 "requirements";
       section "3" "Non-Functional Requirements"
         "Security and Performance requirements..."
         8 "requirements";
       section "4" "Acceptance Criteria"
         "Detailed acceptance criteria for all features..."
         12 "criteria"])].

Definition api_spec_pdf : dict :=
  [("title", VStr "REST API Specification v2.1");
   ("total_pages", VInt 25);
   ("content", VStr api_spec_content);
   ("sections", VList
      [section "1" "Authentication Endpoints"
         "POST /api/auth/login, POST /api/auth/register"
         3 "api_spec";
       section "2" "User Management Endpoints"
         "GET /api/users/profile, PUT /api/users/profile"
         8 "api_spec"])].

Definition generic_pdf (pdf_path_or_url : string) : dict :=
  [("title", VStr ("Document: " +:+ basename pdf_path_or_url));
   ("total_pages", VInt 5);
   ("content", VStr "This is a sample PDF document with generic content for demonstration purposes.");
   ("sections", VList
      [section "1" "Generic Section" "Sample content from PDF document"
         1 "content"])].

Definition item (k : string) (content_data : dict) : value :=
  default VNone (get k content_data).

(** [pdf_path_or_url.startswith(('http://', 'https://'))] *)
Definition is_url (pdf_path_or_url : string) : bool :=
  startswith "http://" pdf_path_or_url || startswith "https://" pdf_path_or_url.

(** [extract_pdf_content].  No call in its [try] block raises on a
    string, so the [except] clause is not reached. *)
Definition extract_pdf_content (pdf_path_or_url : string) : dict :=
  if is_url pdf_path_or_url then
    [("status", VStr "error");
     ("message", VStr "PDF URL download not implemented in this demo");
     ("content", VStr "")]
  else if negb (path_exists pdf_path_or_url) then
    [("status", VStr "error");
     ("message", VStr ("PDF file not found: " +:+ pdf_path_or_url));
     ("content", VStr "")]
  else
    let filename := lower (basename pdf_path_or_url) in
    let content_data :=
      if contains "user" filename || contains "manual" filename
         || contains "requirements" filename
      then user_manual_pdf
      else if contains "api" filename || contains "spec" filename
      then api_spec_pdf
      else generic_pdf pdf_path_or_url in
    [("status", VStr "success");
     ("message",
      VStr ("Successfully extracted content from " +:+ pdf_path_or_url));
     ("document_title", item "title" content_data);
     ("total_pages", item "total_pages" content_data);
     ("full_content", item "content" content_data);
     ("sections", item "sections" content_data);
     ("file_path", VStr pdf_path_or_url)].

(** A successful result carries a title, a page count and sections. *)
Definition is_document (d : dict) : Prop :=
  get "status" d = Some (VStr "success") /\
  (exists t, get "document_title" d = Some (VStr t)) /\
  (exists n, get "total_pages" d = Some (VInt n)) /\
  (exists l, get "sections" d = Some (VList l)).

End Extract.

End PdfTools.

(** ** The pipeline engine

    The coordinator declares its workflows with the [SequentialAgent] and
    [LoopAgent] combinators; the code that runs them, and the loop's exit
    tool [tools.workflow_tools.exit_loop], are not part of the sources at
    hand. *)

Module Pipeline.
Import Py Coordinator.

(** Modelled from the spec: SharedState, missing from the sources; a
    mapping from string keys to values with [get] and [set] and no
    deletion. *)
Abbreviation SharedState := (gmap string value).

(** Modelled from the spec: the status of an ExecutionResult, missing from
    the sources. *)
Inductive stage_status : Type := success | failure | skipped.

(** Modelled from the spec: ExecutionResult, missing from the sources; the
    status of a stage, the state deltas it produced and an optional
    diagnostic. *)
Record ExecutionResult : Type := mkExecutionResult {
  status : stage_status;
  deltas : list (string * value);
  diagnostic : option string
}.

(** Modelled from the spec: Stage, missing from the sources; a name and an
    opaque body run against the shared state. *)
Record Stage : Type := mkStage {
  name : string;
  body : SharedState -> ExecutionResult
}.

(** Modelled from the spec: the final status of a PipelineResult, missing
    from the sources. *)
Inductive final : Type := completed | failed | exhausted_iterations.

(** Modelled from the spec: PipelineResult, missing from the sources; the
    ordered ExecutionResults, the final status and the terminal snapshot.
    [executed] lists the names of the stages that ran, in order. *)
Record PipelineResult : Type := mkPipelineResult {
  results : list ExecutionResult;
  executed : list string;
  final_status : final;
  snapshot : SharedState
}.

(** Modelled from the spec: the writes of a stage, missing from the
    sources; each delta is a [set], later ones overwrite earlier ones. *)
Definition apply_deltas (ds : list (string * value)) (state : SharedState)
  : SharedState :=
  fold_left (fun st kv => <[fst kv := snd kv]> st) ds state.

(** Modelled from the spec: the run of a Sequential pipeline, missing from
    the sources; stages run in declaration order on the cumulative state,
    and the first failure stops the run with the partial result list and
    without rollback. *)
Fixpoint run_sequential (stages : list Stage) (state : SharedState)
  : PipelineResult :=
  match stages with
  | [] =>
      {| results := []; executed := [];
         final_status := completed; snapshot := state |}
  | s :: rest =>
      let r := body s state in
      let state' := apply_deltas (deltas r) state in
      match status r with
      | failure =>
          {| results := [r]; executed := [name s];
             final_status := failed; snapshot := state' |}
      | _ =>
          let p := run_sequential rest state' in
          {| results := r :: results p; executed := name s :: executed p;
             final_status := final_status p; snapshot := snapshot p |}
      end
  end.





Section Declared.

(** The names and the bodies of the agents, and the exit predicate of the
    refinement loop. *)
Variable agent_name : agent -> string.
Variable agent_body : agent -> SharedState -> ExecutionResult.
Variable exit_loop : SharedState -> bool.

Definition stage_of (a : agent) : Stage :=
  {| name := agent_name a; body := agent_body a |}.

(** The stage list a declared workflow holds. *)
Definition stages_of (a : agent) : list Stage :=
  match a with
  | SequentialAgent _ sub_agents => map stage_of sub_agents
  | LoopAgent _ sub_agents _ => map stage_of sub_agents
  | _ => [stage_of a]
  end.



(** The stages of [git_workflow]. *)
Definition git_pipeline : list Stage := stages_of git_workflow.


End Declared.

(** Stage bodies for a run of [git_workflow] in which the code analyzer
    fails after the git analyzer has written its results. *)
Definition failing_analysis (a : agent) (state : SharedState)
  : ExecutionResult :=
  match a with
  | git_analyzer_agent =>
      {| status := success;
         deltas := [("git_analysis_results", VStr "2 files changed")];
         diagnostic := None |}
  | code_analyzer_agent =>
      {| status := failure; deltas := [];
         diagnostic := Some "no source code" |}
  | _ =>
      {| status := success;
         deltas := [("strategy_plan", VStr "plan")];
         diagnostic := None |}
  end.

(** Names for the agents; those of the imported agents are taken from
    their variables. *)
Definition variable_name (a : agent) : string :=
  match a with
  | code_analyzer_agent => "code_analyzer_agent"
  | test_case_designer_agent => "test_case_designer_agent"
  | test_implementer_agent => "test_implementer_agent"
  | test_runner_agent => "test_runner_agent"
  | debugger_and_refiner_agent => "debugger_and_refiner_agent"
  | git_analyzer_agent => "GitAnalyzer"
  | jira_integration_agent => "JiraIntegrator"
  | pdf_processor_agent => "PdfProcessor"
  | script_generator_agent => "ScriptGenerator"
  | strategy_planner_agent => "StrategyPlanner"
  | SequentialAgent n _ => n
  | LoopAgent n _ _ => n
  end.




End Pipeline.

(** ** Sessions: what every reachable orchestrator satisfies *)

Module Sessions.
Import Py Classifier Orchestrator.

(** The sessions the service created are numbered in creation order, and
    every active session is one of them, filed under its own user. *)
Definition consistent (self : orchestrator) : Prop :=
  (forall i s, service_sessions self !! i = Some s -> session_id s = i) /\
  (forall user_id s,
      active_sessions self !! user_id = Some s ->
      session_user_id s = user_id /\
      session_app_name s = "enhanced_agent_engine" /\
      service_sessions self !! session_id s = Some s).

End Sessions.


(** ** main_orchestrator.py: reading the identifier of a session

    [create_session] and [process_user_message] read the attribute
    [session_id] of the session object the library's service made.  The
    object is the library's; the read is taken as a parameter, and raises
    [AttributeError] on an object without that attribute. *)

Module SessionCalls.
Import Py Classifier Orchestrator.

(** The keyword arguments of [runner.run_async]. *)
Record runner_call (Id : Type) : Type := mkRunnerCall {
  run_user_id : string;
  run_session_id : Id;
  run_content : dict
}.
Arguments mkRunnerCall {Id} _ _ _.
Arguments run_user_id {Id} _.
Arguments run_session_id {Id} _.
Arguments run_content {Id} _.

Section Calls.

(** The identifiers of the library, and [session.session_id]. *)
Variable Id : Type.
Variable getattr_session_id : Session -> outcome Id.

(** [ChatbotOrchestrator.create_session], with what it returns: the
    session is filed first, its identifier read afterwards. *)
Definition create_session_call (self : orchestrator) (user_id : string)
  : orchestrator * outcome Id :=
  let session :=
    {| session_id := List.length (service_sessions self);
       session_app_name := "enhanced_agent_engine";
       session_user_id := user_id |} in
  ({| service_sessions := service_sessions self ++ [session];
      active_sessions := <[user_id := session]> (active_sessions self) |},
   getattr_session_id session).

(** [ChatbotOrchestrator.process_user_message], up to the call of the
    runner.  An exception leaves the orchestrator as it is at the point
    where it is raised. *)
Definition process_user_message_call (self : orchestrator)
    (user_id message : string) (timestamp : value)
  : orchestrator * outcome (runner_call Id) :=
  let created :=
    match active_sessions self !! user_id with
    | None =>
        let (self', returned) := create_session_call self user_id in
        (self', let! _ := returned in Return tt)
    | Some _ => (self, Return tt)
    end in
  let self := fst created in
  (self,
   let! _ := snd created in
   let request_type := _detect_request_type message in
   let formatted_request := _format_request message request_type timestamp in
   match active_sessions self !! user_id with
   | Some session =>
       let! id := getattr_session_id session in
       Return {| run_user_id := user_id;
                 run_session_id := id;
                 run_content := formatted_request |}
   | None => Raise (Exception ("KeyError: " +:+ user_id))
   end).

End Calls.

(** A session object without the attribute [session_id]. *)
Definition no_session_id (session : Session) : outcome string :=
  Raise (Exception "'Session' object has no attribute 'session_id'").

End SessionCalls.
(** ** agents/enhanced_coordinator.py: state initialization *)

Module StateInit.
Import Py.

(** What [json.loads] makes of a text: a value, a [JSONDecodeError], or
    another exception (such as [RecursionError]). *)
Inductive loaded : Type :=
| Loaded (v : value)
| JSONDecodeError
| LoadError (e : exn).

(** The keys written for every request whose text is a JSON object. *)
Definition store_request (request_data : dict) (state : gmap string value)
  : gmap string value :=
  let state :=
    <["user_message" := default (VStr "") (get "user_message" request_data)]>
      state in
  let state :=
    <["request_type" :=
        default (VStr "general_chat") (get "request_type" request_data)]>
      state in
  let state :=
    <["task" :=
        default (VStr "general_assistance") (get "task" request_data)]>
      state in
  let state := <["source_code" := VStr ""]> state in
  let state := <["language" := VStr "python"]> state in
  let state :=
    <["test_results" := VDict [("status", VStr "UNKNOWN")]]> state in
  <["analysis_complete" := VBool false]> state.

(** [x in [a, b]] for a loaded value and two constant strings. *)
Definition is_one_of (names : list string) (v : value) : bool :=
  match v with
  | VStr s => existsb (String.eqb s) names
  | _ => false
  end.

(** The keys written for the request type at hand. *)
Definition store_task_specific (request_data : dict)
    (state : gmap string value) : gmap string value :=
  let request_type := default (VStr "") (get "request_type" request_data) in
  if is_one_of ["git_analysis"; "git_pull"] request_type then
    <["affected_files" := VList []]>
      (<["git_changes" := VList []]>
         (<["repository_url" := VStr ""]> state))
  else if is_one_of ["jira_analysis"; "jira_test_generation"] request_type
  then
    <["test_scenarios" := VList []]>
      (<["jira_requirements" := VDict []]>
         (<["jira_url" := VStr ""]> state))
  else if is_one_of ["pdf_processing"] request_type then
    <["document_analysis" := VDict []]> (<["pdf_content" := VStr ""]> state)
  else if is_one_of ["script_generation"] request_type then
    <["generated_script" := VStr ""]>
      (<["script_requirements" := VDict []]> state)
  else state.

(** The [except] branch: the text is taken as the message. *)
Definition store_plain_text (text : string) (state : gmap string value)
  : gmap string value :=
  <["task" := VStr "general_assistance"]>
    (<["request_type" := VStr "general_chat"]>
       (<["user_message" := VStr text]> state)).

Section Initialize.

(** [json.loads] *)
Variable json_loads : string -> loaded.

(** [initialize_enhanced_state].  [user_content] is [None] or the texts
    of its parts; the state is updated in place.  A loaded value that is
    not a dictionary has no [get]: the [AttributeError] of the first
    statement is caught before anything is written. *)
Definition initialize_enhanced_state (user_content : option (list string))
    (state : gmap string value) : outcome (gmap string value) :=
  match user_content with
  | Some (text :: _) =>
      match json_loads text with
      | Loaded (VDict request_data) =>
          Return (store_task_specific request_data
                    (store_request request_data state))
      | Loaded _ => Return (store_plain_text text state)
      | JSONDecodeError => Return (store_plain_text text state)
      | LoadError e => Raise e
      end
  | _ => Return state
  end.

End Initialize.

(** The keys every request with a JSON object gets. *)
Definition common_keys : list string :=
  ["user_message"; "request_type"; "task"; "source_code"; "language";
   "test_results"; "analysis_complete"].

Definition git_keys : list string :=
  ["repository_url"; "git_changes"; "affected_files"].

Definition jira_keys : list string :=
  ["jira_url"; "jira_requirements"; "test_scenarios"].

Definition pdf_keys : list string := ["pdf_content"; "document_analysis"].

Definition script_keys : list string :=
  ["script_requirements"; "generated_script"].

(** A loader that reads every text as one given request. *)
Definition loads_as (request_data : dict) (text : string) : loaded :=
  Loaded (VDict request_data).

End StateInit.

(** ** More string primitives *)

From Stdlib Require DecimalString.

Module PyText.
Import Py.

Definition tab : ascii := "009"%char.
Definition newline : ascii := "010"%char.

(** [s.split(sep)] for a separator of one character. *)
Fixpoint split (sep : ascii) (s : string) : list string :=
  match s with
  | EmptyString => [EmptyString]
  | String c s' =>
      if Ascii.eqb c sep then EmptyString :: split sep s'
      else
        match split sep s' with
        | field :: fields => String c field :: fields
        | [] => [String c EmptyString]
        end
  end.

(** [s.endswith(c)] for one character. *)
Fixpoint ends_with (c : ascii) (s : string) : bool :=
  match s with
  | EmptyString => false
  | String a EmptyString => Ascii.eqb a c
  | String _ s' => ends_with c s'
  end.

(** [os.path.join(path, b)] *)
Definition path_join (path b : string) : string :=
  if startswith "/" b then b
  else if negb (nonempty path) || ends_with "/" path then path +:+ b
  else path +:+ "/" +:+ b.

(** [str(n)] for an integer. *)
Definition str_of_Z (n : Z) : string :=
  DecimalString.NilZero.string_of_int (Z.to_int n).

(** [len(l)] as an integer. *)
Definition len {A} (l : list A) : Z := Z.of_nat (List.length l).

(** [s[:n]] *)
Fixpoint take (n : nat) (s : string) : string :=
  match n, s with
  | O, _ => EmptyString
  | S n', String c s' => String c (take n' s')
  | S _, EmptyString => EmptyString
  end.

End PyText.

(** ** tools/git_tools.py: analysing changes *)

Module GitChanges.
Import Py PyText GitTools.

(** Truthiness of an optional text: [None] and the empty text are
    false. *)
Definition given (since_commit : option string) : bool :=
  match since_commit with
  | Some s => nonempty s
  | None => false
  end.

Definition change_type_map : list (string * string) :=
  [("A", "added"); ("M", "modified"); ("D", "deleted"); ("R", "renamed");
   ("C", "copied")].

Fixpoint lookup_code (code : string) (table : list (string * string))
  : option string :=
  match table with
  | [] => None
  | (k, v) :: table' =>
      if String.eqb code k then Some v else lookup_code code table'
  end.

(** [status[0]]; an empty text has no first character. *)
Definition first_char (status : string) : outcome string :=
  match status with
  | EmptyString => Raise (Exception "string index out of range")
  | String c _ => Return (String c EmptyString)
  end.

(** One turn of the loop over the lines of [git diff --name-status]: the
    change and the file path it appends, if any. *)
Definition parse_line (line : string) : outcome (option (value * value)) :=
  if nonempty line then
    match split tab line with
    | status :: file_path :: _ =>
        let! code := first_char status in
        let change_type :=
          default "unknown" (lookup_code code change_type_map) in
        Return
          (Some
             (VDict [("file_path", VStr file_path);
                     ("change_type", VStr change_type);
                     ("status_code", VStr status)],
              VStr file_path))
    | _ => Return None
    end
  else Return None.

(** The loop: [changes] and [affected_files] in the order of the lines. *)
Fixpoint parse_lines (lines : list string)
  : outcome (list value * list value) :=
  match lines with
  | [] => Return ([], [])
  | line :: lines' =>
      let! item := parse_line line in
      let! parsed := parse_lines lines' in
      match item with
      | Some (change, file_path) =>
          Return (change :: fst parsed, file_path :: snd parsed)
      | None => Return parsed
      end
  end.

(** What is made of the output of [git diff --name-status]. *)
Definition parse_name_status (output : string)
  : outcome (list value * list value) :=
  if nonempty (strip output) then parse_lines (split newline (strip output))
  else Return ([], []).

Section Analyze.

Variable sys : system.

(** [os.path.exists] *)
Variable path_exists : string -> bool.

Definition log_cmd (repository_path : string) (since_commit : option string)
    (max_commits : Z) : list string :=
  if given since_commit then
    ["git"; "-C"; repository_path; "log";
     default "" since_commit +:+ "..HEAD"; "--oneline";
     "-" +:+ str_of_Z max_commits]
  else
    ["git"; "-C"; repository_path; "log"; "--oneline";
     "-" +:+ str_of_Z max_commits].

Definition diff_cmd (repository_path : string)
    (since_commit : option string) : list string :=
  if given since_commit then
    ["git"; "-C"; repository_path; "diff"; "--name-status";
     default "" since_commit +:+ "..HEAD"]
  else
    ["git"; "-C"; repository_path; "diff"; "--name-status"; "HEAD~1..HEAD"].

Definition stats_cmd (repository_path : string) : list string :=
  ["git"; "-C"; repository_path; "diff"; "--stat"; "HEAD~1..HEAD"].

(** The [try] block of [analyze_git_changes]. *)
Definition analyze_git_changes_body (repository_path : string)
    (since_commit : option string) (max_commits : Z) : outcome dict :=
  if negb (path_exists repository_path)
     || negb (path_exists (path_join repository_path ".git"))
  then
    Return
      [("status", VStr "error");
       ("message", VStr "Invalid Git repository path");
       ("changes", VList [])]
  else
    let! log_result :=
      subprocess_run sys (log_cmd repository_path since_commit max_commits)
        None in
    let commit_messages :=
      if nonempty (strip (stdout log_result))
      then split newline (strip (stdout log_result)) else [] in
    let! diff_result :=
      subprocess_run sys (diff_cmd repository_path since_commit) None in
    let! parsed := parse_name_status (stdout diff_result) in
    let changes := fst parsed in
    let affected_files := snd parsed in
    let! stats_result :=
      subprocess_run sys (stats_cmd repository_path) None in
    Return
      [("status", VStr "success");
       ("changes", VList changes);
       ("affected_files", VList affected_files);
       ("commit_messages", VList (map VStr commit_messages));
       ("stats",
        VStr (if nonempty (stdout stats_result)
              then strip (stdout stats_result) else ""));
       ("total_files_changed", VInt (len affected_files));
       ("summary",
        VStr ("Analyzed " +:+ str_of_Z (len commit_messages)
              +:+ " commits affecting " +:+ str_of_Z (len affected_files)
              +:+ " files"))].

(** [analyze_git_changes] *)
Definition analyze_git_changes (repository_path : string)
    (since_commit : option string) (max_commits : Z) : outcome dict :=
  match analyze_git_changes_body repository_path since_commit max_commits
  with
  | Return d => Return d
  | Raise (TimeoutExpired e)
  | Raise (Exception e) =>
      Return
        [("status", VStr "error");
         ("message", VStr ("Error analyzing Git changes: " +:+ e));
         ("changes", VList [])]
  | Raise (BaseException e) => Raise (BaseException e)
  end.

End Analyze.

(** The change types a result can name. *)
Definition change_types : list string :=
  ["added"; "modified"; "deleted"; "renamed"; "copied"; "unknown"].

(** A change as the loop builds it: a dictionary with a file path, one of
    the change types and a status code that is not empty. *)
Definition well_formed_change (change : value) : Prop :=
  exists file_path change_type status,
    change = VDict [("file_path", VStr file_path);
                    ("change_type", VStr change_type);
                    ("status_code", VStr status)] /\
    In change_type change_types /\ status <> "".

(** The file path of a change. *)
Definition file_path_of (change : value) : value :=
  match change with
  | VDict d => default VNone (get "file_path" d)
  | _ => VNone
  end.

(** A line that names a file: it has a tab. *)
Definition names_file (line : string) : bool :=
  contains (String tab EmptyString) line.

(** A line split at its tabs has a second field. *)
Definition has_two (fields : list string) : bool :=
  match fields with
  | _ :: _ :: _ => true
  | _ => false
  end.

(** A git that reports one modified and one added file. *)
Definition reporting_system : system :=
  {| mkdtemp := fun p => Return ("/tmp/" +:+ p +:+ "0");
     subprocess_run := fun cmd _ =>
       Return {| returncode := 0;
                 stdout := String "M" (String tab ("a.py" +:+
                           String newline (String "A"
                             (String tab ("b.py" +:+
                              String newline EmptyString)))));
                 stderr := "" |} |}.

End GitChanges.

(** ** tools/git_tools.py: the changes of one file, and cleaning up *)

Module FileChanges.
Import Py PyText GitTools GitChanges.

(** What opening and reading a file as UTF-8 text gives. *)
Inductive read_result : Type :=
| ReadText (text : string)
| UnicodeDecodeError
| ReadRaises (e : exn).

(** The files of the machine: [os.path.exists], reading a text file, and
    [shutil.rmtree]. *)
Record files : Type := mkFiles {
  path_exists : string -> bool;
  read_text : string -> read_result;
  rmtree : string -> outcome unit
}.

(** [text[:2000] + "..." if len(text) > 2000 else text] *)
Definition preview (text : string) : string :=
  if (2000 <? String.length text)%nat then take 2000 text +:+ "..."
  else text.

Section Extract.

Variable sys : system.
Variable fs : files.

(** The built-in [int] on a text: the integer, or [None] for a
    [ValueError]. *)
Variable int_of_string : string -> option Z.

(** [int(field) if field != '-' else 0] *)
Definition count_of (field : string) : option Z :=
  if negb (String.eqb field "-") then int_of_string field else Some 0%Z.

(** [additions] and [deletions] from the output of [git diff --numstat].
    The two assignments share one [try]: when the second conversion fails
    the first has already been stored. *)
Definition numstat (output : string) : Z * Z :=
  if nonempty (strip output) then
    match split tab (strip output) with
    | first :: second :: _ =>
        match count_of first with
        | Some additions =>
            match count_of second with
            | Some deletions => (additions, deletions)
            | None => (additions, 0%Z)
            end
        | None => (0%Z, 0%Z)
        end
    | _ => (0%Z, 0%Z)
    end
  else (0%Z, 0%Z).

Definition file_diff_cmd (repository_path file_path : string)
    (since_commit : option string) : list string :=
  if given since_commit then
    ["git"; "-C"; repository_path; "diff";
     default "" since_commit +:+ "..HEAD"; "--"; file_path]
  else
    ["git"; "-C"; repository_path; "diff"; "HEAD~1..HEAD"; "--"; file_path].

Definition stat_cmd (repository_path file_path : string) : list string :=
  ["git"; "-C"; repository_path; "diff"; "--numstat"; "HEAD~1..HEAD"; "--";
   file_path].

(** The content read for the file, when it exists. *)
Definition current_content_of (full_file_path : string) : outcome string :=
  if path_exists fs full_file_path then
    match read_text fs full_file_path with
    | ReadText text => Return text
    | UnicodeDecodeError => Return "[Binary file or encoding issue]"
    | ReadRaises e => Raise e
    end
  else Return "".

(** The [try] block of [extract_file_changes]. *)
Definition extract_file_changes_body (repository_path file_path : string)
    (since_commit : option string) : outcome dict :=
  if negb (path_exists fs repository_path) then
    Return
      [("status", VStr "error");
       ("message", VStr "Repository path does not exist");
       ("content", VStr "")]
  else
    let full_file_path := path_join repository_path file_path in
    let! current_content := current_content_of full_file_path in
    let! diff_result :=
      subprocess_run sys
        (file_diff_cmd repository_path file_path since_commit) None in
    let! stat_result :=
      subprocess_run sys (stat_cmd repository_path file_path) None in
    let (additions, deletions) := numstat (stdout stat_result) in
    Return
      [("status", VStr "success");
       ("file_path", VStr file_path);
       ("current_content", VStr (preview current_content));
       ("diff", VStr (stdout diff_result));
       ("additions", VInt additions);
       ("deletions", VInt deletions);
       ("file_exists", VBool (path_exists fs full_file_path));
       ("summary",
        VStr ("File " +:+ file_path +:+ ": +" +:+ str_of_Z additions
              +:+ " -" +:+ str_of_Z deletions +:+ " lines changed"))].

(** [extract_file_changes] *)
Definition extract_file_changes (repository_path file_path : string)
    (since_commit : option string) : outcome dict :=
  match extract_file_changes_body repository_path file_path since_commit
  with
  | Return d => Return d
  | Raise (TimeoutExpired e)
  | Raise (Exception e) =>
      Return
        [("status", VStr "error");
         ("message", VStr ("Error extracting file changes: " +:+ e));
         ("content", VStr "")]
  | Raise (BaseException e) => Raise (BaseException e)
  end.

(** [cleanup_repository] *)
Definition cleanup_repository (repository_path : string) : outcome dict :=
  if path_exists fs repository_path then
    match rmtree fs repository_path with
    | Return _ =>
        Return
          [("status", VStr "success");
           ("message",
            VStr ("Successfully cleaned up repository at "
                  +:+ repository_path))]
    | Raise (TimeoutExpired e)
    | Raise (Exception e) =>
        Return
          [("status", VStr "error");
           ("message", VStr ("Error cleaning up repository: " +:+ e))]
    | Raise (BaseException e) => Raise (BaseException e)
    end
  else
    Return
      [("status", VStr "warning");
       ("message",
        VStr "Repository path does not exist, nothing to clean up")].

End Extract.

(** The text of the [current_content] field of a result. *)
Definition content_of (d : dict) : option string :=
  match get "current_content" d with
  | Some (VStr s) => Some s
  | _ => None
  end.

(** Files that are all there, none of them readable as text. *)
Definition binary_files : files :=
  {| path_exists := fun _ => true;
     read_text := fun _ => UnicodeDecodeError;
     rmtree := fun _ => Return tt |}.

(** A repository directory without the file asked for. *)
Definition bare_files : files :=
  {| path_exists := fun p => String.eqb p "/repo";
     read_text := fun _ => ReadRaises (Exception "No such file or directory");
     rmtree := fun _ => Return tt |}.

End FileChanges.

(** ** Operations on dynamically typed values

    The tools below take dictionaries whose entries may hold anything.
    An operation applied to a value of the wrong kind raises
    [AttributeError], [TypeError] or [KeyError], all of them within the
    [Exception] class. *)

Module Dyn.
Import Py PyText.

(** The run-time errors of the operations used. *)
Inductive fault : Type :=
| NoAttribute (v : value) (attribute : string)
| NotIterable (v : value)
| NotSubscriptable (v : value)
| KeyMissing (key : string)
| NoLength (v : value)
| NotComparable (v : value)
| NotText (v : value).

(** The characters of a text, each as a text of its own. *)
Fixpoint chars (s : string) : list value :=
  match s with
  | EmptyString => []
  | String c s' => VStr (String c EmptyString) :: chars s'
  end.

(** The keys of a dictionary, each once, in the order they first
    occur. *)
Fixpoint keys (seen : list string) (d : dict) : list value :=
  match d with
  | [] => []
  | (k, _) :: d' =>
      if existsb (String.eqb k) seen then keys seen d'
      else VStr k :: keys (k :: seen) d'
  end.

(** [a == b] for a value and a constant text. *)
Definition is_text (name : string) (v : value) : bool :=
  match v with
  | VStr s => String.eqb s name
  | _ => false
  end.

(** [f"{n:03d}"] for a counter that is not negative. *)
Definition pad3 (n : Z) : string :=
  if (n <? 10)%Z then "00" +:+ str_of_Z n
  else if (n <? 100)%Z then "0" +:+ str_of_Z n
  else str_of_Z n.

(** [', '.join(texts)] *)
Fixpoint join_comma (texts : list string) : string :=
  match texts with
  | [] => EmptyString
  | [s] => s
  | s :: texts' => s +:+ ", " +:+ join_comma texts'
  end.

Section Operations.

(** The message of each run-time error, and the text the interpreter
    prints for a value that is not a text. *)
Variable describe : fault -> string.
Variable repr : value -> string.

Definition fail {A : Type} (f : fault) : outcome A :=
  Raise (Exception (describe f)).

(** [v.get(key, default)] *)
Definition dict_get (v : value) (key : string) (dflt : value)
  : outcome value :=
  match v with
  | VDict d => Return (default dflt (get key d))
  | _ => fail (NoAttribute v "get")
  end.

(** [v[key]] for a text key. *)
Definition subscript (v : value) (key : string) : outcome value :=
  match v with
  | VDict d =>
      match get key d with
      | Some x => Return x
      | None => fail (KeyMissing key)
      end
  | _ => fail (NotSubscriptable v)
  end.

(** The items a [for] loop over [v] visits. *)
Definition items (v : value) : outcome (list value) :=
  match v with
  | VList l => Return l
  | VStr s => Return (chars s)
  | VDict d => Return (keys [] d)
  | _ => fail (NotIterable v)
  end.

(** [v[:50]] *)
Definition slice50 (v : value) : outcome value :=
  match v with
  | VStr s => Return (VStr (take 50 s))
  | VList l => Return (VList (firstn 50 l))
  | _ => fail (NotSubscriptable v)
  end.

(** [len(v)] *)
Definition length_of (v : value) : outcome Z :=
  match v with
  | VList l => Return (len l)
  | VStr s => Return (Z.of_nat (String.length s))
  | VDict d => Return (len (keys [] d))
  | _ => fail (NoLength v)
  end.

(** [v > 3] *)
Definition greater_than_3 (v : value) : outcome bool :=
  match v with
  | VInt n => Return (3 <? n)%Z
  | VBool _ => Return false
  | _ => fail (NotComparable v)
  end.

(** [v.lower()] *)
Definition lowered (v : value) : outcome string :=
  match v with
  | VStr s => Return (lower s)
  | _ => fail (NoAttribute v "lower")
  end.

(** A value where a text is required. *)
Definition text_of (v : value) : outcome string :=
  match v with
  | VStr s => Return s
  | _ => fail (NotText v)
  end.

(** [', '.join(v)] *)
Fixpoint texts_of (l : list value) : outcome (list string) :=
  match l with
  | [] => Return []
  | v :: l' =>
      let! s := text_of v in
      let! rest := texts_of l' in
      Return (s :: rest)
  end.

Definition joined (v : value) : outcome string :=
  let! l := items v in
  let! texts := texts_of l in
  Return (join_comma texts).

(** A value inside an f-string. *)
Definition fstr (v : value) : string :=
  match v with
  | VStr s => s
  | _ => repr v
  end.

(** A loop that appends what each turn yields, the counter running
    along. *)
Fixpoint for_each (turn : Z -> value -> outcome (list value * Z))
    (counter : Z) (l : list value) : outcome (list value * Z) :=
  match l with
  | [] => Return ([], counter)
  | v :: l' =>
      let! first := turn counter v in
      let! rest := for_each turn (snd first) l' in
      Return ((fst first ++ fst rest)%list, snd rest)
  end.

End Operations.

(** An interpreter that words every error and every value alike. *)
Definition plain_describe (f : fault) : string := "error".
Definition plain_repr (v : value) : string := "<value>".
Definition no_match (pattern : string) (multiline : bool) (text : string)
  : list string := [].

(** [len([s for s in l if s['test_type'] == name])] over dictionaries
    that all have a test type. *)
Definition has_test_type (name : string) (v : value) : bool :=
  match v with
  | VDict d => is_text name (default VNone (get "test_type" d))
  | _ => false
  end.

Definition count_test_type (name : string) (l : list value) : Z :=
  len (List.filter (has_test_type name) l).

End Dyn.

(** ** tools/pdf_tools.py: document structure and test cases *)

Module PdfAnalysis.
Import Py PyText Dyn.

(** [not data or data.get("status") != "success"] *)
Definition not_successful (data : dict) : bool :=
  match data with
  | [] => true
  | _ => negb (is_text "success" (default VNone (get "status" data)))
  end.

Definition flag (b : bool) : value := VBool b.

Section Analysis.

Variable describe : fault -> string.
Variable repr : value -> string.

(** [re.findall(pattern, text, flags)] with [re.IGNORECASE], and with
    [re.MULTILINE] when the second argument says so: the texts of the one
    group of the pattern. *)
Variable findall : string -> bool -> string -> list string.

(** The section kinds, each with the keywords looked for in a title. *)
Definition section_kind (title_lower : string) : option string :=
  if any_in ["requirement"; "functional"; "non-functional"] title_lower
  then Some "requirements"
  else if any_in ["api"; "endpoint"; "specification"] title_lower
  then Some "api_spec"
  else if any_in ["acceptance"; "criteria"; "test"] title_lower
  then Some "acceptance_criteria"
  else None.

(** One turn of the loop over the sections: the title and the entry
    appended, if the title names a key section. *)
Definition analyze_section (section : value)
  : outcome (option (value * value)) :=
  let! content := dict_get describe section "content" (VStr "") in
  let! section_content_lower := lowered describe content in
  let! title := dict_get describe section "title" (VStr "") in
  let! section_title_lower := lowered describe title in
  match section_kind section_title_lower with
  | Some kind =>
      let! key_section := subscript describe section "title" in
      let! section_id := subscript describe section "section_id" in
      let! entry_title := subscript describe section "title" in
      let! page := dict_get describe section "page_number" (VInt 1) in
      Return
        (Some
           (key_section,
            VDict [("section_id", section_id);
                   ("title", entry_title);
                   ("type", VStr kind);
                   ("page", page)]))
  | None => Return None
  end.

Fixpoint analyze_sections (sections : list value)
  : outcome (list value * list value) :=
  match sections with
  | [] => Return ([], [])
  | section :: sections' =>
      let! item := analyze_section section in
      let! rest := analyze_sections sections' in
      match item with
      | Some (title, entry) => Return (title :: fst rest, entry :: snd rest)
      | None => Return rest
      end
  end.

Definition testable_patterns : list string :=
  ["user\s+(?:must|should|can|will)\s+([^.]+)";
   "system\s+(?:must|should|will)\s+([^.]+)";
   "(?:must|should)\s+([^.]+)";
   "acceptance\s+criteria[:\s]*([^.]+)"].

(** The matches kept: those longer than ten characters once stripped. *)
Definition long_matches (matches : list string) : list string :=
  List.filter (fun m => (10 <? String.length m)%nat) (map strip matches).

Definition testable_item (description : string) : value :=
  VDict [("description", VStr description);
         ("type", VStr "functional_requirement");
         ("testable", VBool true)].

Definition testable_items_of (full_content : string) : list value :=
  flat_map
    (fun pattern =>
       map testable_item (long_matches (findall pattern true full_content)))
    testable_patterns.

(** The [try] block of [analyze_document_structure]. *)
Definition analyze_document_structure_body (pdf_content_data : dict)
  : outcome dict :=
  if not_successful pdf_content_data then
    Return
      [("status", VStr "error");
       ("message", VStr "Invalid PDF content data provided");
       ("analysis", VDict [])]
  else
    let full_content :=
      default (VStr "") (get "full_content" pdf_content_data) in
    let sections := default (VList []) (get "sections" pdf_content_data) in
    let! sections_count := length_of describe sections in
    let! content_lower := lowered describe full_content in
    let has_requirements :=
      any_in ["requirement"; "specification"; "spec"] content_lower in
    let has_api_specs :=
      any_in ["api"; "endpoint"; "rest"; "post"; "get"; "put"; "delete"]
        content_lower in
    let has_test_cases :=
      any_in ["test"; "testing"; "test case"; "scenario"] content_lower in
    let has_acceptance_criteria :=
      any_in ["acceptance criteria"; "acceptance"; "criteria"]
        content_lower in
    let document_type :=
      if has_api_specs then "api_specification"
      else if has_requirements then "requirements"
      else "unknown" in
    let! section_list := items describe sections in
    let! analyzed := analyze_sections section_list in
    let! text := text_of describe full_content in
    let structure_analysis :=
      [("document_type", VStr document_type);
       ("has_requirements", VBool has_requirements);
       ("has_api_specs", VBool has_api_specs);
       ("has_test_cases", VBool has_test_cases);
       ("has_acceptance_criteria", VBool has_acceptance_criteria);
       ("sections_count", VInt sections_count);
       ("key_sections", VList (fst analyzed));
       ("requirements_sections", VList (snd analyzed));
       ("testable_items", VList (testable_items_of text))] in
    Return
      [("status", VStr "success");
       ("message",
        VStr ("Analyzed document structure with "
              +:+ str_of_Z sections_count +:+ " sections"));
       ("analysis", VDict structure_analysis);
       ("recommendations", VList
          [VStr (if has_requirements
                 then "Extract requirements for test case generation"
                 else "No clear requirements found");
           VStr (if has_api_specs then "Generate API test cases"
                 else "No API specifications found");
           VStr (if has_acceptance_criteria
                 then "Validate acceptance criteria coverage"
                 else "No acceptance criteria found")])].

(** Wrapping a [try] block: what its [except Exception] clause returns
    is made from the message of the exception. *)
Definition guarded (body : outcome dict) (on_error : string -> dict)
  : outcome dict :=
  match body with
  | Return d => Return d
  | Raise (TimeoutExpired e)
  | Raise (Exception e) => Return (on_error e)
  | Raise (BaseException e) => Raise (BaseException e)
  end.

(** [analyze_document_structure] *)
Definition analyze_document_structure (pdf_content_data : dict)
  : outcome dict :=
  guarded (analyze_document_structure_body pdf_content_data)
    (fun e =>
       [("status", VStr "error");
        ("message", VStr ("Error analyzing document structure: " +:+ e));
        ("analysis", VDict [])]).

(** The two test cases made for a testable item. *)
Definition item_test_cases (counter : Z) (item : value)
  : outcome (list value * Z) :=
  let! description := subscript describe item "description" in
  let! head := slice50 describe description in
  let positive_test :=
    VDict
      [("test_case_id", VStr ("TC-PDF-" +:+ pad3 counter));
       ("title", VStr ("Verify: " +:+ fstr repr head +:+ "..."));
       ("description",
        VStr ("Test that the system correctly implements: "
              +:+ fstr repr description));
       ("preconditions", VList
          [VStr "System is properly configured";
           VStr "User has appropriate permissions"]);
       ("test_steps", VList
          [VStr "Navigate to the relevant functionality";
           VStr "Execute the required action as described";
           VStr "Verify the expected behavior occurs"]);
       ("expected_result", description);
       ("test_type", VStr "Functional");
       ("priority", VStr "Medium");
       ("source", VStr "PDF Requirements")] in
  let negative_test :=
    VDict
      [("test_case_id", VStr ("TC-PDF-" +:+ pad3 (counter + 1)));
       ("title",
        VStr ("Verify error handling: " +:+ fstr repr head +:+ "..."));
       ("description",
        VStr ("Test error handling for: " +:+ fstr repr description));
       ("preconditions", VList [VStr "System is properly configured"]);
       ("test_steps", VList
          [VStr "Navigate to the relevant functionality";
           VStr "Attempt invalid or boundary condition inputs";
           VStr "Verify appropriate error handling"]);
       ("expected_result",
        VStr "System handles invalid input gracefully with appropriate error messages");
       ("test_type", VStr "Negative");
       ("priority", VStr "Low");
       ("source", VStr "PDF Requirements")] in
  Return ([positive_test; negative_test], (counter + 2)%Z).

Definition api_test (counter : Z) : value :=
  VDict
    [("test_case_id", VStr ("TC-PDF-" +:+ pad3 counter));
     ("title", VStr "API Endpoint Validation");
     ("description",
      VStr "Validate all API endpoints defined in the specification");
     ("preconditions", VList
        [VStr "API server is running";
         VStr "Authentication tokens are available"]);
     ("test_steps", VList
        [VStr "Send requests to all defined endpoints";
         VStr "Verify response formats match specification";
         VStr "Test error scenarios and status codes"]);
     ("expected_result",
      VStr "All API endpoints respond according to specification");
     ("test_type", VStr "API");
     ("priority", VStr "High");
     ("source", VStr "PDF API Specification")].

Definition requirements_test (counter : Z) : value :=
  VDict
    [("test_case_id", VStr ("TC-PDF-" +:+ pad3 counter));
     ("title", VStr "Requirements Coverage Validation");
     ("description",
      VStr "Validate that all requirements from the PDF are properly implemented");
     ("preconditions", VList
        [VStr "System is deployed"; VStr "Test environment is configured"]);
     ("test_steps", VList
        [VStr "Review all functional requirements";
         VStr "Execute test scenarios for each requirement";
         VStr "Verify non-functional requirements where applicable"]);
     ("expected_result",
      VStr "All requirements are properly implemented and testable");
     ("test_type", VStr "Requirements");
     ("priority", VStr "High");
     ("source", VStr "PDF Requirements Document")].

Definition integration_test (counter : Z) : value :=
  VDict
    [("test_case_id", VStr ("TC-PDF-" +:+ pad3 counter));
     ("title", VStr "End-to-End Workflow Validation");
     ("description",
      VStr "Validate complete workflows described in the document");
     ("preconditions", VList
        [VStr "All system components are available";
         VStr "Test data is prepared"]);
     ("test_steps", VList
        [VStr "Execute complete user workflows";
         VStr "Verify data flow between components";
         VStr "Validate business process completion"]);
     ("expected_result",
      VStr "Complete workflows execute successfully as documented");
     ("test_type", VStr "Integration");
     ("priority", VStr "High");
     ("source", VStr "PDF Document Workflows")].

(** The test cases added for the document type, and the counter after
    them: only the API test case advances it. *)
Definition document_test_cases (doc_type : value) (counter : Z)
  : list value * Z :=
  if is_text "api_specification" doc_type
  then ([api_test counter], (counter + 1)%Z)
  else if is_text "requirements" doc_type
  then ([requirements_test counter], counter)
  else ([], counter).

(** The [try] block of [generate_test_cases_from_pdf]. *)
Definition generate_test_cases_from_pdf_body (pdf_analysis_data : dict)
  : outcome dict :=
  if not_successful pdf_analysis_data then
    Return
      [("status", VStr "error");
       ("message", VStr "Invalid PDF analysis data provided");
       ("test_cases", VList [])]
  else
    let analysis := default (VDict []) (get "analysis" pdf_analysis_data) in
    let! testable_items :=
      dict_get describe analysis "testable_items" (VList []) in
    let! item_list := items describe testable_items in
    let! from_items := for_each item_test_cases 1%Z item_list in
    let! doc_type :=
      dict_get describe analysis "document_type" (VStr "unknown") in
    let from_document := document_test_cases doc_type (snd from_items) in
    let! sections_count :=
      dict_get describe analysis "sections_count" (VInt 0) in
    let! many_sections := greater_than_3 describe sections_count in
    let test_cases :=
      (fst from_items ++ fst from_document
       ++ (if many_sections then [integration_test (snd from_document)]
           else []))%list in
    Return
      [("status", VStr "success");
       ("message",
        VStr ("Generated " +:+ str_of_Z (len test_cases)
              +:+ " test cases from PDF analysis"));
       ("test_cases", VList test_cases);
       ("summary", VDict
          [("total_test_cases", VInt (len test_cases));
           ("functional_tests",
            VInt (count_test_type "Functional" test_cases));
           ("negative_tests", VInt (count_test_type "Negative" test_cases));
           ("api_tests", VInt (count_test_type "API" test_cases));
           ("integration_tests",
            VInt (count_test_type "Integration" test_cases));
           ("source_document_type", doc_type)])].

(** [generate_test_cases_from_pdf] *)
Definition generate_test_cases_from_pdf (pdf_analysis_data : dict)
  : outcome dict :=
  guarded (generate_test_cases_from_pdf_body pdf_analysis_data)
    (fun e =>
       [("status", VStr "error");
        ("message",
         VStr ("Error generating test cases from PDF: " +:+ e));
        ("test_cases", VList [])]).

End Analysis.

(** The identifier of a test case. *)
Definition test_case_id (test_case : value) : option string :=
  match test_case with
  | VDict d =>
      match get "test_case_id" d with
      | Some (VStr s) => Some s
      | _ => None
      end
  | _ => None
  end.

(** The status of a tool result. *)
Definition status_of (result : outcome dict) : option value :=
  match result with
  | Return d => get "status" d
  | Raise _ => None
  end.

(** The test cases of a result. *)
Definition test_cases_of (d : dict) : list value :=
  match get "test_cases" d with
  | Some (VList l) => l
  | _ => []
  end.

(** [data.get("analysis", {})] *)
Definition analysis_of (pdf_analysis_data : dict) : value :=
  default (VDict []) (get "analysis" pdf_analysis_data).

(** The three steps of the PDF workflow, each fed the result of the one
    before. *)
Definition pdf_workflow_steps
    (describe : Dyn.fault -> string) (repr : value -> string)
    (findall : string -> bool -> string -> list string)
    (path_exists : string -> bool)
    (user_manual_content api_spec_content pdf_path_or_url : string)
  : dict * outcome dict * outcome dict :=
  let extracted :=
    PdfTools.extract_pdf_content path_exists user_manual_content
      api_spec_content pdf_path_or_url in
  let analyzed := analyze_document_structure describe findall extracted in
  let generated :=
    let! analysis := analyzed in
    generate_test_cases_from_pdf describe repr analysis in
  (extracted, analyzed, generated).

(** [n] consecutive numbers from [c] on. *)
Fixpoint counters (c : Z) (n : nat) : list Z :=
  match n with
  | O => []
  | S n' => c :: counters (c + 1) n'
  end.

(** The numbers the test cases of a successful run carry, in order: two
    for each of the [n] testable items, then the number of the test case
    for the document type, then that of the integration test case. *)
Definition test_case_numbers (n : nat) (doc_type : value)
    (many_sections : bool) : list Z :=
  let next := (1 + 2 * Z.of_nat n)%Z in
  (counters 1 (2 * n)
   ++ (if is_text "api_specification" doc_type then [next]
       else if is_text "requirements" doc_type then [next] else [])
   ++ (if many_sections
       then [if is_text "api_specification" doc_type
             then (next + 1)%Z else next]
       else []))%list.

Definition numbered (k : Z) : option string :=
  Some ("TC-PDF-" +:+ Dyn.pad3 k).

(** A section as the extraction lists it: a dictionary with a text
    content, a text title and a section identifier. *)
Definition well_formed_section (section : value) : Prop :=
  exists d content title section_id,
    section = VDict d /\
    get "content" d = Some (VStr content) /\
    get "title" d = Some (VStr title) /\
    get "section_id" d = Some section_id.

(** An analysis of a requirements document with [n] sections and no
    testable item. *)
Definition requirements_analysis (n : Z) : dict :=
  [("status", VStr "success");
   ("analysis", VDict
      [("document_type", VStr "requirements");
       ("sections_count", VInt n);
       ("testable_items", VList [])])].

End PdfAnalysis.

(** ** Ticket URLs *)

Module TicketUrl.
Import Py JiraTools.

(** A project key followed by a hyphen and a number. *)
Definition ticket_id_of (project number : string) : string :=
  project +:+ "-" +:+ number.

(** A project key is made of capital letters, a number of digits; neither
    is empty. *)
Definition is_project (s : string) : bool :=
  nonempty s && all_chars is_upper s.

Definition is_number (s : string) : bool :=
  nonempty s && all_chars is_digit s.

(** What follows the number does not go on with a digit. *)
Definition ends_number (rest : string) : bool :=
  match rest with
  | EmptyString => true
  | String c _ => negb (is_digit c)
  end.

(** A ticket URL: a base, the path [/browse/], the ticket and whatever
    follows. *)
Definition ticket_url (base project number rest : string) : string :=
  base +:+ "/browse/" +:+ ticket_id_of project number +:+ rest.

(** A parser that accepts every URL. *)
Definition parses (url : string) : parsed := ParseResult "https" "".

End TicketUrl.

(** ** tools/jira_tools.py: requirements and test scenarios *)

Module Requirements.
Import Py PyText Dyn.

(** [not data or key not in data] *)
Definition lacks (key : string) (data : dict) : bool :=
  match data with
  | [] => true
  | _ => match get key data with Some _ => false | None => true end
  end.

Definition requirement_patterns : list string :=
  ["must\s+([^.]+)"; "should\s+([^.]+)"; "shall\s+([^.]+)";
   "will\s+([^.]+)"].

Definition nfr_keywords : list (string * list string) :=
  [("performance",
    ["performance"; "speed"; "fast"; "response time"; "latency"]);
   ("security",
    ["security"; "secure"; "authentication"; "authorization"; "encrypt"]);
   ("usability", ["usability"; "user-friendly"; "intuitive"; "easy"]);
   ("reliability", ["reliable"; "availability"; "uptime"; "stable"]);
   ("scalability", ["scalable"; "scale"; "concurrent"; "load"])].

(** A functional requirement; [n] is the length of the list it is
    appended to, plus one. *)
Definition functional_requirement (priority : value) (n : Z)
    (description : value) : value :=
  VDict [("id", VStr ("REQ-" +:+ str_of_Z n));
         ("description", description);
         ("type", VStr "functional");
         ("priority", priority);
         ("testable", VBool true)].

(** The requirements for the descriptions, numbered from [n] on. *)
Fixpoint number_requirements (priority : value) (n : Z)
    (descriptions : list value) : list value :=
  match descriptions with
  | [] => []
  | description :: descriptions' =>
      functional_requirement priority n description
      :: number_requirements priority (n + 1) descriptions'
  end.

Section Tools.

Variable describe : fault -> string.
Variable repr : value -> string.
Variable findall : string -> bool -> string -> list string.

(** [str.title] *)
Variable str_title : string -> string.

(** The descriptions found in the text of the ticket, pattern after
    pattern. *)
Definition described_requirements (description : string) : list value :=
  flat_map
    (fun pattern =>
       map VStr
         (PdfAnalysis.long_matches (findall pattern false description)))
    requirement_patterns.

Definition non_functional_requirement (n : Z) (nfr_type : string) : value :=
  VDict [("id", VStr ("NFR-" +:+ str_of_Z n));
         ("type", VStr nfr_type);
         ("description",
          VStr (str_title nfr_type
                +:+ " requirement identified from ticket description"));
         ("priority", VStr "Medium");
         ("testable", VBool true)].

(** The loop over [nfr_keywords]; [n] is the number of requirements
    appended so far, plus one. *)
Fixpoint non_functional_requirements (description_lower : string) (n : Z)
    (table : list (string * list string)) : list value :=
  match table with
  | [] => []
  | (nfr_type, keywords) :: table' =>
      if any_in keywords description_lower then
        non_functional_requirement n nfr_type
        :: non_functional_requirements description_lower (n + 1) table'
      else non_functional_requirements description_lower n table'
  end.

(** The integration points: one, when there is more than one
    component. *)
Definition integration_points_of (components : value)
  : outcome (list value) :=
  let! n := length_of describe components in
  if (1 <? n)%Z then
    let! names := joined describe components in
    Return
      [VDict [("components", components);
              ("description",
               VStr ("Integration between " +:+ names +:+ " components"));
              ("test_type", VStr "integration")]]
  else Return [].

(** The [try] block of [extract_requirements]. *)
Definition extract_requirements_body (ticket_data : dict) : outcome dict :=
  if lacks "ticket" ticket_data then
    Return
      [("status", VStr "error");
       ("message", VStr "Invalid ticket data provided");
       ("requirements", VDict [])]
  else
    let ticket := default VNone (get "ticket" ticket_data) in
    let! acceptance_criteria :=
      dict_get describe ticket "acceptance_criteria" (VList []) in
    let! criteria := items describe acceptance_criteria in
    let! priority := dict_get describe ticket "priority" (VStr "Medium") in
    let! description := dict_get describe ticket "description" (VStr "") in
    let! text := text_of describe description in
    let functional_requirements :=
      number_requirements priority 1
        (criteria ++ described_requirements text) in
    let non_functional :=
      non_functional_requirements (lower text) 1 nfr_keywords in
    let! components := dict_get describe ticket "components" (VList []) in
    let! integration_points := integration_points_of components in
    let! ticket_id := dict_get describe ticket "ticket_id" (VStr "") in
    Return
      [("status", VStr "success");
       ("message",
        VStr ("Extracted " +:+ str_of_Z (len functional_requirements)
              +:+ " functional and " +:+ str_of_Z (len non_functional)
              +:+ " non-functional requirements"));
       ("requirements", VDict
          [("ticket_id", ticket_id);
           ("functional_requirements", VList functional_requirements);
           ("non_functional_requirements", VList non_functional);
           ("integration_points", VList integration_points);
           ("business_rules", VList []);
           ("constraints", VList []);
           ("assumptions", VList [])])].

(** [extract_requirements] *)
Definition extract_requirements (ticket_data : dict) : outcome dict :=
  PdfAnalysis.guarded (extract_requirements_body ticket_data)
    (fun e =>
       [("status", VStr "error");
        ("message", VStr ("Error extracting requirements: " +:+ e));
        ("requirements", VDict [])]).

Definition scenario_steps (a b c : string) : value :=
  VList [VStr a; VStr b; VStr c].

(** The positive and the negative scenario of a functional
    requirement. *)
Definition functional_scenarios (counter : Z) (req : value)
  : outcome (list value * Z) :=
  let! description := subscript describe req "description" in
  let! head := slice50 describe description in
  let! priority := dict_get describe req "priority" (VStr "Medium") in
  let! requirement_id := subscript describe req "id" in
  let positive_scenario :=
    VDict
      [("scenario_id", VStr ("TS-" +:+ pad3 counter));
       ("title", VStr ("Verify " +:+ fstr repr head +:+ "..."));
       ("description",
        VStr ("Test that the system correctly implements: "
              +:+ fstr repr description));
       ("steps",
        scenario_steps "Navigate to the relevant feature/page"
          "Perform the required action as described in the requirement"
          "Verify the expected behavior occurs");
       ("expected_result", description);
       ("priority", priority);
       ("test_type", VStr "Functional");
       ("requirement_id", requirement_id)] in
  let negative_scenario :=
    VDict
      [("scenario_id", VStr ("TS-" +:+ pad3 (counter + 1)));
       ("title",
        VStr ("Verify error handling for " +:+ fstr repr head +:+ "..."));
       ("description",
        VStr ("Test error handling and validation for: "
              +:+ fstr repr description));
       ("steps",
        scenario_steps "Navigate to the relevant feature/page"
          "Attempt invalid or boundary condition inputs"
          "Verify appropriate error handling occurs");
       ("expected_result",
        VStr "System displays appropriate error message and handles invalid input gracefully");
       ("priority", priority);
       ("test_type", VStr "Negative");
       ("requirement_id", requirement_id)] in
  Return ([positive_scenario; negative_scenario], (counter + 2)%Z).

(** The scenario of a non-functional requirement. *)
Definition nfr_scenarios (counter : Z) (nfr : value)
  : outcome (list value * Z) :=
  let! nfr_type := subscript describe nfr "type" in
  let! description := subscript describe nfr "description" in
  let! priority := dict_get describe nfr "priority" (VStr "Medium") in
  let! type_text :=
    match nfr_type with
    | VStr s => Return s
    | _ => fail describe (NoAttribute nfr_type "title")
    end in
  let! requirement_id := subscript describe nfr "id" in
  Return
    ([VDict
        [("scenario_id", VStr ("TS-" +:+ pad3 counter));
         ("title",
          VStr ("Verify " +:+ fstr repr nfr_type +:+ " requirement"));
         ("description",
          VStr ("Test " +:+ fstr repr nfr_type +:+ " aspect: "
                +:+ fstr repr description));
         ("steps", VList
            [VStr ("Set up " +:+ fstr repr nfr_type
                   +:+ " testing environment");
             VStr ("Execute " +:+ fstr repr nfr_type
                   +:+ " test procedures");
             VStr ("Measure and verify " +:+ fstr repr nfr_type
                   +:+ " metrics")]);
         ("expected_result",
          VStr ("System meets " +:+ fstr repr nfr_type
                +:+ " requirements as specified"));
         ("priority", priority);
         ("test_type", VStr (str_title type_text));
         ("requirement_id", requirement_id)]],
     (counter + 1)%Z).

(** The scenario of an integration point. *)
Definition integration_scenarios (counter : Z) (integration : value)
  : outcome (list value * Z) :=
  let! components := subscript describe integration "components" in
  let! names := joined describe components in
  let! description := subscript describe integration "description" in
  Return
    ([VDict
        [("scenario_id", VStr ("TS-" +:+ pad3 counter));
         ("title", VStr ("Verify integration between " +:+ names));
         ("description", description);
         ("steps",
          scenario_steps "Set up test data in all involved components"
            "Execute end-to-end workflow across components"
            "Verify data flow and communication between components");
         ("expected_result",
          VStr "All components integrate correctly and data flows as expected");
         ("priority", VStr "High");
         ("test_type", VStr "Integration");
         ("requirement_id", VStr "INTEGRATION-001")]],
     (counter + 1)%Z).

Definition edge_case_scenario (counter : Z) : value :=
  VDict
    [("scenario_id", VStr ("TS-" +:+ pad3 counter));
     ("title",
      VStr "Verify system behavior with edge cases and boundary conditions");
     ("description",
      VStr "Test system behavior with extreme values, empty inputs, and boundary conditions");
     ("steps", VList
        [VStr "Identify boundary values for all input fields";
         VStr "Test with minimum and maximum allowed values";
         VStr "Test with values just outside the allowed range";
         VStr "Test with empty, null, and special character inputs"]);
     ("expected_result",
      VStr "System handles all edge cases gracefully with appropriate validation and error messages");
     ("priority", VStr "Medium");
     ("test_type", VStr "Boundary");
     ("requirement_id", VStr "EDGE-001")].

Definition nfr_test_types : list string :=
  ["Performance"; "Security"; "Usability"; "Reliability"; "Scalability"].

Definition is_nfr_test (scenario : value) : bool :=
  existsb (fun name => has_test_type name scenario) nfr_test_types.

(** The [try] block of [generate_test_scenarios_from_jira]. *)
Definition generate_test_scenarios_from_jira_body (requirements_data : dict)
  : outcome dict :=
  if lacks "requirements" requirements_data then
    Return
      [("status", VStr "error");
       ("message", VStr "Invalid requirements data provided");
       ("test_scenarios", VList [])]
  else
    let requirements :=
      default VNone (get "requirements" requirements_data) in
    let! functional :=
      dict_get describe requirements "functional_requirements" (VList []) in
    let! functional_list := items describe functional in
    let! from_functional :=
      for_each functional_scenarios 1%Z functional_list in
    let! non_functional :=
      dict_get describe requirements "non_functional_requirements"
        (VList []) in
    let! non_functional_list := items describe non_functional in
    let! from_nfr :=
      for_each nfr_scenarios (snd from_functional) non_functional_list in
    let! integration :=
      dict_get describe requirements "integration_points" (VList []) in
    let! integration_list := items describe integration in
    let! from_integration :=
      for_each integration_scenarios (snd from_nfr) integration_list in
    let test_scenarios :=
      (fst from_functional ++ fst from_nfr ++ fst from_integration
       ++ [edge_case_scenario (snd from_integration)])%list in
    Return
      [("status", VStr "success");
       ("message",
        VStr ("Generated " +:+ str_of_Z (len test_scenarios)
              +:+ " test scenarios"));
       ("test_scenarios", VList test_scenarios);
       ("summary", VDict
          [("total_scenarios", VInt (len test_scenarios));
           ("functional_tests",
            VInt (count_test_type "Functional" test_scenarios));
           ("negative_tests",
            VInt (count_test_type "Negative" test_scenarios));
           ("integration_tests",
            VInt (count_test_type "Integration" test_scenarios));
           ("nfr_tests",
            VInt (len (List.filter is_nfr_test test_scenarios)))])].

(** [generate_test_scenarios_from_jira] *)
Definition generate_test_scenarios_from_jira (requirements_data : dict)
  : outcome dict :=
  PdfAnalysis.guarded
    (generate_test_scenarios_from_jira_body requirements_data)
    (fun e =>
       [("status", VStr "error");
        ("message", VStr ("Error generating test scenarios: " +:+ e));
        ("test_scenarios", VList [])]).

End Tools.

(** The identifier of a scenario. *)
Definition scenario_id (scenario : value) : option string :=
  match scenario with
  | VDict d =>
      match get "scenario_id" d with
      | Some (VStr s) => Some s
      | _ => None
      end
  | _ => None
  end.

Definition scenario_numbered (k : Z) : option string :=
  Some ("TS-" +:+ pad3 k).

(** The identifier of a requirement. *)
Definition requirement_id (requirement : value) : option string :=
  match requirement with
  | VDict d =>
      match get "id" d with
      | Some (VStr s) => Some s
      | _ => None
      end
  | _ => None
  end.

(** A list entry of a result's sub-dictionary. *)
Definition listed (outer inner : string) (d : dict) : list value :=
  match get outer d with
  | Some (VDict sub) =>
      match get inner sub with
      | Some (VList l) => l
      | _ => []
      end
  | _ => []
  end.

(** The scenarios of a result. *)
Definition scenarios_of (d : dict) : list value :=
  match get "test_scenarios" d with
  | Some (VList l) => l
  | _ => []
  end.

Definition requirement_numbered (prefix : string) (k : Z) : option string :=
  Some (prefix +:+ str_of_Z k).

(** The description of a requirement. *)
Definition description_of (requirement : value) : value :=
  match requirement with
  | VDict d => default VNone (get "description" d)
  | _ => VNone
  end.

Definition is_string (v : value) : bool :=
  match v with
  | VStr _ => true
  | _ => false
  end.

(** A ticket as [fetch_jira_ticket] builds them: the acceptance criteria
    and the components are lists of texts, the description is a text. *)
Definition well_formed_ticket (ticket : dict) : bool :=
  match get "acceptance_criteria" ticket, get "description" ticket,
        get "components" ticket with
  | Some (VList criteria), Some (VStr _), Some (VList components) =>
      forallb is_string criteria && forallb is_string components
  | _, _, _ => false
  end.

Definition well_formed_functional (req : value) : bool :=
  match req with
  | VDict d =>
      match get "description" d, get "id" d with
      | Some (VStr _), Some _ => true
      | _, _ => false
      end
  | _ => false
  end.

Definition well_formed_nfr (nfr : value) : bool :=
  match nfr with
  | VDict d =>
      match get "type" d, get "description" d, get "id" d with
      | Some (VStr _), Some _, Some _ => true
      | _, _, _ => false
      end
  | _ => false
  end.

Definition well_formed_integration (integration : value) : bool :=
  match integration with
  | VDict d =>
      match get "components" d, get "description" d with
      | Some (VList components), Some _ => forallb is_string components
      | _, _ => false
      end
  | _ => false
  end.

(** Requirements as [extract_requirements] builds them. *)
Definition well_formed_requirements (requirements : value) : bool :=
  match requirements with
  | VDict d =>
      match get "functional_requirements" d,
            get "non_functional_requirements" d,
            get "integration_points" d with
      | Some (VList functional), Some (VList non_functional),
        Some (VList integration) =>
          forallb well_formed_functional functional
          && forallb well_formed_nfr non_functional
          && forallb well_formed_integration integration
      | _, _, _ => false
      end
  | _ => false
  end.

(** A title function that capitalises nothing. *)
Definition same_title (s : string) : string := s.

(** The three steps of the JIRA workflow, each fed the result of the one
    before. *)
Definition jira_workflow_steps
    (describe : fault -> string) (repr : value -> string)
    (findall : string -> bool -> string -> list string)
    (str_title : string -> string)
    (urlparse : string -> JiraTools.parsed)
    (ticket_url_or_id jira_base_url username api_token : string)
  : outcome dict * outcome dict * outcome dict :=
  let fetched :=
    JiraTools.fetch_jira_ticket urlparse ticket_url_or_id jira_base_url
      username api_token in
  let extracted :=
    let! ticket_data := fetched in
    extract_requirements describe findall str_title ticket_data in
  let generated :=
    let! requirements_data := extracted in
    generate_test_scenarios_from_jira describe repr str_title
      requirements_data in
  (fetched, extracted, generated).

End Requirements.

(** *** Facts about the string primitives *)

Module PyFacts.
Import Py.

Lemma startswith_lower (p s : string) :
  startswith p s = true -> startswith (lower p) (lower s) = true.
Proof.
  revert s; induction p as [|a p IH]; intros [|b s]; simpl; try easy.
  intros H. apply andb_prop in H as [Hab Hps].
  apply Ascii.eqb_eq in Hab; subst b.
  rewrite Ascii.eqb_refl; simpl. now apply IH.
Qed.

(** Lower-casing keeps occurrences: a literal occurrence of [kw] gives an
    occurrence of [lower kw] in the lower-cased text. *)
Lemma contains_lower (kw s : string) :
  contains kw s = true -> contains (lower kw) (lower s) = true.
Proof.
  induction s as [|c s IH]; simpl; intros H.
  - apply orb_prop in H as [H|H]; [|discriminate].
    apply (startswith_lower kw EmptyString) in H. simpl in H.
    now rewrite H.
  - apply orb_prop in H as [H|H].
    + apply (startswith_lower kw (String c s)) in H. simpl in H.
      now rewrite H.
    + rewrite (IH H). apply orb_true_r.
Qed.

Lemma any_in_intro (kw : string) (kws : list string) (s : string) :
  In kw kws -> contains kw s = true -> any_in kws s = true.
Proof.
  intros Hin Hc. unfold any_in. apply existsb_exists. now exists kw.
Qed.

End PyFacts.
(** ** The classifier *)

Module ClassifierFacts.
Import Py Classifier Coordinator PyFacts.

Ltac split_conditions :=
  repeat match goal with
         | |- context [if ?b then _ else _] => destruct b eqn:?
         end.

Lemma detect_in_request_types (message : string) :
  In (_detect_request_type message) request_types.
Proof.
  unfold _detect_request_type, request_types.
  split_conditions; simpl; tauto.
Qed.






(** *** The workflow map *)

Lemma workflow_map_keys (name : string) :
  is_Some (workflow_map !! name) <-> In name workflow_names.
Proof.
  unfold workflow_map, workflow_names; simpl.
  rewrite !lookup_insert, lookup_empty.
  repeat case_decide; subst; simpl; split;
    try (intros [? ?]; discriminate); try tauto; eauto.
Qed.

Lemma request_type_not_registered (message : string) :
  workflow_map !! _detect_request_type message = None.
Proof.
  pose proof (detect_in_request_types message) as H.
  unfold request_types in H; simpl in H.
  repeat destruct H as [<-|H]; try (vm_compute; reflexivity).
  destruct H.
Qed.

(** C4, as stated, fails: the name the classifier returns for [hello] has
    no entry in the workflow map. *)
Lemma classifier_name_absent_from_registry :
  ~ is_Some (workflow_map !! _detect_request_type "hello").
Proof. rewrite request_type_not_registered. intros [? ?]; discriminate. Qed.

(** C4, amended: the workflow map holds exactly the five dispatcher names
    [git_workflow], [jira_workflow], [pdf_workflow], [script_workflow] and
    [test_generation_workflow]; no name the classifier returns is among
    them; and for a selected name absent from the map, in particular any
    classifier name, [execute_selected_workflow] returns [None]: it
    neither raises nor reports a diagnostic. *)
Theorem classifier_names_not_in_workflow_map :
  (forall name, is_Some (workflow_map !! name) <-> In name workflow_names) /\
  (forall message, workflow_map !! _detect_request_type message = None) /\
  (forall (state : gmap string value) name,
      state !! "selected_workflow" = Some (VStr name) ->
      workflow_map !! name = None ->
      execute_selected_workflow state = Return None) /\
  (forall (state : gmap string value) message,
      state !! "selected_workflow"
        = Some (VStr (_detect_request_type message)) ->
      execute_selected_workflow state = Return None).
Proof.
  split; [exact workflow_map_keys|].
  split; [exact request_type_not_registered|].
  split.
  - intros state name Hsel Habs. unfold execute_selected_workflow.
    rewrite Hsel; simpl. now rewrite Habs.
  - intros state message Hsel. unfold execute_selected_workflow.
    rewrite Hsel; simpl. now rewrite request_type_not_registered.
Qed.

Lemma classifier_names_not_in_workflow_map_witness :
  execute_selected_workflow {[ "selected_workflow" := VStr "general_chat" ]}
  = Return None.
Proof.
  apply (proj2 (proj2 (proj2 classifier_names_not_in_workflow_map))
           {[ "selected_workflow" := VStr "general_chat" ]} "hello").
  vm_compute; reflexivity.
Defined.

(** *** Precedence *)

Lemma detect_resolves (message : string) :
  In (_detect_request_type message)
     (resolve precedence ["general_chat"] (lower message)).
Proof.
  unfold _detect_request_type, precedence; simpl.
  split_conditions; simpl; tauto.
Qed.

Lemma git_first (message : string) :
  mentions "git" message = true ->
  In (_detect_request_type message) ["git_analysis"; "git_pull"].
Proof.
  unfold mentions; intros Hgit.
  assert (Hany : any_in git_keywords (lower message) = true).
  { apply (any_in_intro "git"); [simpl; tauto | exact Hgit]. }
  unfold _detect_request_type. rewrite Hany.
  split_conditions; simpl; tauto.
Qed.

(** C5: the classifier resolves by the fixed order git, JIRA, PDF,
    script, generic test, code analysis, default: the name it returns
    belongs to the first keyword family that matches the lower-cased
    text.  In particular a request that mentions both [git] and [test]
    gets a git name, never the generic test name or the default. *)
Theorem classifier_precedence :
  (forall message,
      In (_detect_request_type message)
         (resolve precedence ["general_chat"] (lower message))) /\
  (forall message,
      mentions "git" message = true ->
      mentions "test" message = true ->
      In (_detect_request_type message) ["git_analysis"; "git_pull"] /\
      _detect_request_type message <> "test_generation" /\
      _detect_request_type message <> "general_chat").
Proof.
  split; [exact detect_resolves|].
  intros message Hgit _.
  pose proof (git_first message Hgit) as H.
  split; [exact H|].
  simpl in H. destruct H as [<-|[<-|[]]]; split; discriminate.
Qed.

Lemma classifier_precedence_witness :
  In (_detect_request_type "Run the tests of my Git checkout")
     ["git_analysis"; "git_pull"] /\
  _detect_request_type "Run the tests of my Git checkout"
    <> "test_generation" /\
  _detect_request_type "Run the tests of my Git checkout" <> "general_chat".
Proof.
  apply (proj2 classifier_precedence "Run the tests of my Git checkout");
    vm_compute; reflexivity.
Defined.

End ClassifierFacts.

(** ** Sessions and message processing *)

Module OrchestratorFacts.
Import Py Classifier Orchestrator.

Lemma detected_type_spec self user_id message timestamp :
  detected_type (snd (process_user_message self user_id message timestamp))
  = Some (VStr (_detect_request_type message)).
Proof. reflexivity. Qed.

(** C6: the request type found while a message is processed is the
    classifier's value on the message text alone: two runs on the same
    text return the same name, whatever the orchestrator state, the user
    and the time, and so in particular from identical states. *)
Theorem classification_deterministic :
  (forall self1 self2 user1 user2 message time1 time2,
      detected_type (snd (process_user_message self1 user1 message time1))
      = detected_type (snd (process_user_message self2 user2 message time2)))
  /\
  (forall self1 self2 message1 message2,
      message1 = message2 -> self1 = self2 ->
      forall user_id timestamp,
        detected_type
          (snd (process_user_message self1 user_id message1 timestamp))
        = detected_type
            (snd (process_user_message self2 user_id message2 timestamp))).
Proof.
  split.
  - intros. now rewrite !detected_type_spec.
  - intros self1 self2 message1 message2 -> -> user_id timestamp.
    reflexivity.
Qed.

Lemma classification_deterministic_witness :
  detected_type
    (snd (process_user_message new_orchestrator "demo_user" "hello" VNone))
  = detected_type
      (snd (process_user_message new_orchestrator "demo_user" "hello" VNone)).
Proof.
  apply (proj2 classification_deterministic
           new_orchestrator new_orchestrator "hello" "hello"
           eq_refl eq_refl "demo_user" VNone).
Defined.

(** *** Session life cycle *)

Lemma process_reuses self user_id message timestamp :
  is_Some (active_sessions self !! user_id) ->
  fst (process_user_message self user_id message timestamp) = self.
Proof.
  intros [s Hs]. unfold process_user_message. now rewrite Hs.
Qed.

Lemma process_creates self user_id message timestamp :
  active_sessions self !! user_id = None ->
  exists s,
    active_sessions
      (fst (process_user_message self user_id message timestamp)) !! user_id
    = Some s /\
    session_user_id s = user_id /\
    session_id s = List.length (service_sessions self) /\
    service_sessions
      (fst (process_user_message self user_id message timestamp))
    = (service_sessions self ++ [s])%list.
Proof.
  intros Hnone. unfold process_user_message. rewrite Hnone. simpl.
  eexists. split; [apply lookup_insert_eq|]. simpl. auto.
Qed.

Lemma step_keeps_users self o user_id :
  is_Some (active_sessions self !! user_id) ->
  is_Some (active_sessions (step self o) !! user_id).
Proof.
  intros Hs. destruct o as [u|u m t]; unfold step.
  - simpl. rewrite lookup_insert. case_decide; [eauto | exact Hs].
  - destruct (active_sessions self !! u) eqn:Hu.
    + rewrite process_reuses; [exact Hs | rewrite Hu; eauto].
    + unfold process_user_message. rewrite Hu. simpl.
      rewrite lookup_insert. case_decide; [eauto | exact Hs].
Qed.

Lemma run_keeps_users ops : forall self user_id,
  is_Some (active_sessions self !! user_id) ->
  is_Some (active_sessions (run self ops) !! user_id).
Proof.
  induction ops as [|o ops IH]; intros self user_id Hs; [exact Hs|].
  apply IH. now apply step_keeps_users.
Qed.

Lemma message_keeps_session self o user_id s :
  is_message o = true ->
  active_sessions self !! user_id = Some s ->
  active_sessions (step self o) !! user_id = Some s.
Proof.
  destruct o as [u|u m t]; unfold step; [discriminate|]. intros _ Hs.
  destruct (active_sessions self !! u) eqn:Hu.
  - rewrite process_reuses; [exact Hs | rewrite Hu; eauto].
  - unfold process_user_message. rewrite Hu. simpl.
    rewrite lookup_insert_ne; [exact Hs | congruence].
Qed.

Lemma messages_keep_session ops : forall self user_id s,
  forallb is_message ops = true ->
  active_sessions self !! user_id = Some s ->
  active_sessions (run self ops) !! user_id = Some s.
Proof.
  induction ops as [|o ops IH]; intros self user_id s Hm Hs; [exact Hs|].
  simpl in Hm. apply andb_prop in Hm as [Ho Hm].
  apply IH; [exact Hm|]. now apply message_keeps_session.
Qed.

Lemma messages_create ops : forall self user_id,
  forallb is_message ops = true ->
  (is_Some (active_sessions (run self ops) !! user_id) <->
   is_Some (active_sessions self !! user_id)
   \/ existsb (is_message_of user_id) ops = true).
Proof.
  induction ops as [|o ops IH]; intros self user_id Hm.
  - simpl. split; [auto | intros [H|H]; [exact H | discriminate]].
  - simpl in Hm. apply andb_prop in Hm as [Ho Hm].
    change (run self (o :: ops)) with (run (step self o) ops).
    rewrite (IH _ _ Hm). destruct o as [u|u m t]; [discriminate|].
    unfold step. cbn [existsb is_message_of].
    destruct (String.eqb_spec u user_id) as [->|Hne]; cbn [orb].
    + split; [auto|]. intros _. left.
      destruct (active_sessions self !! user_id) eqn:Hu.
      * rewrite process_reuses; rewrite Hu; eauto.
      * destruct (process_creates self user_id m t Hu) as [s [Hs _]].
        rewrite Hs; eauto.
    + assert (Hsame :
        active_sessions (fst (process_user_message self u m t)) !! user_id
        = active_sessions self !! user_id).
      { destruct (active_sessions self !! u) eqn:Hu.
        - rewrite process_reuses; [reflexivity | rewrite Hu; eauto].
        - unfold process_user_message. rewrite Hu. simpl.
          now rewrite lookup_insert_ne. }
      rewrite Hsame. tauto.
Qed.

Lemma create_replaces self user_id :
  active_sessions (fst (create_session self user_id)) !! user_id
  = Some {| session_id := List.length (service_sessions self);
            session_app_name := "enhanced_agent_engine";
            session_user_id := user_id |}.
Proof. simpl. apply lookup_insert_eq. Qed.

(** C8, as stated, fails.  [main] creates the demo user's session at
    start-up, so it exists before that user's first request and the first
    request creates none; and a second [create_session] for the same user
    replaces the session. *)
Lemma session_created_before_first_request :
  let started := run new_orchestrator (main []) in
  let served := run new_orchestrator (main [("hello", VNone)]) in
  is_Some (active_sessions started !! "demo_user") /\
  served = started /\
  active_sessions (fst (create_session started "demo_user")) !! "demo_user"
  <> active_sessions started !! "demo_user".
Proof.
  simpl. split; [|split].
  - rewrite lookup_insert_eq. eauto.
  - unfold process_user_message. simpl.
    rewrite lookup_insert_eq. reflexivity.
  - rewrite !lookup_insert_eq. discriminate.
Qed.

(** C8, amended: a request from a user id without a session creates one
    for it; a request from a user id with a session leaves the
    orchestrator, and so the session, unchanged; over requests alone a
    user id has a session exactly from its first request on and keeps
    that same session; no call ever removes the session of a user id; an
    explicit [create_session] puts a new session in place of the one the
    user id has. *)
Theorem session_lifecycle :
  (forall self user_id message timestamp,
      active_sessions self !! user_id = None ->
      exists s,
        active_sessions
          (fst (process_user_message self user_id message timestamp))
          !! user_id = Some s /\
        session_user_id s = user_id /\
        session_id s = List.length (service_sessions self) /\
        service_sessions
          (fst (process_user_message self user_id message timestamp))
        = (service_sessions self ++ [s])%list) /\
  (forall self user_id message timestamp,
      is_Some (active_sessions self !! user_id) ->
      fst (process_user_message self user_id message timestamp) = self) /\
  (forall ops user_id,
      forallb is_message ops = true ->
      (is_Some (active_sessions (run new_orchestrator ops) !! user_id) <->
       existsb (is_message_of user_id) ops = true)) /\
  (forall ops self user_id s,
      forallb is_message ops = true ->
      active_sessions self !! user_id = Some s ->
      active_sessions (run self ops) !! user_id = Some s) /\
  (forall ops self user_id,
      is_Some (active_sessions self !! user_id) ->
      is_Some (active_sessions (run self ops) !! user_id)) /\
  (forall self user_id,
      active_sessions (fst (create_session self user_id)) !! user_id
      = Some {| session_id := List.length (service_sessions self);
                session_app_name := "enhanced_agent_engine";
                session_user_id := user_id |}).
Proof.
  split; [exact process_creates|].
  split; [exact process_reuses|].
  split.
  { intros ops user_id Hm. rewrite (messages_create ops _ _ Hm).
    simpl. rewrite lookup_empty. split; [|auto].
    intros [[? H]|H]; [discriminate | exact H]. }
  split; [exact messages_keep_session|].
  split; [exact run_keeps_users | exact create_replaces].
Qed.

Lemma session_lifecycle_witness :
  active_sessions
    (run new_orchestrator
       [OpMessage "alice" "hello" VNone; OpMessage "bob" "review my code" VNone;
        OpMessage "alice" "generate a script" VNone]) !! "alice"
  = active_sessions
      (run new_orchestrator [OpMessage "alice" "hello" VNone]) !! "alice".
Proof.
  apply (proj1 (proj2 (proj2 (proj2 session_lifecycle)))
           [OpMessage "bob" "review my code" VNone;
            OpMessage "alice" "generate a script" VNone]
           (run new_orchestrator [OpMessage "alice" "hello" VNone])
           "alice").
  - reflexivity.
  - vm_compute. reflexivity.
Defined.

End OrchestratorFacts.

(** ** The tools *)

Module GitFacts.
Import Py GitTools.

(** C7: when the system raises nothing outside the [Exception] class,
    [clone_repository] returns a dictionary for every URL, branch and
    target directory; when the clone fails (time-out, exit status other
    than zero, or any exception of a call it makes) the dictionary has
    status [error], a non-empty message and an empty [local_path], and
    otherwise it has status [success]. *)
Theorem clone_repository_never_raises
    (sys : system) (repository_url branch : string)
    (target_dir : option string) :
  expected_failures_only sys ->
  exists d,
    clone_repository sys repository_url branch target_dir = Return d /\
    (clone_fails sys repository_url branch target_dir ->
     is_error_result d) /\
    (~ clone_fails sys repository_url branch target_dir ->
     get "status" d = Some (VStr "success")).
Proof.
  intros [Htmp Hrun].
  unfold clone_repository, clone_repository_body, clone_fails, is_error_result.
  destruct target_dir as [d|]; simpl;
    [|destruct (mkdtemp sys "git_analysis_") as [d|[msg|msg|msg]] eqn:Hmk; simpl].
  all: repeat
         match goal with
         | |- context [subprocess_run ?s ?c ?t] =>
             destruct (subprocess_run s c t) as [?|[?|?|?]] eqn:?; simpl
         | |- context [(?a =? ?b)%Z] => destruct (Z.eqb_spec a b); simpl
         end.
  all: try (exfalso; eapply Htmp; eassumption).
  all: try (exfalso; eapply Hrun; eassumption).
  all: eexists; split; [reflexivity|]; split.
  all: try (intros _; repeat split; eexists; split;
            [reflexivity | discriminate]).
  all: try (intros Hno; exfalso; apply Hno; solve [exact I | tauto | eauto]).
  all: try reflexivity.
  all: intros [Hne|[x Hx]]; [contradiction | discriminate].
Qed.

Lemma clone_repository_never_raises_witness :
  exists d,
    clone_repository slow_system "https://example.com/repo.git" "main" None
    = Return d /\
    (clone_fails slow_system "https://example.com/repo.git" "main" None ->
     is_error_result d) /\
    (~ clone_fails slow_system "https://example.com/repo.git" "main" None ->
     get "status" d = Some (VStr "success")).
Proof.
  apply (clone_repository_never_raises slow_system
           "https://example.com/repo.git" "main" None).
  split; intros; discriminate.
Defined.

End GitFacts.

Module JiraFacts.
Import Py JiraTools.

Lemma match_ticket_id_nonempty (s ticket_id : string) :
  match_ticket_id s = Some ticket_id -> ticket_id <> "".
Proof.
  unfold match_ticket_id.
  destruct (span is_upper s) as [letters rest].
  destruct letters as [|c letters]; [discriminate|].
  destruct rest as [|h rest]; [discriminate|].
  destruct (Ascii.eqb_spec h "-") as [->|Hne].
  - destruct (span is_digit rest) as [digits r].
    destruct digits; [discriminate|].
    intros [= <-]. discriminate.
  - destruct h as [[] [] [] [] [] [] [] []]; try discriminate.
    now contradiction Hne.
Qed.

Lemma search_browse_unfold (s : string) :
  search_browse s =
  match strip_prefix "/browse/" s ≫= match_ticket_id with
  | Some ticket_id => Some ticket_id
  | None =>
      match s with
      | EmptyString => None
      | String _ s' => search_browse s'
      end
  end.
Proof. destruct s; reflexivity. Qed.

Lemma search_browse_nonempty (s ticket_id : string) :
  search_browse s = Some ticket_id -> ticket_id <> "".
Proof.
  induction s as [|c s IH]; rewrite search_browse_unfold;
    destruct (strip_prefix "/browse/" _) as [r|] eqn:Hp; simpl;
    try discriminate;
    try (destruct (match_ticket_id r) eqn:Hm;
         [intros [= <-]; now apply (match_ticket_id_nonempty r)|]);
    try discriminate; auto.
Qed.

Lemma extracted_id_empty (ticket_url_or_id : string) :
  extracted_id ticket_url_or_id = "" <->
  ticket_url_or_id = "" \/
  (startswith "http" ticket_url_or_id = true /\
   search_browse ticket_url_or_id = None).
Proof.
  unfold extracted_id.
  destruct (startswith "http" ticket_url_or_id) eqn:Hhttp.
  - destruct (search_browse ticket_url_or_id) as [ticket_id|] eqn:Hs; simpl.
    + apply search_browse_nonempty in Hs. split; [contradiction|].
      intros [->|[_ ?]]; discriminate.
    + split; auto.
  - split; [auto|]. intros [H|[? _]]; [exact H | discriminate].
Qed.

(** C9, as stated, fails: for a URL with a ticket path whose host has an
    unbalanced bracket, the extracted identifier is [PROJ-1], not empty,
    yet parsing the URL raises and the result has status [error]. *)
Lemma fetch_error_with_ticket_id :
  extracted_id "http://[/browse/PROJ-1" = "PROJ-1" /\
  fetch_jira_ticket urlsplit_brackets "http://[/browse/PROJ-1" "" "" ""
  = Return
      [("status", VStr "error");
       ("message", VStr "Error fetching JIRA ticket: Invalid IPv6 URL");
       ("ticket", VNone)].
Proof. split; vm_compute; reflexivity. Qed.

Ltac finish ticket_id Hempty :=
  try (destruct ticket_id as [|c rest]; cbn [nonempty negb];
       [|destruct (lookup_ticket (String c rest) mock_ticket_data)]);
  (eexists; split; [reflexivity|]; split; [|split; [|exact Hempty]]);
  try (intros [H|H]; try discriminate; split; reflexivity);
  try (intros H H';
       first [congruence
             |split; [reflexivity|]; eexists; split; [reflexivity|];
              split; [reflexivity|]; intros; first [congruence|reflexivity]]).

(** C9, amended: [fetch_jira_ticket] always returns a dictionary.  Its
    status is [error], with ticket [None], when the extracted identifier
    is empty (the input is empty, or starts with [http] and has no
    [/browse/<PROJECT>-<number>] segment) and also when the input starts
    with [http], no base URL is given and parsing the URL raises;
    otherwise the status is [success] and the ticket carries the
    extracted identifier, a generic mock ticket standing in for the
    identifiers outside the sample data. *)
Theorem fetch_jira_ticket_status
    (urlparse : string -> parsed)
    (ticket_url_or_id jira_base_url username api_token : string) :
  exists d,
    fetch_jira_ticket urlparse ticket_url_or_id jira_base_url
      username api_token = Return d /\
    (extracted_id ticket_url_or_id = ""
     \/ parse_fails urlparse ticket_url_or_id jira_base_url = true ->
     get "status" d = Some (VStr "error") /\
     get "ticket" d = Some VNone) /\
    (extracted_id ticket_url_or_id <> "" ->
     parse_fails urlparse ticket_url_or_id jira_base_url = false ->
     get "status" d = Some (VStr "success") /\
     exists t,
       ticket_of d = Some t /\
       get "ticket_id" t = Some (VStr (extracted_id ticket_url_or_id)) /\
       (lookup_ticket (extracted_id ticket_url_or_id) mock_ticket_data = None
        -> t = generic_ticket (extracted_id ticket_url_or_id))) /\
    (extracted_id ticket_url_or_id = "" <->
     ticket_url_or_id = "" \/
     (startswith "http" ticket_url_or_id = true /\
      search_browse ticket_url_or_id = None)).
Proof.
  pose proof (extracted_id_empty ticket_url_or_id) as Hempty.
  unfold fetch_jira_ticket, fetch_jira_ticket_body, extract_ticket_id,
    parse_fails.
  revert Hempty. unfold extracted_id.
  destruct (startswith "http" ticket_url_or_id); cbn [andb].
  - remember (default "" (search_browse ticket_url_or_id)) as ticket_id.
    intros Hempty.
    destruct (nonempty jira_base_url); cbn [negb andb];
      [|destruct (urlparse ticket_url_or_id) as [scheme netloc|msg]];
      cbn [bind]; finish ticket_id Hempty.
  - intros Hempty. cbn [bind]. finish ticket_url_or_id Hempty.
Qed.

Lemma fetch_jira_ticket_status_witness :
  exists d,
    fetch_jira_ticket urlsplit_brackets
      "https://acme.atlassian.net/browse/PROJ-123" "" "" "" = Return d /\
    get "status" d = Some (VStr "success").
Proof.
  destruct (fetch_jira_ticket_status urlsplit_brackets
              "https://acme.atlassian.net/browse/PROJ-123" "" "" "")
    as [d [Hd [_ [Hok _]]]].
  exists d. split; [exact Hd|].
  apply Hok; [vm_compute; discriminate | vm_compute; reflexivity].
Defined.

End JiraFacts.

Module PdfFacts.
Import Py PdfTools.

(** C10: [extract_pdf_content] returns status [error] exactly for the
    inputs that start with [http://] or [https://] and for the local
    paths that do not exist, and returns status [success] with a document
    title, a page count and sections exactly for the local paths that
    exist. *)
Theorem extract_pdf_content_status
    (path_exists : string -> bool)
    (user_manual_content api_spec_content pdf_path_or_url : string) :
  let d := extract_pdf_content path_exists user_manual_content
             api_spec_content pdf_path_or_url in
  (get "status" d = Some (VStr "error") <->
   is_url pdf_path_or_url = true \/ path_exists pdf_path_or_url = false) /\
  (is_document d <->
   is_url pdf_path_or_url = false /\ path_exists pdf_path_or_url = true) /\
  (is_url pdf_path_or_url = true ->
   get "status" d = Some (VStr "error")) /\
  (path_exists pdf_path_or_url = false ->
   get "status" d = Some (VStr "error")).
Proof.
  unfold extract_pdf_content, is_document.
  destruct (is_url pdf_path_or_url); cbn [negb];
    [|destruct (path_exists pdf_path_or_url); cbn [negb]].
  2: set (filename := lower (basename pdf_path_or_url));
     destruct (contains "user" filename || contains "manual" filename
               || contains "requirements" filename);
     [|destruct (contains "api" filename || contains "spec" filename)].
  all: cbn [get String.eqb Ascii.eqb Bool.eqb item user_manual_pdf
              api_spec_pdf generic_pdf default].
  all: repeat split; intros; try solve [intuition congruence]; eauto.
Qed.

Lemma extract_pdf_content_status_witness :
  get "status"
    (extract_pdf_content (fun _ => false) "" "" "https://example.com/a.pdf")
  = Some (VStr "error").
Proof.
  apply (proj1 (proj2 (proj2
           (extract_pdf_content_status (fun _ => false) "" ""
              "https://example.com/a.pdf")))).
  reflexivity.
Defined.

End PdfFacts.

(** ** The pipeline engine *)

Module PipelineFacts.
Import Py Coordinator Pipeline.
Local Open Scope list_scope.

Lemma run_sequential_cons (s : Stage) (rest : list Stage)
    (state : SharedState) :
  run_sequential (s :: rest) state =
  let r := body s state in
  let state' := apply_deltas (deltas r) state in
  match status r with
  | failure =>
      {| results := [r]; executed := [name s];
         final_status := failed; snapshot := state' |}
  | _ =>
      let p := run_sequential rest state' in
      {| results := r :: results p; executed := name s :: executed p;
         final_status := final_status p; snapshot := snapshot p |}
  end.
Proof. reflexivity. Qed.

Lemma run_sequential_status (stages : list Stage) : forall state,
  final_status (run_sequential stages state) = completed \/
  final_status (run_sequential stages state) = failed.
Proof.
  induction stages as [|s rest IH]; intros state; [now left|].
  rewrite run_sequential_cons; cbv zeta.
  destruct (status (body s state)); simpl; auto.
Qed.

(** A prefix that completes hands its state over to the rest. *)
Lemma run_sequential_app (pre : list Stage) : forall rest state,
  final_status (run_sequential pre state) = completed ->
  run_sequential (pre ++ rest) state =
  let before := run_sequential pre state in
  let after := run_sequential rest (snapshot before) in
  {| results := results before ++ results after;
     executed := executed before ++ executed after;
     final_status := final_status after;
     snapshot := snapshot after |}.
Proof.
  induction pre as [|s pre IH]; intros rest state Hdone.
  - simpl. now destruct (run_sequential rest state).
  - rewrite <- app_comm_cons, !run_sequential_cons in *. cbv zeta in *.
    destruct (status (body s state)); simpl in *; try discriminate;
      now rewrite (IH _ _ Hdone).
Qed.

Lemma completed_run (pre : list Stage) : forall state,
  final_status (run_sequential pre state) = completed ->
  List.length (results (run_sequential pre state)) = List.length pre /\
  executed (run_sequential pre state) = map name pre /\
  Forall (fun r => status r <> failure) (results (run_sequential pre state)).
Proof.
  induction pre as [|s pre IH]; intros state Hdone.
  - simpl. repeat split. constructor.
  - rewrite run_sequential_cons in *. cbv zeta in *.
    destruct (status (body s state)) eqn:Hs; simpl in *; try discriminate.
    all: destruct (IH _ Hdone) as [Hlen [Hex Hall]].
    all: split; [now rewrite Hlen|].
    all: split; [now rewrite Hex|].
    all: constructor; [congruence | exact Hall].
Qed.

Lemma apply_deltas_keeps (ds : list (string * value)) :
  forall (state : SharedState) k,
    is_Some (state !! k) -> is_Some (apply_deltas ds state !! k).
Proof.
  induction ds as [|[k' v] ds IH]; intros state k Hk; [exact Hk|].
  apply IH. rewrite lookup_insert. case_decide; [eauto | exact Hk].
Qed.

Lemma apply_deltas_other (ds : list (string * value)) :
  forall (state : SharedState) k,
    ~ In k (map fst ds) -> apply_deltas ds state !! k = state !! k.
Proof.
  induction ds as [|[k' v] ds IH]; intros state k Hk; [reflexivity|].
  simpl in Hk. unfold apply_deltas in *. simpl. rewrite IH by tauto.
  apply lookup_insert_ne. tauto.
Qed.

Lemma stops_at_failure (pre post : list Stage) (B : Stage)
    (state : SharedState) :
  let before := run_sequential pre state in
  let rB := body B (snapshot before) in
  final_status before = completed ->
  status rB = failure ->
  run_sequential (pre ++ B :: post) state =
  {| results := results before ++ [rB];
     executed := map name pre ++ [name B];
     final_status := failed;
     snapshot := apply_deltas (deltas rB) (snapshot before) |}.
Proof.
  intros before rB Hdone Hfail.
  destruct (completed_run pre state Hdone) as [_ [Hex _]].
  rewrite (run_sequential_app pre (B :: post) state Hdone). cbv zeta.
  rewrite run_sequential_cons. cbv zeta. rewrite Hex.
  subst rB before. rewrite Hfail. reflexivity.
Qed.

(** C1: a sequential run stops at the first stage that fails.  With the
    stages before it completed, the result holds their ExecutionResults
    followed by the failing one and nothing else, the stages after it are
    not executed, the status is failed, and the snapshot is the state the
    completed stages and the failing stage left: what they wrote stays.
    For stages [A; B; C] with A succeeding and B failing the result holds
    exactly the results of A and B. *)
Theorem sequential_stops_at_first_failure :
  (forall (pre post : list Stage) (B : Stage) (state : SharedState),
      let before := run_sequential pre state in
      let rB := body B (snapshot before) in
      let r := run_sequential (pre ++ B :: post) state in
      final_status before = completed ->
      status rB = failure ->
      results r = results before ++ [rB] /\
      List.length (results r) = List.length pre + 1 /\
      Forall (fun x => status x <> failure) (results before) /\
      executed r = map name pre ++ [name B] /\
      final_status r = failed /\
      snapshot r = apply_deltas (deltas rB) (snapshot before) /\
      (forall k, is_Some (snapshot before !! k) -> is_Some (snapshot r !! k))
      /\
      (forall k, ~ In k (map fst (deltas rB)) ->
                 snapshot r !! k = snapshot before !! k)) /\
  (forall (A B C : Stage) (state : SharedState),
      let rA := body A state in
      let stateA := apply_deltas (deltas rA) state in
      let rB := body B stateA in
      status rA = success ->
      status rB = failure ->
      run_sequential [A; B; C] state =
      {| results := [rA; rB];
         executed := [name A; name B];
         final_status := failed;
         snapshot := apply_deltas (deltas rB) stateA |}).
Proof.
  split.
  - intros pre post B state before rB r Hdone Hfail.
    destruct (completed_run pre state Hdone) as [Hlen [_ Hall]].
    subst r. rewrite (stops_at_failure pre post B state Hdone Hfail).
    fold before in Hlen, Hall |- *. fold rB. simpl.
    repeat split; auto.
    + rewrite length_app, Hlen. reflexivity.
    + intros k. apply apply_deltas_keeps.
    + intros k. apply apply_deltas_other.
  - intros A B C state rA stateA rB HA HB.
    subst rA stateA rB. cbn [run_sequential].
    rewrite HA. cbn iota. rewrite HB. reflexivity.
Qed.

Lemma sequential_stops_at_first_failure_witness :
  let A := stage_of variable_name failing_analysis git_analyzer_agent in
  let B := stage_of variable_name failing_analysis code_analyzer_agent in
  let C := stage_of variable_name failing_analysis strategy_planner_agent in
  git_pipeline variable_name failing_analysis = [A; B; C] /\
  run_sequential [A; B; C] ∅ =
  {| results := [body A ∅;
                 body B (apply_deltas (deltas (body A ∅)) ∅)];
     executed := ["GitAnalyzer"; "code_analyzer_agent"];
     final_status := failed;
     snapshot :=
       apply_deltas
         (deltas (body B (apply_deltas (deltas (body A ∅)) ∅)))
         (apply_deltas (deltas (body A ∅)) ∅) |}.
Proof.
  intros A B C. split; [reflexivity|].
  apply (proj2 sequential_stops_at_first_failure A B C ∅); reflexivity.
Defined.

(** *** The bounded loop *)









End PipelineFacts.

(** ** Sessions of a running orchestrator *)

Module SessionFacts.
Import Py Classifier Orchestrator Sessions SessionCalls OrchestratorFacts.
Local Open Scope list_scope.

Lemma consistent_new : consistent new_orchestrator.
Proof.
  split.
  - intros i s H. simpl in H. now rewrite lookup_nil in H.
  - intros u s H. simpl in H. now rewrite lookup_empty in H.
Qed.

Lemma consistent_create self user_id :
  consistent self -> consistent (fst (create_session self user_id)).
Proof.
  intros [Hidx Hact]. split; simpl.
  - intros i s H. apply lookup_app_Some in H as [H|[Hlen H]].
    + now apply Hidx.
    + destruct (i - List.length (service_sessions self)) as [|n] eqn:Hi;
        simpl in H; [|now rewrite lookup_nil in H].
      injection H as <-. simpl. lia.
  - intros u s H. rewrite lookup_insert in H. case_decide as Hu.
    + injection H as <-. subst u. simpl. repeat split.
      rewrite lookup_app_r by lia. now rewrite Nat.sub_diag.
    + destruct (Hact u s H) as [H1 [H2 H3]]. repeat split; auto.
      apply lookup_app_l_Some. exact H3.
Qed.

Lemma consistent_step self o : consistent self -> consistent (step self o).
Proof.
  intros Hc. destruct o as [u|u m t]; unfold step.
  - now apply consistent_create.
  - unfold process_user_message.
    destruct (active_sessions self !! u); simpl; [exact Hc|].
    now apply consistent_create.
Qed.

Lemma consistent_run ops : forall self,
  consistent self -> consistent (run self ops).
Proof.
  induction ops as [|o ops IH]; intros self Hc; [exact Hc|].
  apply IH. now apply consistent_step.
Qed.

(** X1: however sessions were created and messages processed, the
    session filed under a user id belongs to that user id and to this
    application, and is one the session service created. *)
Theorem active_session_belongs_to_user (ops : list op)
    (user_id : string) (s : Session) :
  active_sessions (run new_orchestrator ops) !! user_id = Some s ->
  session_user_id s = user_id /\
  session_app_name s = "enhanced_agent_engine" /\
  In s (service_sessions (run new_orchestrator ops)).
Proof.
  intros H.
  destruct (consistent_run ops _ consistent_new) as [_ Hact].
  destruct (Hact user_id s H) as [H1 [H2 H3]]. repeat split; auto.
  apply list_elem_of_In. eapply list_elem_of_lookup_2. exact H3.
Qed.

Lemma active_session_belongs_to_user_witness :
  session_user_id
    {| session_id := 0; session_app_name := "enhanced_agent_engine";
       session_user_id := "demo_user" |} = "demo_user".
Proof.
  apply (active_session_belongs_to_user (main [("hello", VNone)])
           "demo_user").
  vm_compute. reflexivity.
Defined.

Lemma count_sessions_step self o :
  size (active_sessions self) <= List.length (service_sessions self) ->
  size (active_sessions (step self o))
  <= List.length (service_sessions (step self o)).
Proof.
  intros H.
  assert (Hcreate : forall u,
    size (active_sessions (fst (create_session self u)))
    <= List.length (service_sessions (fst (create_session self u)))).
  { intros u. simpl. rewrite length_app. simpl.
    destruct (active_sessions self !! u) eqn:Hu.
    - rewrite map_size_insert_Some by eauto. lia.
    - rewrite map_size_insert_None by exact Hu. lia. }
  destruct o as [u|u m t]; unfold step; [apply Hcreate|].
  unfold process_user_message.
  destruct (active_sessions self !! u); [exact H | apply Hcreate].
Qed.

Lemma count_sessions_message self o :
  is_message o = true ->
  size (active_sessions self) = List.length (service_sessions self) ->
  size (active_sessions (step self o))
  = List.length (service_sessions (step self o)).
Proof.
  destruct o as [u|u m t]; [discriminate|]. intros _ H.
  unfold step, process_user_message.
  destruct (active_sessions self !! u) eqn:Hu; [exact H|].
  simpl. rewrite length_app. simpl.
  rewrite map_size_insert_None by exact Hu. lia.
Qed.

(** X4: the orchestrator never holds more active sessions than the
    service created, and when only messages are processed the two numbers
    agree: each user id has exactly one session and no session is left
    without a user. *)
Theorem one_session_per_user :
  (forall ops,
      size (active_sessions (run new_orchestrator ops))
      <= List.length (service_sessions (run new_orchestrator ops))) /\
  (forall ops,
      forallb is_message ops = true ->
      size (active_sessions (run new_orchestrator ops))
      = List.length (service_sessions (run new_orchestrator ops))).
Proof.
  split.
  - intros ops.
    assert (H : forall self,
      size (active_sessions self) <= List.length (service_sessions self) ->
      size (active_sessions (run self ops))
      <= List.length (service_sessions (run self ops))).
    { induction ops as [|o ops IH]; intros self H; [exact H|].
      apply IH. now apply count_sessions_step. }
    apply H. simpl. rewrite map_size_empty. lia.
  - intros ops Hm.
    assert (H : forall self,
      size (active_sessions self) = List.length (service_sessions self) ->
      size (active_sessions (run self ops))
      = List.length (service_sessions (run self ops))).
    { induction ops as [|o ops IH]; intros self H; [exact H|].
      simpl in Hm. apply andb_prop in Hm as [Ho Hm].
      apply (IH Hm). now apply count_sessions_message. }
    apply H. simpl. now rewrite map_size_empty.
Qed.

Lemma one_session_per_user_witness :
  size (active_sessions
          (run new_orchestrator
             [OpMessage "alice" "hello" VNone; OpMessage "bob" "hi" VNone;
              OpMessage "alice" "again" VNone]))
  = List.length
      (service_sessions
         (run new_orchestrator
            [OpMessage "alice" "hello" VNone; OpMessage "bob" "hi" VNone;
             OpMessage "alice" "again" VNone])).
Proof.
  apply (proj2 one_session_per_user
           [OpMessage "alice" "hello" VNone; OpMessage "bob" "hi" VNone;
            OpMessage "alice" "again" VNone]).
  reflexivity.
Defined.

(** X3: what a message does to the sessions does not depend on the
    identifier read from the session object.  After the call the sender
    has an active session of their own.  When reading its [session_id]
    raises, [process_user_message] raises that exception and the runner
    is not called; when the read returns an identifier, the runner is
    called with the sender's user id, that identifier and the request
    formatted for the message. *)
Theorem runner_call_needs_session_id
    (Id : Type) (getattr_session_id : Session -> outcome Id)
    (ops : list op) (user_id message : string) (timestamp : value) :
  let self := run new_orchestrator ops in
  let result :=
    process_user_message_call Id getattr_session_id self user_id message
      timestamp in
  fst result = fst (process_user_message self user_id message timestamp) /\
  exists s,
    active_sessions (fst result) !! user_id = Some s /\
    session_user_id s = user_id /\
    (forall e, getattr_session_id s = Raise e -> snd result = Raise e) /\
    (forall id,
        getattr_session_id s = Return id ->
        snd result
        = Return
            {| run_user_id := user_id;
               run_session_id := id;
               run_content :=
                 _format_request message (_detect_request_type message)
                   timestamp |}).
Proof.
  intros self result.
  assert (Hc : consistent self) by apply consistent_run, consistent_new.
  subst result. unfold process_user_message_call, process_user_message.
  destruct (active_sessions self !! user_id) as [s|] eqn:Hu.
  - cbn [fst snd bind]. split; [reflexivity|]. rewrite Hu.
    exists s. split; [reflexivity|].
    split; [now apply (proj2 Hc user_id s)|].
    split; [intros e ->; reflexivity | intros id ->; reflexivity].
  - unfold create_session_call, create_session.
    cbn [fst snd active_sessions]. split; [reflexivity|].
    rewrite lookup_insert_eq. eexists. split; [reflexivity|].
    split; [reflexivity|].
    split; [intros e ->; reflexivity | intros id ->; reflexivity].
Qed.

Lemma runner_call_needs_session_id_witness :
  snd (process_user_message_call string no_session_id new_orchestrator
         "demo_user" "hello" VNone)
  = Raise (Exception "'Session' object has no attribute 'session_id'") /\
  is_Some
    (active_sessions
       (fst (process_user_message_call string no_session_id new_orchestrator
               "demo_user" "hello" VNone)) !! "demo_user").
Proof.
  destruct (runner_call_needs_session_id string no_session_id []
              "demo_user" "hello" VNone) as [_ [s [Hs [_ [Hraise _]]]]].
  split; [apply Hraise; reflexivity | exists s; exact Hs].
Defined.

End SessionFacts.

(** ** The request as formatted and as read back *)

Module RequestFacts.
Import Py Classifier Orchestrator StateInit ClassifierFacts.

(** X5: the formatted request carries the message verbatim, the detected
    request type and the time stamp; its task is the generic
    [general_assistance] exactly when the classifier returned [git_pull],
    [jira_analysis] or [general_chat], the three types without a task of
    their own. *)
Theorem formatted_request_task (message : string) (timestamp : value) :
  let request_data :=
    _format_request message (_detect_request_type message) timestamp in
  get "user_message" request_data = Some (VStr message) /\
  get "request_type" request_data
  = Some (VStr (_detect_request_type message)) /\
  get "timestamp" request_data = Some timestamp /\
  (exists task, get "task" request_data = Some (VStr task)) /\
  (get "task" request_data = Some (VStr "general_assistance") <->
   In (_detect_request_type message)
      ["git_pull"; "jira_analysis"; "general_chat"]).
Proof.
  pose proof (detect_in_request_types message) as H.
  unfold request_types in H. simpl in H.
  repeat (destruct H as [<-|H]; [vm_compute; repeat split; eauto; intros;
                                 try tauto; try discriminate;
                                 intuition discriminate|]).
  destruct H.
Qed.

Lemma formatted_request_task_witness :
  get "task"
    (_format_request "pull the repo" (_detect_request_type "pull the repo")
       VNone)
  = Some (VStr "general_assistance").
Proof.
  apply (proj2 (proj2 (proj2 (proj2
           (formatted_request_task "pull the repo" VNone))))).
  vm_compute. tauto.
Defined.

Ltac lookups :=
  repeat (rewrite lookup_insert; case_decide; try discriminate;
          try congruence).

Lemma store_plain_text_other text (state : gmap string value) k :
  ~ In k ["user_message"; "request_type"; "task"] ->
  store_plain_text text state !! k = state !! k.
Proof.
  intros Hk. simpl in Hk. unfold store_plain_text.
  rewrite !lookup_insert_ne; [reflexivity | | |]; intuition.
Qed.

(** X6: when the first part of the user content is not a JSON object
    (it does not parse, or parses to something other than a dictionary),
    the whole text becomes the user message, the request type is
    [general_chat] and the task [general_assistance]; no other key of the
    state changes. *)
Theorem plain_text_falls_back_to_general_chat
    (json_loads : string -> loaded) (text : string) (rest : list string)
    (state : gmap string value) :
  json_loads text = JSONDecodeError \/
  (exists v, json_loads text = Loaded v /\ forall d, v <> VDict d) ->
  exists state',
    initialize_enhanced_state json_loads (Some (text :: rest)) state
    = Return state' /\
    state' !! "user_message" = Some (VStr text) /\
    state' !! "request_type" = Some (VStr "general_chat") /\
    state' !! "task" = Some (VStr "general_assistance") /\
    (forall k, ~ In k ["user_message"; "request_type"; "task"] ->
               state' !! k = state !! k).
Proof.
  intros H. exists (store_plain_text text state).
  split.
  - unfold initialize_enhanced_state.
    destruct H as [->|[v [-> Hv]]]; [reflexivity|].
    destruct v; try reflexivity. now contradiction (Hv d).
  - unfold store_plain_text. repeat split; try (lookups; reflexivity).
    intros k. apply store_plain_text_other.
Qed.

Lemma plain_text_falls_back_to_general_chat_witness :
  exists state',
    initialize_enhanced_state (fun _ => JSONDecodeError)
      (Some ["hello"]) ∅ = Return state' /\
    state' !! "user_message" = Some (VStr "hello") /\
    state' !! "request_type" = Some (VStr "general_chat") /\
    state' !! "task" = Some (VStr "general_assistance") /\
    (forall k, ~ In k ["user_message"; "request_type"; "task"] ->
               state' !! k = (∅ : gmap string value) !! k).
Proof.
  apply (plain_text_falls_back_to_general_chat
           (fun _ => JSONDecodeError) "hello" [] ∅).
  left. reflexivity.
Defined.

Lemma insert_keeps (state : gmap string value) k0 v k :
  is_Some (state !! k) -> is_Some (<[k0 := v]> state !! k).
Proof.
  intros H. rewrite lookup_insert. case_decide; [eauto | exact H].
Qed.

Lemma store_request_keeps request_data (state : gmap string value) k :
  is_Some (state !! k) -> is_Some (store_request request_data state !! k).
Proof.
  intros H. unfold store_request. cbv zeta.
  repeat apply insert_keeps. exact H.
Qed.

Lemma store_task_specific_keeps request_data (state : gmap string value) k :
  is_Some (state !! k) ->
  is_Some (store_task_specific request_data state !! k).
Proof.
  intros H. unfold store_task_specific. cbv zeta.
  repeat match goal with
         | |- context [if ?b then _ else _] => destruct b
         end;
    repeat apply insert_keeps; exact H.
Qed.

(** X7: initialization only adds or overwrites keys, it never removes
    one; without user content, or with an empty list of parts, it leaves
    the state as it is; and whenever there is a first part and the loader
    raises nothing but a decoding error, the state afterwards has a user
    message, a request type and a task. *)
Theorem initialization_keeps_keys
    (json_loads : string -> loaded) (user_content : option (list string))
    (state state' : gmap string value) :
  initialize_enhanced_state json_loads user_content state = Return state' ->
  (forall k, is_Some (state !! k) -> is_Some (state' !! k)) /\
  (user_content = None \/ user_content = Some [] -> state' = state) /\
  (forall text rest,
      user_content = Some (text :: rest) ->
      is_Some (state' !! "user_message") /\
      is_Some (state' !! "request_type") /\
      is_Some (state' !! "task")).
Proof.
  unfold initialize_enhanced_state.
  destruct user_content as [[|text rest]|].
  - intros [= <-]. repeat split; auto; discriminate.
  - assert (Hplain :
      (forall k, is_Some (state !! k) ->
                 is_Some (store_plain_text text state !! k)) /\
      (Some (text :: rest) = None \/ Some (text :: rest) = Some [] ->
       store_plain_text text state = state) /\
      (forall text0 rest0,
          Some (text :: rest) = Some (text0 :: rest0) ->
          is_Some (store_plain_text text state !! "user_message") /\
          is_Some (store_plain_text text state !! "request_type") /\
          is_Some (store_plain_text text state !! "task"))).
    { split; [|split].
      - intros k Hk. unfold store_plain_text.
        repeat apply insert_keeps. exact Hk.
      - intros [?|?]; discriminate.
      - intros ? ? _. unfold store_plain_text.
        repeat split; lookups; eauto. }
    destruct (json_loads text) as [v| |e]; [destruct v| |discriminate];
      intros [= <-]; try exact Hplain.
    split; [|split].
    + intros k Hk. now apply store_task_specific_keeps, store_request_keeps.
    + intros [?|?]; discriminate.
    + intros ? ? _.
      repeat split; apply store_task_specific_keeps;
        unfold store_request; cbv zeta; lookups; eauto.
  - intros [= <-]. repeat split; auto; discriminate.
Qed.

Lemma initialization_keeps_keys_witness :
  is_Some
    (store_plain_text "hello" {[ "routing_decision" := VStr "GENERAL_CHAT" ]}
       !! "routing_decision").
Proof.
  apply (proj1 (initialization_keeps_keys (fun _ => JSONDecodeError)
                  (Some ["hello"])
                  {[ "routing_decision" := VStr "GENERAL_CHAT" ]}
                  _ eq_refl)).
  vm_compute. eauto.
Defined.

Lemma detect_family (message : string) :
  let text := lower message in
  let name := _detect_request_type message in
  (any_in git_keywords text = true /\
   (name = "git_analysis" \/ name = "git_pull")) \/
  (any_in git_keywords text = false /\ any_in jira_keywords text = true /\
   (name = "jira_test_generation" \/ name = "jira_analysis")) \/
  (any_in git_keywords text = false /\ any_in jira_keywords text = false /\
   any_in pdf_keywords text = true /\ name = "pdf_processing") \/
  (any_in git_keywords text = false /\ any_in jira_keywords text = false /\
   any_in pdf_keywords text = false /\ any_in script_keywords text = true /\
   name = "script_generation") \/
  (any_in git_keywords text = false /\ any_in jira_keywords text = false /\
   any_in pdf_keywords text = false /\ any_in script_keywords text = false /\
   (name = "test_generation" \/ name = "code_analysis"
    \/ name = "general_chat")).
Proof.
  cbv zeta. unfold _detect_request_type.
  destruct (any_in git_keywords (lower message));
    [left; split; [reflexivity|]; split_conditions; auto|right].
  destruct (any_in jira_keywords (lower message));
    [left; repeat split; split_conditions; auto|right].
  destruct (any_in pdf_keywords (lower message)); [left; auto|right].
  destruct (any_in script_keywords (lower message)); [left; auto|right].
  repeat split. split_conditions; auto.
Qed.

(** X8: what the orchestrator formats is what initialization stores.
    When the text read back is the request formatted for a message, the
    state afterwards holds the message, the request type the classifier
    detected and the task chosen for it, with the common fields reset to
    their defaults. *)
Theorem formatted_request_reaches_state
    (json_loads : string -> loaded) (text message : string)
    (timestamp : value) (state : gmap string value) :
  let request_data :=
    _format_request message (_detect_request_type message) timestamp in
  json_loads text = Loaded (VDict request_data) ->
  exists state',
    initialize_enhanced_state json_loads (Some [text]) state
    = Return state' /\
    state' !! "user_message" = Some (VStr message) /\
    state' !! "request_type" = Some (VStr (_detect_request_type message)) /\
    state' !! "task" = get "task" request_data /\
    state' !! "source_code" = Some (VStr "") /\
    state' !! "language" = Some (VStr "python") /\
    state' !! "test_results" = Some (VDict [("status", VStr "UNKNOWN")]) /\
    state' !! "analysis_complete" = Some (VBool false).
Proof.
  intros request_data Hload. subst request_data.
  unfold initialize_enhanced_state. rewrite Hload.
  eexists. split; [reflexivity|].
  pose proof (detect_in_request_types message) as H.
  unfold request_types in H. simpl in H.
  repeat (destruct H as [<-|H];
          [unfold store_task_specific, store_request;
           cbn [get _format_request default from_option id is_one_of
                  existsb String.eqb Ascii.eqb Bool.eqb orb];
           repeat split; lookups; reflexivity|]).
  destruct H.
Qed.

Lemma formatted_request_reaches_state_witness :
  exists state',
    initialize_enhanced_state
      (loads_as (_format_request "review my code"
                   (_detect_request_type "review my code") VNone))
      (Some ["{...}"]) ∅ = Return state' /\
    state' !! "request_type" = Some (VStr "code_analysis").
Proof.
  destruct (formatted_request_reaches_state
              (loads_as (_format_request "review my code"
                           (_detect_request_type "review my code") VNone))
              "{...}" "review my code" VNone ∅ eq_refl)
    as [state' [H [_ [Htype _]]]].
  exists state'. split; [exact H | exact Htype].
Defined.

Ltac family_keys :=
  let k := fresh "k" in
  let Hk := fresh "Hk" in
  intros k Hk; simpl in Hk;
  repeat match goal with
         | H : _ \/ _ |- _ => destruct H
         | H : False |- _ => destruct H
         end;
  subst k; lookups; rewrite ?lookup_empty;
  (split;
   [intros [? ?]; first [discriminate | repeat split; reflexivity]
   |intros; first [solve [eauto] | exfalso; intuition discriminate]]).

(** X9: the task-specific fields follow the classification.  Starting
    from an empty state and the request formatted for a message, the git
    fields are seeded exactly when the message has a git keyword, the JIRA
    fields exactly when it has a JIRA keyword and no git keyword, the PDF
    fields exactly when it has a PDF keyword and none of those, and the
    script fields exactly when it has a script keyword and none of
    those. *)
Theorem seeded_fields_follow_classification
    (json_loads : string -> loaded) (text message : string)
    (timestamp : value) :
  json_loads text
  = Loaded (VDict (_format_request message (_detect_request_type message)
                     timestamp)) ->
  exists state',
    initialize_enhanced_state json_loads (Some [text]) ∅ = Return state' /\
    (forall k, In k git_keys ->
       (is_Some (state' !! k) <->
        any_in git_keywords (lower message) = true)) /\
    (forall k, In k jira_keys ->
       (is_Some (state' !! k) <->
        any_in git_keywords (lower message) = false /\
        any_in jira_keywords (lower message) = true)) /\
    (forall k, In k pdf_keys ->
       (is_Some (state' !! k) <->
        any_in git_keywords (lower message) = false /\
        any_in jira_keywords (lower message) = false /\
        any_in pdf_keywords (lower message) = true)) /\
    (forall k, In k script_keys ->
       (is_Some (state' !! k) <->
        any_in git_keywords (lower message) = false /\
        any_in jira_keywords (lower message) = false /\
        any_in pdf_keywords (lower message) = false /\
        any_in script_keywords (lower message) = true)).
Proof.
  intros Hload. unfold initialize_enhanced_state. rewrite Hload.
  eexists. split; [reflexivity|].
  pose proof (detect_family message) as H. cbv zeta in H.
  destruct H as [[Hg H]|[[Hg [Hj H]]|[[Hg [Hj [Hp H]]]
                |[[Hg [Hj [Hp [Hs H]]]]|[Hg [Hj [Hp [Hs H]]]]]]]];
    rewrite ?Hg, ?Hj, ?Hp, ?Hs;
    repeat (destruct H as [H|H]); rewrite H;
    unfold store_task_specific, store_request;
    cbn [get _format_request default from_option id is_one_of
           existsb String.eqb Ascii.eqb Bool.eqb orb];
    (split; [family_keys|split; [family_keys|split; family_keys]]).
Qed.

Lemma seeded_fields_follow_classification_witness :
  exists state',
    initialize_enhanced_state
      (loads_as (_format_request "clone the repo"
                   (_detect_request_type "clone the repo") VNone))
      (Some ["{...}"]) ∅ = Return state' /\
    is_Some (state' !! "git_changes").
Proof.
  destruct (seeded_fields_follow_classification
              (loads_as (_format_request "clone the repo"
                           (_detect_request_type "clone the repo") VNone))
              "{...}" "clone the repo" VNone eq_refl)
    as [state' [H [Hgit _]]].
  exists state'. split; [exact H|].
  apply (Hgit "git_changes"); [simpl; tauto | vm_compute; reflexivity].
Defined.

End RequestFacts.

(** ** Analysing git changes *)

Module GitChangesFacts.
Import Py PyText GitTools GitChanges.
Local Open Scope list_scope.

Lemma split_cons (sep : ascii) (s : string) :
  exists field fields, split sep s = field :: fields.
Proof.
  induction s as [|c s [f [fs IH]]]; simpl; [eauto|].
  destruct (Ascii.eqb c sep); [eauto|]. rewrite IH. eauto.
Qed.

Lemma has_two_split (line : string) :
  has_two (split tab line) = names_file line.
Proof.
  unfold names_file.
  induction line as [|c line IH]; [reflexivity|].
  cbn [split contains startswith].
  rewrite (Ascii.eqb_sym tab c).
  destruct (Ascii.eqb c tab) eqn:Hc; cbn [andb orb].
  - destruct (split_cons tab line) as [f [fs ->]]. reflexivity.
  - rewrite <- IH. destruct (split_cons tab line) as [f [fs ->]].
    reflexivity.
Qed.

(** The three outcomes of one line. *)
Lemma parse_line_cases (line : string) :
  (names_file line = false /\ parse_line line = Return None) \/
  (names_file line = true /\ startswith (String tab "") line = true /\
   parse_line line = Raise (Exception "string index out of range")) \/
  (names_file line = true /\ startswith (String tab "") line = false /\
   exists change,
     parse_line line = Return (Some (change, file_path_of change)) /\
     well_formed_change change).
Proof.
  rewrite <- has_two_split. unfold parse_line.
  destruct line as [|c line]; [left; auto|].
  cbn [nonempty split startswith].
  rewrite (Ascii.eqb_sym tab c).
  destruct (Ascii.eqb c tab) eqn:Hc; cbn [andb].
  - right; left. destruct (split_cons tab line) as [f [fs ->]]. auto.
  - destruct (split_cons tab line) as [f [fs ->]].
    destruct fs as [|file_path fs]; [left; auto|]. right; right.
    repeat split. cbn [first_char bind].
    exists (VDict
              [("file_path", VStr file_path);
               ("change_type",
                VStr (default "unknown"
                        (lookup_code (String c "") change_type_map)));
               ("status_code", VStr (String c f))]).
    split; [reflexivity|].
    exists file_path, (default "unknown"
                         (lookup_code (String c "") change_type_map)),
      (String c f).
    repeat split; [|discriminate].
    unfold change_type_map, lookup_code.
    repeat match goal with
           | |- context [String.eqb ?a ?b] => destruct (String.eqb a b)
           end; simpl; tauto.
Qed.

Lemma parse_lines_spec (lines : list string) :
  (Exists (fun line => startswith (String tab "") line = true) lines /\
   parse_lines lines = Raise (Exception "string index out of range")) \/
  (Forall (fun line => startswith (String tab "") line = false) lines /\
   exists changes,
     parse_lines lines = Return (changes, map file_path_of changes) /\
     Forall well_formed_change changes /\
     List.length changes = List.length (List.filter names_file lines)).
Proof.
  induction lines as [|line lines IH].
  - right. split; [constructor|]. exists []. repeat split. constructor.
  - cbn [parse_lines List.filter].
    destruct (parse_line_cases line)
      as [[Hn ->]|[[Hn [Ht ->]]|[Hn [Ht [change [-> Hwf]]]]]];
      rewrite Hn; cbn [bind].
    + assert (Hs : startswith (String tab "") line = false).
      { destruct line as [|c line]; [reflexivity|].
        unfold names_file in Hn. cbn [contains] in Hn.
        now apply orb_false_elim in Hn as [-> _]. }
      destruct IH as [[Hex ->]|[Hall [changes [-> [Hwf Hlen]]]]].
      * left. split; [now apply Exists_cons_tl | reflexivity].
      * right. split; [now constructor|]. exists changes. auto.
    + left. split; [now apply Exists_cons_hd | reflexivity].
    + destruct IH as [[Hex ->]|[Hall [changes [-> [Hwfs Hlen]]]]].
      * left. split; [now apply Exists_cons_tl | reflexivity].
      * right. split; [now constructor|]. exists (change :: changes).
        cbn [bind fst snd map List.length].
        repeat split; [now constructor | now rewrite Hlen].
Qed.

Lemma parse_name_status_lines (output : string) :
  parse_name_status output = parse_lines (split newline (strip output)).
Proof.
  unfold parse_name_status.
  destruct (strip output); reflexivity.
Qed.

(** X10: [analyze_git_changes] never raises for expected failures.  When
    the system raises nothing outside the [Exception] class it returns a
    dictionary whose status is [success] or [error]; an error result has
    a message and an empty list of changes; a path that does not exist or
    has no [.git] entry gives the error [Invalid Git repository path]
    without running git. *)
Theorem analyze_git_changes_never_raises
    (sys : system) (path_exists : string -> bool) (repository_path : string)
    (since_commit : option string) (max_commits : Z) :
  expected_failures_only sys ->
  exists d,
    analyze_git_changes sys path_exists repository_path since_commit
      max_commits = Return d /\
    (get "status" d = Some (VStr "success") \/
     (get "status" d = Some (VStr "error") /\
      (exists m, get "message" d = Some (VStr m)) /\
      get "changes" d = Some (VList []))) /\
    (path_exists repository_path = false \/
     path_exists (path_join repository_path ".git") = false ->
     d = [("status", VStr "error");
          ("message", VStr "Invalid Git repository path");
          ("changes", VList [])]).
Proof.
  intros [_ Hrun].
  unfold analyze_git_changes, analyze_git_changes_body.
  destruct (negb (path_exists repository_path)
            || negb (path_exists (path_join repository_path ".git")))
    eqn:Hpath.
  - eexists. split; [reflexivity|]. split; [right; eauto|reflexivity].
  - assert (Hvalid :
      ~ (path_exists repository_path = false \/
         path_exists (path_join repository_path ".git") = false)).
    { apply orb_false_elim in Hpath as [H1 H2].
      apply negb_false_iff in H1, H2. intros [H|H]; congruence. }
    repeat
      match goal with
      | |- context [subprocess_run ?s ?c ?t] =>
          destruct (subprocess_run s c t) as [?|[?|?|?]] eqn:?; cbn [bind]
      | |- context [parse_name_status ?o] =>
          rewrite (parse_name_status_lines o);
          destruct (parse_lines_spec (split newline (strip o)))
            as [[_ ->]|[_ [? [-> _]]]]; cbn [bind]
      end.
    all: try (exfalso; eapply Hrun; eassumption).
    all: eexists; split; [reflexivity|];
      (split; [|intros H; now contradiction Hvalid]).
    all: try (right; repeat split; eauto; fail).
    all: left; reflexivity.
Qed.

Lemma analyze_git_changes_never_raises_witness :
  exists d,
    analyze_git_changes slow_system (fun _ => true) "/repo" None 10
    = Return d /\
    (get "status" d = Some (VStr "success") \/
     (get "status" d = Some (VStr "error") /\
      (exists m, get "message" d = Some (VStr m)) /\
      get "changes" d = Some (VList []))) /\
    ((fun _ : string => true) "/repo" = false \/
     (fun _ : string => true) (path_join "/repo" ".git") = false ->
     d = [("status", VStr "error");
          ("message", VStr "Invalid Git repository path");
          ("changes", VList [])]).
Proof.
  apply (analyze_git_changes_never_raises slow_system (fun _ => true)
           "/repo" None 10).
  split; intros; discriminate.
Defined.

(** X11: a successful analysis is consistent: [affected_files] lists the
    file paths of [changes] in the same order, [total_files_changed] is
    their number, and every change has one of the six change types and a
    status code that is not empty. *)
Theorem successful_analysis_is_consistent
    (sys : system) (path_exists : string -> bool) (repository_path : string)
    (since_commit : option string) (max_commits : Z) (d : dict) :
  analyze_git_changes sys path_exists repository_path since_commit
    max_commits = Return d ->
  get "status" d = Some (VStr "success") ->
  exists changes,
    get "changes" d = Some (VList changes) /\
    get "affected_files" d = Some (VList (map file_path_of changes)) /\
    get "total_files_changed" d = Some (VInt (len changes)) /\
    Forall well_formed_change changes.
Proof.
  unfold analyze_git_changes, analyze_git_changes_body.
  destruct (negb (path_exists repository_path)
            || negb (path_exists (path_join repository_path ".git")));
    [intros [= <-]; discriminate|].
  repeat
    match goal with
    | |- context [subprocess_run ?s ?c ?t] =>
        destruct (subprocess_run s c t) as [?|[?|?|?]] eqn:?; cbn [bind]
    | |- context [parse_name_status ?o] =>
        rewrite (parse_name_status_lines o);
        destruct (parse_lines_spec (split newline (strip o)))
          as [[_ ->]|[_ [changes [-> [Hwf _]]]]]; cbn [bind]
    end.
  all: try (intros [= <-]; discriminate).
  all: try discriminate.
  intros [= <-] _. exists changes. cbn [fst snd].
  repeat split; [|exact Hwf].
  cbn [get String.eqb Ascii.eqb Bool.eqb]. unfold len.
  now rewrite length_map.
Qed.

Lemma successful_analysis_is_consistent_witness :
  exists changes,
    get "changes"
      (match analyze_git_changes reporting_system (fun _ => true) "/repo"
               None 10 with
       | Return d => d
       | Raise _ => []
       end) = Some (VList changes) /\
    List.length changes = 2.
Proof.
  destruct (successful_analysis_is_consistent reporting_system
              (fun _ => true) "/repo" None 10 _ eq_refl eq_refl)
    as [changes [H _]].
  exists changes. split; [exact H|].
  vm_compute in H. injection H as <-. reflexivity.
Defined.

(** X12: with a valid repository and a git that answers, the analysis
    fails exactly when a line of the stripped [--name-status] output
    starts with a tab (its status field is empty and has no first
    character); otherwise it succeeds and counts one changed file for
    every line that has a tab, ignoring the lines without one. *)
Theorem analysis_counts_lines_with_tab
    (sys : system) (path_exists : string -> bool) (repository_path : string)
    (since_commit : option string) (max_commits : Z)
    (log_result diff_result stats_result : CompletedProcess) :
  path_exists repository_path = true ->
  path_exists (path_join repository_path ".git") = true ->
  subprocess_run sys (log_cmd repository_path since_commit max_commits) None
  = Return log_result ->
  subprocess_run sys (diff_cmd repository_path since_commit) None
  = Return diff_result ->
  subprocess_run sys (stats_cmd repository_path) None
  = Return stats_result ->
  let lines := split newline (strip (stdout diff_result)) in
  exists d,
    analyze_git_changes sys path_exists repository_path since_commit
      max_commits = Return d /\
    (get "status" d = Some (VStr "error") <->
     Exists (fun line => startswith (String tab "") line = true) lines) /\
    (get "status" d = Some (VStr "success") <->
     Forall (fun line => startswith (String tab "") line = false) lines) /\
    (get "status" d = Some (VStr "success") ->
     get "total_files_changed" d
     = Some (VInt (len (List.filter names_file lines)))).
Proof.
  intros H1 H2 Hlog Hdiff Hstats lines.
  unfold analyze_git_changes, analyze_git_changes_body.
  rewrite H1, H2, Hlog, Hdiff. cbn [negb orb bind].
  rewrite parse_name_status_lines. fold lines.
  destruct (parse_lines_spec lines)
    as [[Hex ->]|[Hall [changes [-> [_ Hlen]]]]]; cbn [bind].
  - eexists. split; [reflexivity|]. repeat split; try discriminate; auto.
    intros Hall. exfalso. apply Exists_exists in Hex as [l [Hin Hl]].
    rewrite Forall_forall in Hall. specialize (Hall l Hin). congruence.
  - rewrite Hstats. cbn [bind].
    eexists. split; [reflexivity|]. repeat split; try discriminate; auto.
    + intros Hex. exfalso. apply Exists_exists in Hex as [l [Hin Hl]].
      rewrite Forall_forall in Hall. specialize (Hall l Hin). congruence.
    + intros _. cbn [get String.eqb Ascii.eqb Bool.eqb snd].
      unfold len. now rewrite length_map, Hlen.
Qed.

Lemma analysis_counts_lines_with_tab_witness :
  exists d,
    analyze_git_changes reporting_system (fun _ => true) "/repo" None 10
    = Return d /\
    get "status" d = Some (VStr "success").
Proof.
  destruct (analysis_counts_lines_with_tab reporting_system (fun _ => true)
              "/repo" None 10 _ _ _ eq_refl eq_refl eq_refl eq_refl eq_refl)
    as [d [Hd [_ [Hok _]]]].
  exists d. split; [exact Hd|].
  apply Hok. vm_compute. repeat constructor.
Defined.

End GitChangesFacts.

(** ** The changes of one file *)

Module FileChangesFacts.
Import Py PyText GitTools GitChanges FileChanges.

Lemma length_take (n : nat) : forall s, String.length (take n s) <= n.
Proof.
  induction n as [|n IH]; intros [|c s]; simpl; try lia.
  specialize (IH s). lia.
Qed.

Lemma length_take_long (n : nat) : forall s,
  n <= String.length s -> String.length (take n s) = n.
Proof.
  induction n as [|n IH]; intros [|c s]; simpl; try lia.
  intros H. rewrite IH; lia.
Qed.

Lemma length_append (s1 s2 : string) :
  String.length (s1 +:+ s2) = String.length s1 + String.length s2.
Proof. induction s1 as [|c s1 IH]; simpl; [reflexivity | now rewrite IH]. Qed.

Lemma preview_spec (text : string) :
  String.length (preview text) <= 2003 /\
  (String.length text <= 2000 -> preview text = text) /\
  (2000 < String.length text ->
   preview text = take 2000 text +:+ "..." /\
   String.length (preview text) = 2003).
Proof.
  unfold preview.
  destruct (Nat.ltb_spec 2000 (String.length text)) as [Hlong|Hshort].
  - rewrite length_append, length_take_long by lia.
    change (String.length "...") with 3. repeat split; lia.
  - repeat split; lia.
Qed.

Ltac run_calls :=
  repeat
    match goal with
    | |- context [subprocess_run ?s ?c ?t] =>
        destruct (subprocess_run s c t) as [?|[?|?|?]] eqn:?; cbn [bind]
    | |- context [numstat ?i ?o] => destruct (numstat i o); cbn [bind]
    end.

(** X13: the content [extract_file_changes] reports is bounded: it has at
    most 2003 characters.  It is the text of the file when that has at
    most 2000 characters, its first 2000 characters followed by three
    dots when it is longer, a fixed notice when the file is not valid
    UTF-8, and empty when the file does not exist. *)
Theorem file_content_is_bounded
    (sys : system) (fs : files) (int_of_string : string -> option Z)
    (repository_path file_path : string) (since_commit : option string)
    (d : dict) :
  extract_file_changes sys fs int_of_string repository_path file_path
    since_commit = Return d ->
  get "status" d = Some (VStr "success") ->
  let full_file_path := path_join repository_path file_path in
  exists content,
    content_of d = Some content /\
    String.length content <= 2003 /\
    (path_exists fs full_file_path = false -> content = "") /\
    (path_exists fs full_file_path = true ->
     read_text fs full_file_path = UnicodeDecodeError ->
     content = "[Binary file or encoding issue]") /\
    (forall text,
        path_exists fs full_file_path = true ->
        read_text fs full_file_path = ReadText text ->
        (String.length text <= 2000 -> content = text) /\
        (2000 < String.length text ->
         content = take 2000 text +:+ "...")).
Proof.
  unfold extract_file_changes, extract_file_changes_body, current_content_of.
  destruct (path_exists fs repository_path); cbn [negb];
    [|intros [= <-]; discriminate].
  cbv zeta.
  destruct (path_exists fs (path_join repository_path file_path)) eqn:Hex;
    [destruct (read_text fs (path_join repository_path file_path))
       as [text| |[?|?|?]] eqn:Hread|];
    cbn [bind]; run_calls; intros [= <-]; try discriminate; intros _.
  - exists (preview text). split; [reflexivity|].
    destruct (preview_spec text) as [Hlen [Hshort Hlong]].
    split; [exact Hlen|]. split; [discriminate|].
    split; [discriminate|].
    intros text' _ [= <-]. split; [exact Hshort | apply Hlong].
  - exists "[Binary file or encoding issue]". split; [reflexivity|].
    split; [simpl; lia|]. split; [discriminate|].
    split; [reflexivity | discriminate].
  - exists "". split; [reflexivity|].
    split; [simpl; lia|]. split; [reflexivity|].
    split; discriminate.
Qed.

Lemma file_content_is_bounded_witness :
  exists content,
    content_of
      (match extract_file_changes reporting_system binary_files
               (fun _ => None) "/repo" "logo.png" None with
       | Return d => d
       | Raise _ => []
       end) = Some content /\
    String.length content <= 2003.
Proof.
  destruct (file_content_is_bounded reporting_system binary_files
              (fun _ => None) "/repo" "logo.png" None _ eq_refl eq_refl)
    as [content [H [Hlen _]]].
  exists content. split; [exact H | exact Hlen].
Defined.

(** X14: a file that is missing is not an error.  With the repository
    directory present and a git that answers, [extract_file_changes]
    succeeds for a path that does not exist: the result says so in
    [file_exists], has an empty content and still carries the diff git
    printed.  Only a missing repository directory, or an exception raised
    while reading or running git, gives status [error]. *)
Theorem missing_file_is_not_an_error
    (sys : system) (fs : files) (int_of_string : string -> option Z)
    (repository_path file_path : string) (since_commit : option string)
    (diff_result stat_result : CompletedProcess) :
  path_exists fs repository_path = true ->
  path_exists fs (path_join repository_path file_path) = false ->
  subprocess_run sys (file_diff_cmd repository_path file_path since_commit)
    None = Return diff_result ->
  subprocess_run sys (stat_cmd repository_path file_path) None
  = Return stat_result ->
  exists d,
    extract_file_changes sys fs int_of_string repository_path file_path
      since_commit = Return d /\
    get "status" d = Some (VStr "success") /\
    get "file_exists" d = Some (VBool false) /\
    get "current_content" d = Some (VStr "") /\
    get "diff" d = Some (VStr (stdout diff_result)) /\
    get "file_path" d = Some (VStr file_path).
Proof.
  intros Hrepo Hfile Hdiff Hstat.
  unfold extract_file_changes, extract_file_changes_body, current_content_of.
  rewrite Hrepo. cbn [negb]. cbv zeta. rewrite Hfile. cbn [bind].
  rewrite Hdiff. cbn [bind]. rewrite Hstat. cbn [bind].
  destruct (numstat int_of_string (stdout stat_result)).
  eexists. split; [reflexivity|]. repeat split.
Qed.

Lemma missing_file_is_not_an_error_witness :
  exists d,
    extract_file_changes reporting_system bare_files (fun _ => None)
      "/repo" "gone.py" None = Return d /\
    get "status" d = Some (VStr "success") /\
    get "file_exists" d = Some (VBool false).
Proof.
  destruct (missing_file_is_not_an_error reporting_system bare_files
              (fun _ => None) "/repo" "gone.py" None _ _
              eq_refl eq_refl eq_refl eq_refl)
    as [d [Hd [Hs [Hf _]]]].
  exists d. auto.
Defined.

(** X15: [extract_file_changes] and [cleanup_repository] never raise for
    expected failures: when nothing outside the [Exception] class is
    raised, each returns a dictionary.  The status of an extraction is
    [success] or [error], and it is [error] whenever the repository
    directory is missing; the status of a clean-up is [warning] exactly
    when the path does not exist, and otherwise [success] or [error] as
    removing the tree returns or raises. *)
Theorem file_tools_never_raise
    (sys : system) (fs : files) (int_of_string : string -> option Z)
    (repository_path file_path : string) (since_commit : option string) :
  expected_failures_only sys ->
  (forall p m, read_text fs p <> ReadRaises (BaseException m)) ->
  (forall p m, rmtree fs p <> Raise (BaseException m)) ->
  (exists d,
      extract_file_changes sys fs int_of_string repository_path file_path
        since_commit = Return d /\
      (get "status" d = Some (VStr "success") \/
       get "status" d = Some (VStr "error")) /\
      (path_exists fs repository_path = false ->
       get "status" d = Some (VStr "error"))) /\
  (exists d,
      cleanup_repository fs repository_path = Return d /\
      (get "status" d = Some (VStr "warning") <->
       path_exists fs repository_path = false) /\
      (get "status" d = Some (VStr "success") <->
       path_exists fs repository_path = true /\
       exists u, rmtree fs repository_path = Return u) /\
      (get "status" d = Some (VStr "error") <->
       path_exists fs repository_path = true /\
       exists e, rmtree fs repository_path = Raise e)).
Proof.
  intros [_ Hrun] Hread Hrm. split.
  - unfold extract_file_changes, extract_file_changes_body,
      current_content_of.
    destruct (path_exists fs repository_path); cbn [negb];
      [|eexists; split; [reflexivity|]; split; [right|]; reflexivity].
    cbv zeta.
    destruct (path_exists fs (path_join repository_path file_path));
      [destruct (read_text fs (path_join repository_path file_path))
         as [text| |[?|?|?]] eqn:Hr|];
      cbn [bind]; run_calls.
    all: try (exfalso; eapply Hrun; eassumption).
    all: try (exfalso; eapply Hread; eassumption).
    all: eexists; split; [reflexivity|];
      (split; [|intros; discriminate]).
    all: first [left; reflexivity | right; reflexivity].
  - unfold cleanup_repository.
    destruct (path_exists fs repository_path);
      [destruct (rmtree fs repository_path) as [u|[?|?|?]] eqn:Hr|].
    all: try (exfalso; eapply Hrm; eassumption).
    all: eexists; split; [reflexivity|].
    all: repeat split; intros; try discriminate; eauto.
    all: try (destruct H as [_ [? ?]]; discriminate).
    all: try (destruct H as [? _]; discriminate).
Qed.

Lemma file_tools_never_raise_witness :
  exists d,
    cleanup_repository binary_files "/tmp/git_analysis_0" = Return d /\
    get "status" d = Some (VStr "success").
Proof.
  destruct (file_tools_never_raise reporting_system binary_files
              (fun _ => None) "/tmp/git_analysis_0" "a.py" None)
    as [_ [d [Hd [_ [Hok _]]]]].
  - split; intros; discriminate.
  - intros; discriminate.
  - intros; discriminate.
  - exists d. split; [exact Hd|]. apply Hok. split; [reflexivity|].
    exists tt. reflexivity.
Defined.

End FileChangesFacts.

(** ** Document analysis and test cases *)

Module PdfAnalysisFacts.
Import Py PyText Dyn PdfTools PdfAnalysis.
Local Open Scope list_scope.

Section Facts.

Variable describe : fault -> string.
Variable repr : value -> string.
Variable findall : string -> bool -> string -> list string.

Lemma counters_app (n m : nat) : forall c,
  counters c (n + m) = counters c n ++ counters (c + Z.of_nat n) m.
Proof.
  induction n as [|n IH]; intros c.
  - simpl. now rewrite Z.add_0_r.
  - cbn [Nat.add counters app]. rewrite IH.
    replace (c + Z.of_nat (S n))%Z with (c + 1 + Z.of_nat n)%Z by lia.
    reflexivity.
Qed.

Lemma item_test_cases_spec (counter : Z) (item : value)
    (cases : list value) (counter' : Z) :
  item_test_cases describe repr counter item = Return (cases, counter') ->
  counter' = (counter + 2)%Z /\
  map test_case_id cases = map numbered (counters counter 2).
Proof.
  unfold item_test_cases.
  destruct (subscript describe item "description") as [description|];
    [|discriminate]. cbn [bind].
  destruct (slice50 describe description) as [head|]; [|discriminate].
  cbn [bind]. intros [= <- <-]. split; reflexivity.
Qed.

Lemma for_each_items_spec (l : list value) :
  forall counter cases counter',
    for_each (item_test_cases describe repr) counter l
    = Return (cases, counter') ->
    counter' = (counter + 2 * Z.of_nat (List.length l))%Z /\
    map test_case_id cases
    = map numbered (counters counter (2 * List.length l)).
Proof.
  induction l as [|item l IH]; intros counter cases counter'.
  - intros [= <- <-]. split; [cbn [List.length]; lia | reflexivity].
  - cbn [for_each].
    destruct (item_test_cases describe repr counter item)
      as [[first c1]|] eqn:Hitem; [|discriminate]. cbn [bind snd fst].
    destruct (for_each (item_test_cases describe repr) c1 l)
      as [[rest c2]|] eqn:Hrest; [|discriminate]. cbn [bind snd fst].
    intros [= <- <-].
    apply item_test_cases_spec in Hitem as [-> Hfirst].
    apply IH in Hrest as [-> Hrest].
    split; [cbn [List.length]; lia|].
    rewrite map_app, Hfirst, Hrest.
    replace (2 * List.length (item :: l))%nat
      with (2 + 2 * List.length l)%nat by (cbn [List.length]; lia).
    now rewrite counters_app, map_app.
Qed.

Lemma document_test_cases_spec (doc_type : value) (counter : Z) :
  map test_case_id (fst (document_test_cases doc_type counter))
  = map numbered
      (if is_text "api_specification" doc_type then [counter]
       else if is_text "requirements" doc_type then [counter] else []) /\
  snd (document_test_cases doc_type counter)
  = if is_text "api_specification" doc_type then (counter + 1)%Z
    else counter.
Proof.
  unfold document_test_cases.
  destruct (is_text "api_specification" doc_type);
    [|destruct (is_text "requirements" doc_type)]; split; reflexivity.
Qed.

(** X16: the test cases of a successful [generate_test_cases_from_pdf]
    are numbered in order: two for each testable item of the analysis,
    from 1 on, then the test case for its document type, then the
    integration test case when its section count is above three.  The API
    test case takes a number of its own; the requirements test case does
    not advance the counter.  The message reports their number. *)
Theorem test_cases_are_numbered_in_order (pdf_analysis_data d : dict) :
  generate_test_cases_from_pdf describe repr pdf_analysis_data = Return d ->
  get "status" d = Some (VStr "success") ->
  exists testable_items (item_list : list value) doc_type sections_count
         many_sections,
    dict_get describe (analysis_of pdf_analysis_data) "testable_items"
      (VList []) = Return testable_items /\
    items describe testable_items = Return item_list /\
    dict_get describe (analysis_of pdf_analysis_data) "document_type"
      (VStr "unknown") = Return doc_type /\
    dict_get describe (analysis_of pdf_analysis_data) "sections_count"
      (VInt 0) = Return sections_count /\
    greater_than_3 describe sections_count = Return many_sections /\
    map test_case_id (test_cases_of d)
    = map numbered
        (test_case_numbers (List.length item_list) doc_type many_sections)
    /\
    get "message" d
    = Some (VStr ("Generated " +:+ str_of_Z (len (test_cases_of d))
                  +:+ " test cases from PDF analysis")).
Proof.
  unfold generate_test_cases_from_pdf, generate_test_cases_from_pdf_body,
    guarded.
  destruct (not_successful pdf_analysis_data);
    [intros [= <-]; discriminate|].
  cbv zeta. fold (analysis_of pdf_analysis_data).
  set (analysis := analysis_of pdf_analysis_data).
  destruct (dict_get describe analysis "testable_items" (VList []))
    as [testable_items|[?|?|?]] eqn:H1; cbn [bind];
    try (intros [= <-]; discriminate); try discriminate.
  destruct (items describe testable_items) as [item_list|[?|?|?]] eqn:H2;
    cbn [bind]; try (intros [= <-]; discriminate); try discriminate.
  destruct (for_each (item_test_cases describe repr) 1 item_list)
    as [[cases counter]|[?|?|?]] eqn:Hitems; cbn [bind];
    try (intros [= <-]; discriminate); try discriminate.
  destruct (dict_get describe analysis "document_type" (VStr "unknown"))
    as [doc_type|[?|?|?]] eqn:H3; cbn [bind];
    try (intros [= <-]; discriminate); try discriminate.
  destruct (dict_get describe analysis "sections_count" (VInt 0))
    as [sections_count|[?|?|?]] eqn:H4; cbn [bind];
    try (intros [= <-]; discriminate); try discriminate.
  destruct (greater_than_3 describe sections_count)
    as [many_sections|[?|?|?]] eqn:H5; cbn [bind];
    try (intros [= <-]; discriminate); try discriminate.
  intros [= <-] _.
  exists testable_items, item_list, doc_type, sections_count, many_sections.
  subst analysis. do 5 (split; [first [assumption | reflexivity]|]).
  apply for_each_items_spec in Hitems as [-> Hcases].
  destruct (document_test_cases_spec doc_type
              (1 + 2 * Z.of_nat (List.length item_list))) as [Hdoc Hnext].
  split; [|reflexivity].
  unfold test_cases_of.
  cbn [get String.eqb Ascii.eqb Bool.eqb fst snd].
  unfold test_case_numbers. cbv zeta.
  rewrite !map_app, Hcases, Hdoc, Hnext.
  do 2 f_equal. destruct many_sections; reflexivity.
Qed.

(** X17: the requirements test case and the integration test case share
    an identifier.  When the analysis names the document type
    [requirements] and counts more than three sections, a successful
    [generate_test_cases_from_pdf] ends its list with these two test
    cases, and both carry the same [test_case_id]. *)
Theorem requirements_and_integration_share_an_id
    (pdf_analysis_data d analysis : dict) (n : Z) :
  generate_test_cases_from_pdf describe repr pdf_analysis_data = Return d ->
  get "status" d = Some (VStr "success") ->
  analysis_of pdf_analysis_data = VDict analysis ->
  get "document_type" analysis = Some (VStr "requirements") ->
  get "sections_count" analysis = Some (VInt n) ->
  (3 < n)%Z ->
  exists before k,
    test_cases_of d
    = before ++ [requirements_test k; integration_test k] /\
    test_case_id (requirements_test k) = test_case_id (integration_test k).
Proof.
  unfold generate_test_cases_from_pdf, generate_test_cases_from_pdf_body,
    guarded.
  destruct (not_successful pdf_analysis_data);
    [intros [= <-]; discriminate|].
  cbv zeta. fold (analysis_of pdf_analysis_data).
  intros Hrun Hstatus Hanalysis Hdoc Hcount Hn. revert Hrun.
  rewrite Hanalysis. cbn [dict_get]. rewrite Hdoc, Hcount.
  cbn [bind default from_option id greater_than_3].
  destruct (items describe (default (VList []) (get "testable_items" analysis)))
    as [item_list|[?|?|?]]; cbn [bind];
    try (intros [= E]; subst d; discriminate); try discriminate.
  destruct (for_each (item_test_cases describe repr) 1 item_list)
    as [[cases counter]|[?|?|?]]; cbn [bind];
    try (intros [= E]; subst d; discriminate); try discriminate.
  apply Z.ltb_lt in Hn. rewrite Hn.
  intros [= <-]. exists cases, counter. split; reflexivity.
Qed.

Lemma analyze_rejects (data : dict) :
  get "status" data <> Some (VStr "success") ->
  analyze_document_structure describe findall data
  = Return [("status", VStr "error");
            ("message", VStr "Invalid PDF content data provided");
            ("analysis", VDict [])].
Proof.
  intros Hstatus.
  unfold analyze_document_structure, analyze_document_structure_body.
  assert (Hnot : not_successful data = true).
  { unfold not_successful. destruct data as [|kv data]; [reflexivity|].
    destruct (get "status" (kv :: data)) as [[| | |s| |]|]; try reflexivity.
    cbn [default from_option id is_text].
    destruct (String.eqb_spec s "success") as [->|]; [|reflexivity].
    now contradiction Hstatus. }
  now rewrite Hnot.
Qed.

Lemma generate_rejects (data : dict) :
  get "status" data <> Some (VStr "success") ->
  generate_test_cases_from_pdf describe repr data
  = Return [("status", VStr "error");
            ("message", VStr "Invalid PDF analysis data provided");
            ("test_cases", VList [])].
Proof.
  intros Hstatus.
  unfold generate_test_cases_from_pdf, generate_test_cases_from_pdf_body.
  assert (Hnot : not_successful data = true).
  { unfold not_successful. destruct data as [|kv data]; [reflexivity|].
    destruct (get "status" (kv :: data)) as [[| | |s| |]|]; try reflexivity.
    cbn [default from_option id is_text].
    destruct (String.eqb_spec s "success") as [->|]; [|reflexivity].
    now contradiction Hstatus. }
  now rewrite Hnot.
Qed.

Lemma not_successful_false (data : dict) :
  get "status" data = Some (VStr "success") -> not_successful data = false.
Proof.
  unfold not_successful. destruct data as [|kv data]; [discriminate|].
  now intros ->.
Qed.

Lemma analyze_section_ok (section : value) :
  well_formed_section section ->
  exists r, analyze_section describe section = Return r.
Proof.
  intros [d [content [title [section_id [-> [Hc [Ht Hi]]]]]]].
  unfold analyze_section. cbn [dict_get subscript].
  rewrite Hc, Ht, Hi. cbn [default from_option id bind lowered].
  destruct (section_kind (lower title)); cbn [bind]; eauto.
Qed.

Lemma analyze_sections_ok (sections : list value) :
  Forall well_formed_section sections ->
  exists r, analyze_sections describe sections = Return r.
Proof.
  induction 1 as [|section sections Hs _ [r IH]]; [simpl; eauto|].
  cbn [analyze_sections].
  destruct (analyze_section_ok section Hs) as [[[title entry]|] ->];
    cbn [bind]; rewrite IH; cbn [bind]; eauto.
Qed.

Lemma testable_items_are_items (text : string) :
  exists descriptions,
    testable_items_of findall text = map testable_item descriptions.
Proof.
  unfold testable_items_of.
  induction testable_patterns as [|pattern patterns [ds IH]];
    [exists []; reflexivity|].
  exists (long_matches (findall pattern true text) ++ ds).
  cbn [flat_map]. now rewrite IH, map_app.
Qed.

Lemma item_cases_ok (descriptions : list string) : forall counter,
  exists r,
    for_each (item_test_cases describe repr) counter
      (map testable_item descriptions) = Return r.
Proof.
  induction descriptions as [|description ds IH]; intros counter;
    [simpl; eauto|].
  cbn [map for_each item_test_cases testable_item subscript get String.eqb
         Ascii.eqb Bool.eqb slice50 bind fst snd].
  destruct (IH (counter + 2)%Z) as [r ->]. cbn [bind]. eauto.
Qed.

(** The analysis of well-formed content succeeds. *)
Lemma analyze_accepts (data : dict) (text : string) (sections : list value) :
  get "status" data = Some (VStr "success") ->
  get "full_content" data = Some (VStr text) ->
  get "sections" data = Some (VList sections) ->
  Forall well_formed_section sections ->
  exists a analysis descriptions document_type,
    analyze_document_structure describe findall data = Return a /\
    get "status" a = Some (VStr "success") /\
    get "analysis" a = Some (VDict analysis) /\
    get "testable_items" analysis
    = Some (VList (map testable_item descriptions)) /\
    get "document_type" analysis = Some (VStr document_type) /\
    get "sections_count" analysis = Some (VInt (len sections)).
Proof.
  intros Hstatus Htext Hsections Hwf.
  unfold analyze_document_structure, analyze_document_structure_body.
  rewrite (not_successful_false data Hstatus), Htext, Hsections.
  cbn [default from_option id length_of lowered items text_of bind].
  destruct (analyze_sections_ok sections Hwf) as [r ->]. cbn [bind guarded].
  destruct (testable_items_are_items text) as [descriptions ->].
  eexists _, _, descriptions, _. split; [reflexivity|].
  repeat split.
Qed.

Lemma generate_accepts (data analysis : dict)
    (descriptions : list string) (document_type : string) (n : Z) :
  get "status" data = Some (VStr "success") ->
  get "analysis" data = Some (VDict analysis) ->
  get "testable_items" analysis
  = Some (VList (map testable_item descriptions)) ->
  get "document_type" analysis = Some (VStr document_type) ->
  get "sections_count" analysis = Some (VInt n) ->
  exists g,
    generate_test_cases_from_pdf describe repr data = Return g /\
    get "status" g = Some (VStr "success").
Proof.
  intros Hstatus Hanalysis Hitems Hdoc Hcount.
  unfold generate_test_cases_from_pdf, generate_test_cases_from_pdf_body.
  rewrite (not_successful_false data Hstatus), Hanalysis.
  cbn [default from_option id dict_get]. rewrite Hitems, Hdoc, Hcount.
  cbn [default from_option id items bind greater_than_3].
  destruct (item_cases_ok descriptions 1) as [r ->]. cbn [bind guarded].
  eexists. split; reflexivity.
Qed.

Lemma extracted_sections_well_formed
    (path_exists : string -> bool)
    (user_manual_content api_spec_content pdf_path_or_url : string) :
  get "status"
    (extract_pdf_content path_exists user_manual_content api_spec_content
       pdf_path_or_url) = Some (VStr "success") ->
  exists text sections,
    get "full_content"
      (extract_pdf_content path_exists user_manual_content api_spec_content
         pdf_path_or_url) = Some (VStr text) /\
    get "sections"
      (extract_pdf_content path_exists user_manual_content api_spec_content
         pdf_path_or_url) = Some (VList sections) /\
    Forall well_formed_section sections.
Proof.
  unfold extract_pdf_content.
  destruct (is_url pdf_path_or_url); [discriminate|].
  destruct (negb (path_exists pdf_path_or_url)); [discriminate|].
  intros _.
  set (filename := lower (basename pdf_path_or_url)).
  destruct (contains "user" filename || contains "manual" filename
            || contains "requirements" filename);
    [|destruct (contains "api" filename || contains "spec" filename)];
    (eexists _, _; split; [reflexivity|]; split; [reflexivity|]);
    repeat constructor; unfold well_formed_section, section;
    eexists _, _, _, _; (split; [reflexivity|]); repeat split.
Qed.

(** X18: the three steps of the PDF workflow agree on the outcome.  What
    ever the input, the analysis and the generation of test cases return
    a dictionary; when the extraction fails, both report status [error];
    when it succeeds, both report status [success]. *)
Theorem pdf_workflow_statuses_agree
    (path_exists : string -> bool)
    (user_manual_content api_spec_content pdf_path_or_url : string) :
  let '(extracted, analyzed, generated) :=
    pdf_workflow_steps describe repr findall path_exists user_manual_content
      api_spec_content pdf_path_or_url in
  (get "status" extracted = Some (VStr "error") \/
   get "status" extracted = Some (VStr "success")) /\
  status_of analyzed = get "status" extracted /\
  status_of generated = get "status" extracted.
Proof.
  unfold pdf_workflow_steps. cbv zeta.
  set (extracted :=
         extract_pdf_content path_exists user_manual_content
           api_spec_content pdf_path_or_url).
  assert (Hcases :
    get "status" extracted = Some (VStr "error") \/
    get "status" extracted = Some (VStr "success")).
  { subst extracted. unfold extract_pdf_content.
    destruct (is_url pdf_path_or_url); [now left|].
    destruct (negb (path_exists pdf_path_or_url)); [now left | now right]. }
  split; [exact Hcases|].
  destruct Hcases as [Herr|Hok].
  - rewrite analyze_rejects by (rewrite Herr; discriminate).
    cbn [bind]. rewrite generate_rejects by discriminate.
    rewrite Herr. split; reflexivity.
  - destruct (extracted_sections_well_formed path_exists user_manual_content
                api_spec_content pdf_path_or_url Hok)
      as [text [sections [Htext [Hsections Hwf]]]].
    destruct (analyze_accepts extracted text sections Hok Htext Hsections Hwf)
      as [a [analysis [ds [doc [-> [Ha [Han [Hitems [Hdoc Hcount]]]]]]]]].
    cbn [bind status_of].
    destruct (generate_accepts a analysis ds doc _ Ha Han Hitems Hdoc Hcount)
      as [g [-> Hg]].
    cbn [status_of]. rewrite Ha, Hg, Hok. split; reflexivity.
Qed.

Lemma analyze_sections_lengths (sections : list value) :
  forall titles entries,
    analyze_sections describe sections = Return (titles, entries) ->
    List.length titles = List.length entries /\
    List.length titles <= List.length sections.
Proof.
  induction sections as [|section sections IH]; intros titles entries.
  - intros [= <- <-]. split; reflexivity.
  - cbn [analyze_sections].
    destruct (analyze_section describe section) as [item|]; [|discriminate].
    cbn [bind].
    destruct (analyze_sections describe sections) as [[ts es]|];
      [|discriminate].
    cbn [bind]. destruct (IH ts es eq_refl) as [Hlen Hle].
    destruct item as [[title entry]|]; intros [= <- <-];
      cbn [List.length fst snd]; split; lia.
Qed.

(** X19: a successful [analyze_document_structure] is consistent with
    itself.  The document type is [api_specification] exactly when the
    API flag is set (a requirements keyword does not change that),
    [requirements] exactly when only the requirements flag is set, and
    [unknown] when neither is; there are as many key sections as entries
    in [requirements_sections]. *)
Theorem analysis_is_consistent (pdf_content_data a : dict) :
  analyze_document_structure describe findall pdf_content_data = Return a ->
  get "status" a = Some (VStr "success") ->
  exists analysis document_type has_requirements has_api_specs
         key_sections requirements_sections,
    get "analysis" a = Some (VDict analysis) /\
    get "document_type" analysis = Some (VStr document_type) /\
    get "has_requirements" analysis = Some (VBool has_requirements) /\
    get "has_api_specs" analysis = Some (VBool has_api_specs) /\
    get "key_sections" analysis = Some (VList key_sections) /\
    get "requirements_sections" analysis
    = Some (VList requirements_sections) /\
    (document_type = "api_specification" <-> has_api_specs = true) /\
    (document_type = "requirements" <->
     has_api_specs = false /\ has_requirements = true) /\
    (document_type = "unknown" <->
     has_api_specs = false /\ has_requirements = false) /\
    List.length key_sections = List.length requirements_sections.
Proof.
  unfold analyze_document_structure, analyze_document_structure_body,
    guarded.
  destruct (not_successful pdf_content_data);
    [intros [= <-]; discriminate|].
  cbv zeta.
  destruct (length_of describe _) as [sections_count|[?|?|?]]; cbn [bind];
    try (intros [= <-]; discriminate); try discriminate.
  destruct (lowered describe _) as [content_lower|[?|?|?]]; cbn [bind];
    try (intros [= <-]; discriminate); try discriminate.
  destruct (items describe _) as [section_list|[?|?|?]]; cbn [bind];
    try (intros [= <-]; discriminate); try discriminate.
  destruct (analyze_sections describe section_list)
    as [[titles entries]|[?|?|?]] eqn:Hsections; cbn [bind];
    try (intros [= <-]; discriminate); try discriminate.
  destruct (text_of describe _) as [text|[?|?|?]]; cbn [bind];
    try (intros [= <-]; discriminate); try discriminate.
  intros [= <-] _.
  destruct (analyze_sections_lengths _ _ _ Hsections) as [Hlen _].
  eexists _, _, _, _, titles, entries.
  do 6 (split; [reflexivity|]).
  match goal with
  | |- context [if ?a then "api_specification"
                else if ?r then "requirements" else "unknown"] =>
      destruct a, r
  end.
  all: split; [|split; [|split; [|exact Hlen]]].
  all: split; intros; first [reflexivity | congruence | intuition congruence].
Qed.

End Facts.

Lemma test_cases_are_numbered_in_order_witness :
  map test_case_id
    (test_cases_of
       (match generate_test_cases_from_pdf plain_describe plain_repr
                (requirements_analysis 2) with
        | Return d => d
        | Raise _ => []
        end))
  = map numbered (test_case_numbers 0 (VStr "requirements") false).
Proof.
  destruct (test_cases_are_numbered_in_order plain_describe plain_repr
              (requirements_analysis 2) _ eq_refl eq_refl)
    as [ti [l [doc [sc [many [Hti [Hl [Hdoc [Hsc [Hmany [H _]]]]]]]]]]].
  injection Hti as <-. injection Hl as <-. injection Hdoc as <-.
  injection Hsc as <-. injection Hmany as <-. exact H.
Defined.

Lemma requirements_and_integration_share_an_id_witness :
  exists before k,
    test_cases_of
      (match generate_test_cases_from_pdf plain_describe plain_repr
               (requirements_analysis 4) with
       | Return d => d
       | Raise _ => []
       end)
    = before ++ [requirements_test k; integration_test k] /\
    test_case_id (requirements_test k) = test_case_id (integration_test k).
Proof.
  apply (requirements_and_integration_share_an_id plain_describe plain_repr
           (requirements_analysis 4) _ _ 4 eq_refl eq_refl eq_refl eq_refl
           eq_refl).
  lia.
Defined.

Lemma analysis_is_consistent_witness :
  exists analysis,
    get "analysis"
      (match analyze_document_structure plain_describe no_match
               [("status", VStr "success");
                ("full_content", VStr "GET /api/users returns the users");
                ("sections", VList [])] with
       | Return a => a
       | Raise _ => []
       end) = Some (VDict analysis) /\
    get "document_type" analysis = Some (VStr "api_specification").
Proof.
  destruct (analysis_is_consistent plain_describe no_match
              [("status", VStr "success");
               ("full_content", VStr "GET /api/users returns the users");
               ("sections", VList [])] _ eq_refl eq_refl)
    as [analysis [doc [req [api [ks [rs [Ha [Hdoc [_ [Hapi _]]]]]]]]]].
  exists analysis. split; [exact Ha|].
  vm_compute in Ha. injection Ha as <-. reflexivity.
Defined.

End PdfAnalysisFacts.

(** ** Ticket identifiers in URLs *)

Module TicketUrlFacts.
Import Py JiraTools TicketUrl JiraFacts.

Lemma append_cons (c : ascii) (s t : string) :
  String c s +:+ t = String c (s +:+ t).
Proof. reflexivity. Qed.

Lemma append_nil (t : string) : "" +:+ t = t.
Proof. reflexivity. Qed.

Lemma append_assoc (a b c : string) : (a +:+ b) +:+ c = a +:+ (b +:+ c).
Proof.
  induction a as [|x a IH]; [reflexivity|].
  now rewrite !append_cons, IH.
Qed.

Lemma startswith_append (p s : string) : startswith p (p +:+ s) = true.
Proof.
  induction p as [|c p IH]; [reflexivity|].
  rewrite append_cons. cbn [startswith].
  now rewrite Ascii.eqb_refl, IH.
Qed.

Lemma contains_at_start (kw s : string) :
  startswith kw s = true -> contains kw s = true.
Proof. intros H. destruct s; cbn [contains]; now rewrite H. Qed.

Lemma strip_prefix_sound (p : string) : forall s r,
  strip_prefix p s = Some r -> s = p +:+ r.
Proof.
  induction p as [|a p IH]; intros s r.
  - destruct s; intros [= <-]; reflexivity.
  - destruct s as [|b s]; cbn [strip_prefix]; [discriminate|].
    destruct (Ascii.eqb_spec a b) as [->|]; [|discriminate].
    intros H. now rewrite append_cons, (IH _ _ H).
Qed.

Lemma strip_prefix_append (p s : string) : strip_prefix p (p +:+ s) = Some s.
Proof.
  induction p as [|c p IH]; [now destruct s|].
  rewrite append_cons. cbn [strip_prefix].
  now rewrite Ascii.eqb_refl.
Qed.

Lemma span_sound (p : ascii -> bool) (s : string) : forall a b,
  span p s = (a, b) ->
  s = a +:+ b /\ all_chars p a = true /\
  match b with EmptyString => True | String c _ => p c = false end.
Proof.
  induction s as [|c s IH]; intros a b; cbn [span].
  - intros [= <- <-]. auto.
  - destruct (p c) eqn:Hc.
    + destruct (span p s) as [a' b'] eqn:Hs. intros [= <- <-].
      destruct (IH _ _ eq_refl) as [-> [Hall Hb]].
      rewrite append_cons. cbn [all_chars]. rewrite Hc, Hall. auto.
    + intros [= <- <-]. rewrite append_nil. rewrite Hc. auto.
Qed.

Lemma span_append (p : ascii -> bool) (a : string) : forall b,
  all_chars p a = true ->
  match b with EmptyString => True | String c _ => p c = false end ->
  span p (a +:+ b) = (a, b).
Proof.
  induction a as [|c a IH]; intros b Hall Hb.
  - rewrite append_nil. destruct b as [|c b]; [reflexivity|].
    cbn [span]. now rewrite Hb.
  - rewrite append_cons. cbn [span all_chars] in *.
    apply andb_prop in Hall as [-> Hall]. now rewrite (IH b Hall Hb).
Qed.

Lemma match_ticket_id_sound (s ticket_id : string) :
  match_ticket_id s = Some ticket_id ->
  exists project number rest,
    ticket_id = ticket_id_of project number /\
    s = ticket_id +:+ rest /\
    is_project project = true /\ is_number number = true.
Proof.
  unfold match_ticket_id.
  destruct (span is_upper s) as [letters rest] eqn:Hl.
  apply span_sound in Hl as [-> [Hup _]].
  destruct letters as [|c letters]; [discriminate|].
  destruct rest as [|h rest]; [discriminate|].
  destruct (Ascii.eqb_spec h "-") as [->|Hne].
  - destruct (span is_digit rest) as [digits rest'] eqn:Hd.
    apply span_sound in Hd as [-> [Hdig _]].
    destruct digits as [|d digits]; [discriminate|].
    intros [= <-].
    exists (String c letters), (String d digits), rest'.
    unfold ticket_id_of, is_project, is_number.
    rewrite Hup, Hdig. repeat split.
    now rewrite !append_assoc.
  - destruct h as [[] [] [] [] [] [] [] []]; try discriminate.
    now contradiction Hne.
Qed.

Lemma search_browse_sound (url : string) : forall ticket_id,
  search_browse url = Some ticket_id ->
  (exists project number,
      ticket_id = ticket_id_of project number /\
      is_project project = true /\ is_number number = true) /\
  contains ("/browse/" +:+ ticket_id) url = true.
Proof.
  induction url as [|c url IH]; intros ticket_id;
    rewrite search_browse_unfold;
    destruct (strip_prefix "/browse/" _) as [r|] eqn:Hp.
  - discriminate.
  - discriminate.
  - cbn [mbind option_bind].
    destruct (match_ticket_id r) as [found|] eqn:Hm.
    + intros [= <-]. apply strip_prefix_sound in Hp.
      destruct (match_ticket_id_sound _ _ Hm)
        as [project [number [rest [Hid [Hr [Hproj Hnum]]]]]].
      split; [eauto|].
      rewrite Hp, Hr, <- append_assoc.
      apply contains_at_start, startswith_append.
    + intros H. destruct (IH _ H) as [Hshape Hin]. split; [exact Hshape|].
      cbn [contains]. rewrite Hin. apply orb_true_r.
  - cbn [mbind option_bind]. intros H.
    destruct (IH _ H) as [Hshape Hin]. split; [exact Hshape|].
    cbn [contains]. rewrite Hin. apply orb_true_r.
Qed.

(** X20: the identifier taken from a ticket URL is well formed.  When
    the input starts with [http] and [fetch_jira_ticket] succeeds, the
    ticket identifier of the result is a project key of capital letters,
    a hyphen and a number, and it stands in the URL right after
    [/browse/]. *)
Theorem url_ticket_id_is_well_formed
    (urlparse : string -> parsed)
    (ticket_url jira_base_url username api_token : string) (d : dict) :
  startswith "http" ticket_url = true ->
  fetch_jira_ticket urlparse ticket_url jira_base_url username api_token
  = Return d ->
  get "status" d = Some (VStr "success") ->
  exists ticket project number,
    ticket_of d = Some ticket /\
    get "ticket_id" ticket = Some (VStr (ticket_id_of project number)) /\
    is_project project = true /\ is_number number = true /\
    contains ("/browse/" +:+ ticket_id_of project number) ticket_url = true.
Proof.
  intros Hhttp.
  unfold fetch_jira_ticket, fetch_jira_ticket_body, extract_ticket_id.
  rewrite Hhttp.
  destruct (search_browse ticket_url) as [ticket_id|] eqn:Hsearch.
  - destruct (search_browse_sound _ _ Hsearch)
      as [[project [number [-> [Hproj Hnum]]]] Hin].
    cbn [default from_option id].
    assert (Hne : nonempty (ticket_id_of project number) = true).
    { unfold is_project in Hproj. apply andb_prop in Hproj as [Hp _].
      destruct project; [discriminate | reflexivity]. }
    destruct (negb (nonempty jira_base_url));
      [destruct (urlparse ticket_url)|]; cbn [bind]; rewrite ?Hne;
      cbn [negb];
      try destruct (lookup_ticket _ mock_ticket_data);
      intros [= <-]; try discriminate; intros _;
      eexists _, project, number; repeat split; auto.
  - cbn [default from_option id].
    destruct (negb (nonempty jira_base_url));
      [destruct (urlparse ticket_url)|]; cbn [bind nonempty negb];
      intros [= <-]; discriminate.
Qed.

Lemma url_ticket_id_is_well_formed_witness :
  exists ticket project number,
    ticket_of
      (match fetch_jira_ticket parses
               "https://acme.atlassian.net/browse/SHOP-77?focus=1" "" "" ""
       with
       | Return d => d
       | Raise _ => []
       end) = Some ticket /\
    get "ticket_id" ticket = Some (VStr (ticket_id_of project number)) /\
    is_project project = true /\ is_number number = true.
Proof.
  destruct (url_ticket_id_is_well_formed parses
              "https://acme.atlassian.net/browse/SHOP-77?focus=1" "" "" "" _
              eq_refl eq_refl eq_refl)
    as [ticket [project [number [H1 [H2 [H3 [H4 _]]]]]]].
  exists ticket, project, number. auto.
Defined.

Lemma startswith_extend (p : string) : forall a b,
  startswith p a = true -> startswith p (a +:+ b) = true.
Proof.
  induction p as [|c p IH]; intros a b; [reflexivity|].
  destruct a as [|x a]; [discriminate|].
  rewrite append_cons. cbn [startswith]. intros H.
  apply andb_prop in H as [-> H]. now rewrite (IH a b H).
Qed.

Lemma match_ticket_id_complete (project number rest : string) :
  is_project project = true ->
  is_number number = true ->
  ends_number rest = true ->
  match_ticket_id (ticket_id_of project number +:+ rest)
  = Some (ticket_id_of project number).
Proof.
  unfold is_project, is_number, ends_number, ticket_id_of.
  intros Hp Hn Hrest.
  apply andb_prop in Hp as [Hp1 Hp2]. apply andb_prop in Hn as [Hn1 Hn2].
  unfold match_ticket_id. rewrite !append_assoc.
  rewrite (span_append is_upper project _ Hp2) by reflexivity.
  destruct project as [|c project]; [discriminate|].
  rewrite append_cons, append_nil.
  rewrite (span_append is_digit number rest Hn2).
  - destruct number as [|d number]; [discriminate|]. reflexivity.
  - destruct rest as [|x rest]; [exact I|].
    now apply negb_true_iff in Hrest.
Qed.

Lemma search_browse_skips (base : string) : forall tail,
  contains "/b" base = false ->
  search_browse (base +:+ "/browse/" +:+ tail)
  = search_browse ("/browse/" +:+ tail).
Proof.
  induction base as [|c base IH]; intros tail Hno; [reflexivity|].
  cbn [contains] in Hno. apply orb_false_elim in Hno as [Hstart Hrest].
  rewrite append_cons, search_browse_unfold.
  assert (Hnone :
    strip_prefix "/browse/" (String c (base +:+ "/browse/" +:+ tail))
    = None).
  { cbn [strip_prefix]. cbn [startswith] in Hstart.
    destruct (Ascii.eqb "/" c); [|reflexivity].
    destruct base as [|c2 base].
    - reflexivity.
    - rewrite append_cons. cbn [strip_prefix].
      cbn [andb] in Hstart. apply andb_false_iff in Hstart as [H|H];
        [now rewrite H | discriminate]. }
  rewrite Hnone. cbn [mbind option_bind]. now apply IH.
Qed.

(** X21: building a ticket URL and fetching it gives the ticket back.
    For a base that starts with [http] and has no [/b], a project key of
    capital letters, a number of digits and a rest that does not go on
    with a digit, [fetch_jira_ticket] on base, [/browse/], key, hyphen,
    number and rest succeeds with that ticket identifier, whenever
    parsing the URL does not fail. *)
Theorem ticket_url_round_trip
    (urlparse : string -> parsed)
    (base project number rest jira_base_url username api_token : string) :
  startswith "http" base = true ->
  contains "/b" base = false ->
  is_project project = true ->
  is_number number = true ->
  ends_number rest = true ->
  parse_fails urlparse (ticket_url base project number rest) jira_base_url
  = false ->
  exists d ticket,
    fetch_jira_ticket urlparse (ticket_url base project number rest)
      jira_base_url username api_token = Return d /\
    get "status" d = Some (VStr "success") /\
    ticket_of d = Some ticket /\
    get "ticket_id" ticket = Some (VStr (ticket_id_of project number)).
Proof.
  intros Hhttp Hbase Hp Hn Hrest Hparse.
  assert (Hurl : startswith "http" (ticket_url base project number rest)
                 = true).
  { unfold ticket_url. now apply startswith_extend. }
  assert (Hsearch : search_browse (ticket_url base project number rest)
                    = Some (ticket_id_of project number)).
  { unfold ticket_url. rewrite (search_browse_skips base _ Hbase).
    rewrite search_browse_unfold, strip_prefix_append.
    cbn [mbind option_bind].
    now rewrite (match_ticket_id_complete project number rest Hp Hn Hrest). }
  assert (Hne : nonempty (ticket_id_of project number) = true).
  { unfold is_project in Hp. apply andb_prop in Hp as [Hp _].
    destruct project; [discriminate | reflexivity]. }
  unfold parse_fails in Hparse. rewrite Hurl in Hparse. cbn [andb] in Hparse.
  unfold fetch_jira_ticket, fetch_jira_ticket_body, extract_ticket_id.
  rewrite Hurl, Hsearch. cbn [default from_option id].
  destruct (negb (nonempty jira_base_url));
    [destruct (urlparse _); [|discriminate]|];
    cbn [bind]; rewrite Hne; cbn [negb];
    destruct (lookup_ticket _ mock_ticket_data);
    eexists _, _; repeat split.
Qed.

Lemma ticket_url_round_trip_witness :
  exists d ticket,
    fetch_jira_ticket parses
      (ticket_url "https://acme.atlassian.net" "SHOP" "77" "?focus=1")
      "" "" "" = Return d /\
    get "status" d = Some (VStr "success") /\
    ticket_of d = Some ticket /\
    get "ticket_id" ticket = Some (VStr (ticket_id_of "SHOP" "77")).
Proof.
  apply (ticket_url_round_trip parses "https://acme.atlassian.net" "SHOP"
           "77" "?focus=1" "" "" ""); reflexivity.
Defined.

End TicketUrlFacts.

(** ** Requirements and test scenarios *)

Module RequirementsFacts.
Import Py PyText Dyn JiraTools PdfAnalysis Requirements.
Local Open Scope list_scope.

Lemma counters_split (n m : nat) : forall c,
  counters c (n + m) = counters c n ++ counters (c + Z.of_nat n) m.
Proof.
  induction n as [|n IH]; intros c.
  - simpl. now rewrite Z.add_0_r.
  - cbn [Nat.add counters app]. rewrite IH.
    replace (c + Z.of_nat (S n))%Z with (c + 1 + Z.of_nat n)%Z by lia.
    reflexivity.
Qed.

Lemma length_counters (n : nat) : forall c, List.length (counters c n) = n.
Proof. induction n as [|n IH]; intros c; simpl; [|rewrite IH]; reflexivity. Qed.

(** A loop whose every turn appends [step] scenarios numbered from the
    counter on appends scenarios numbered in a row. *)
Lemma for_each_numbered
    (turn : Z -> value -> outcome (list value * Z)) (step : nat)
    (label : value -> option string) (numbered : Z -> option string) :
  (forall c v cases c',
      turn c v = Return (cases, c') ->
      c' = (c + Z.of_nat step)%Z /\
      map label cases = map numbered (counters c step)) ->
  forall l c cases c',
    for_each turn c l = Return (cases, c') ->
    c' = (c + Z.of_nat (step * List.length l))%Z /\
    map label cases = map numbered (counters c (step * List.length l)).
Proof.
  intros Hturn. induction l as [|v l IH]; intros c cases c'.
  - intros [= <- <-]. rewrite Nat.mul_0_r. split; [lia | reflexivity].
  - cbn [for_each].
    destruct (turn c v) as [[first c1]|] eqn:Hv; [|discriminate].
    cbn [bind fst snd].
    destruct (for_each turn c1 l) as [[rest c2]|] eqn:Hl; [|discriminate].
    cbn [bind fst snd]. intros [= <- <-].
    apply Hturn in Hv as [-> Hfirst]. apply IH in Hl as [-> Hrest].
    replace (step * List.length (v :: l))%nat
      with (step + step * List.length l)%nat by (cbn [List.length]; lia).
    split; [lia|].
    now rewrite map_app, Hfirst, Hrest, counters_split, map_app.
Qed.

Section Facts.

Variable describe : fault -> string.
Variable repr : value -> string.
Variable findall : string -> bool -> string -> list string.
Variable str_title : string -> string.

Lemma functional_turn c v cases c' :
  functional_scenarios describe repr c v = Return (cases, c') ->
  c' = (c + Z.of_nat 2)%Z /\
  map scenario_id cases = map scenario_numbered (counters c 2).
Proof.
  unfold functional_scenarios.
  destruct (subscript describe v "description") as [description|];
    [|discriminate]. cbn [bind].
  destruct (slice50 describe description) as [head|]; [|discriminate].
  cbn [bind].
  destruct (dict_get describe v "priority" (VStr "Medium")) as [priority|];
    [|discriminate]. cbn [bind].
  destruct (subscript describe v "id") as [requirement_id|]; [|discriminate].
  cbn [bind]. intros [= <- <-]. split; reflexivity.
Qed.

Lemma nfr_turn c v cases c' :
  nfr_scenarios describe repr str_title c v = Return (cases, c') ->
  c' = (c + Z.of_nat 1)%Z /\
  map scenario_id cases = map scenario_numbered (counters c 1).
Proof.
  unfold nfr_scenarios.
  destruct (subscript describe v "type") as [nfr_type|]; [|discriminate].
  cbn [bind].
  destruct (subscript describe v "description") as [description|];
    [|discriminate]. cbn [bind].
  destruct (dict_get describe v "priority" (VStr "Medium")) as [priority|];
    [|discriminate]. cbn [bind].
  destruct nfr_type; try discriminate. cbn [bind].
  destruct (subscript describe v "id") as [requirement_id|]; [|discriminate].
  cbn [bind]. intros [= <- <-]. split; reflexivity.
Qed.

Lemma integration_turn c v cases c' :
  integration_scenarios describe c v = Return (cases, c') ->
  c' = (c + Z.of_nat 1)%Z /\
  map scenario_id cases = map scenario_numbered (counters c 1).
Proof.
  unfold integration_scenarios.
  destruct (subscript describe v "components") as [components|];
    [|discriminate]. cbn [bind].
  destruct (joined describe components) as [names|]; [|discriminate].
  cbn [bind].
  destruct (subscript describe v "description") as [description|];
    [|discriminate]. cbn [bind].
  intros [= <- <-]. split; reflexivity.
Qed.

(** X22: the scenarios of a successful
    [generate_test_scenarios_from_jira] are numbered from 1 on without a
    gap: two for each functional requirement, one for each non-functional
    requirement, one for each integration point and, last, the edge-case
    scenario, which is always there. *)
Theorem scenarios_are_numbered_without_gap (requirements_data d : dict) :
  generate_test_scenarios_from_jira describe repr str_title
    requirements_data = Return d ->
  get "status" d = Some (VStr "success") ->
  exists requirements functional non_functional integration
         (f n i : list value),
    get "requirements" requirements_data = Some requirements /\
    dict_get describe requirements "functional_requirements" (VList [])
    = Return functional /\
    items describe functional = Return f /\
    dict_get describe requirements "non_functional_requirements" (VList [])
    = Return non_functional /\
    items describe non_functional = Return n /\
    dict_get describe requirements "integration_points" (VList [])
    = Return integration /\
    items describe integration = Return i /\
    let total := 2 * List.length f + List.length n + List.length i + 1 in
    List.length (scenarios_of d) = total /\
    map scenario_id (scenarios_of d)
    = map scenario_numbered (counters 1 total) /\
    get "message" d
    = Some (VStr ("Generated " +:+ str_of_Z (Z.of_nat total)
                  +:+ " test scenarios")).
Proof.
  unfold generate_test_scenarios_from_jira,
    generate_test_scenarios_from_jira_body, guarded.
  destruct (lacks "requirements" requirements_data) eqn:Hlacks;
    [intros [= <-]; discriminate|].
  cbv zeta.
  assert (Hreq : exists requirements,
             get "requirements" requirements_data = Some requirements).
  { unfold lacks in Hlacks. destruct requirements_data; [discriminate|].
    destruct (get "requirements" _); [eauto | discriminate]. }
  destruct Hreq as [requirements Hreq]. rewrite Hreq.
  cbn [default from_option id].
  destruct (dict_get describe requirements "functional_requirements" _)
    as [functional|[?|?|?]] eqn:H1; cbn [bind];
    try (intros [= <-]; discriminate); try discriminate.
  destruct (items describe functional) as [f|[?|?|?]] eqn:H2; cbn [bind];
    try (intros [= <-]; discriminate); try discriminate.
  destruct (for_each (functional_scenarios describe repr) 1 f)
    as [[cases1 c1]|[?|?|?]] eqn:Hf; cbn [bind];
    try (intros [= <-]; discriminate); try discriminate.
  destruct (dict_get describe requirements "non_functional_requirements" _)
    as [non_functional|[?|?|?]] eqn:H3; cbn [bind];
    try (intros [= <-]; discriminate); try discriminate.
  destruct (items describe non_functional) as [n|[?|?|?]] eqn:H4;
    cbn [bind]; try (intros [= <-]; discriminate); try discriminate.
  destruct (for_each (nfr_scenarios describe repr str_title) _ n)
    as [[cases2 c2]|[?|?|?]] eqn:Hn; cbn [bind];
    try (intros [= <-]; discriminate); try discriminate.
  destruct (dict_get describe requirements "integration_points" _)
    as [integration|[?|?|?]] eqn:H5; cbn [bind];
    try (intros [= <-]; discriminate); try discriminate.
  destruct (items describe integration) as [i|[?|?|?]] eqn:H6; cbn [bind];
    try (intros [= <-]; discriminate); try discriminate.
  destruct (for_each (integration_scenarios describe) _ i)
    as [[cases3 c3]|[?|?|?]] eqn:Hi; cbn [bind];
    try (intros [= <-]; discriminate); try discriminate.
  intros [= <-] _. cbn [fst snd] in *.
  exists requirements, functional, non_functional, integration, f, n, i.
  do 7 (split; [first [assumption | reflexivity]|]).
  apply (for_each_numbered _ 2 scenario_id scenario_numbered functional_turn)
    in Hf as [-> Hids1].
  apply (for_each_numbered _ 1 scenario_id scenario_numbered nfr_turn)
    in Hn as [-> Hids2].
  apply (for_each_numbered _ 1 scenario_id scenario_numbered
           integration_turn) in Hi as [-> Hids3].
  assert (Hids :
    map scenario_id
      (cases1 ++ cases2 ++ cases3
       ++ [edge_case_scenario
             (1 + Z.of_nat (2 * List.length f)
              + Z.of_nat (1 * List.length n)
              + Z.of_nat (1 * List.length i))])
    = map scenario_numbered
        (counters 1
           (2 * List.length f + List.length n + List.length i + 1))).
  { rewrite !map_app, Hids1, Hids2, Hids3. rewrite !Nat.mul_1_l.
    generalize (2 * List.length f)%nat (List.length n) (List.length i).
    intros a b c.
    rewrite (counters_split (a + b + c) 1), (counters_split (a + b) c),
      (counters_split a b), !map_app, <- !app_assoc.
    rewrite !Nat2Z.inj_add, !Z.add_assoc. reflexivity. }
  assert (Hlen :
    List.length
      (cases1 ++ cases2 ++ cases3
       ++ [edge_case_scenario
             (1 + Z.of_nat (2 * List.length f)
              + Z.of_nat (1 * List.length n)
              + Z.of_nat (1 * List.length i))])
    = 2 * List.length f + List.length n + List.length i + 1).
  { apply (f_equal (@List.length _)) in Hids.
    now rewrite !length_map, length_counters in Hids. }
  cbv zeta. unfold scenarios_of.
  cbn [get String.eqb Ascii.eqb Bool.eqb].
  split; [exact Hlen|]. split; [exact Hids|].
  unfold len. now rewrite Hlen.
Qed.

Lemma number_requirements_spec (priority : value) (l : list value) :
  forall n,
    List.length (number_requirements priority n l) = List.length l /\
    map requirement_id (number_requirements priority n l)
    = map (requirement_numbered "REQ-") (counters n (List.length l)).
Proof.
  induction l as [|v l IH]; intros n; [split; reflexivity|].
  destruct (IH (n + 1)%Z) as [Hlen Hids].
  cbn [number_requirements List.length counters map]. split.
  - now rewrite Hlen.
  - now rewrite Hids.
Qed.

Lemma non_functional_requirements_spec (description_lower : string)
    (table : list (string * list string)) :
  forall n,
    let l := non_functional_requirements str_title description_lower n
               table in
    List.length l <= List.length table /\
    map requirement_id l
    = map (requirement_numbered "NFR-") (counters n (List.length l)).
Proof.
  induction table as [|[nfr_type keywords] table IH]; intros n;
    [split; [apply Nat.le_refl | reflexivity]|].
  cbn [non_functional_requirements].
  destruct (any_in keywords description_lower).
  - destruct (IH (n + 1)%Z) as [Hlen Hids]. cbv zeta in *.
    cbn [List.length counters map]. split; [lia|].
    now rewrite Hids.
  - destruct (IH n) as [Hlen Hids]. cbv zeta in *.
    cbn [List.length]. split; [lia | exact Hids].
Qed.

(** X23: the functional requirements of a successful
    [extract_requirements] carry the identifiers REQ-1, REQ-2, ... in
    order, the non-functional ones NFR-1, NFR-2, ...; there are at most
    five non-functional requirements and at most one integration point,
    and the message reports the two counts. *)
Theorem requirements_are_numbered_in_order (ticket_data d : dict) :
  extract_requirements describe findall str_title ticket_data = Return d ->
  get "status" d = Some (VStr "success") ->
  let functional := listed "requirements" "functional_requirements" d in
  let non_functional :=
    listed "requirements" "non_functional_requirements" d in
  let integration := listed "requirements" "integration_points" d in
  map requirement_id functional
  = map (requirement_numbered "REQ-")
      (counters 1 (List.length functional)) /\
  map requirement_id non_functional
  = map (requirement_numbered "NFR-")
      (counters 1 (List.length non_functional)) /\
  List.length non_functional <= 5 /\
  List.length integration <= 1 /\
  get "message" d
  = Some (VStr ("Extracted " +:+ str_of_Z (len functional)
                +:+ " functional and " +:+ str_of_Z (len non_functional)
                +:+ " non-functional requirements")).
Proof.
  unfold extract_requirements, extract_requirements_body, guarded.
  destruct (lacks "ticket" ticket_data); [intros [= <-]; discriminate|].
  cbv zeta.
  destruct (dict_get describe _ "acceptance_criteria" _)
    as [acceptance_criteria|[?|?|?]]; cbn [bind];
    try (intros [= <-]; discriminate); try discriminate.
  destruct (items describe acceptance_criteria) as [criteria|[?|?|?]];
    cbn [bind]; try (intros [= <-]; discriminate); try discriminate.
  destruct (dict_get describe _ "priority" _) as [priority|[?|?|?]];
    cbn [bind]; try (intros [= <-]; discriminate); try discriminate.
  destruct (dict_get describe _ "description" _) as [description|[?|?|?]];
    cbn [bind]; try (intros [= <-]; discriminate); try discriminate.
  destruct (text_of describe description) as [text|[?|?|?]];
    cbn [bind]; try (intros [= <-]; discriminate); try discriminate.
  destruct (dict_get describe _ "components" _) as [components|[?|?|?]];
    cbn [bind]; try (intros [= <-]; discriminate); try discriminate.
  assert (Hpoints : forall points,
             integration_points_of describe components = Return points ->
             List.length points <= 1).
  { unfold integration_points_of. intros points.
    destruct (length_of describe components) as [k|]; [|discriminate].
    cbn [bind]. destruct (1 <? k)%Z.
    - destruct (joined describe components); [|discriminate].
      cbn [bind]. intros [= <-]. apply Nat.le_refl.
    - intros [= <-]. apply Nat.le_0_l. }
  destruct (integration_points_of describe components)
    as [integration_points|[?|?|?]]; cbn [bind];
    try (intros [= <-]; discriminate); try discriminate.
  destruct (dict_get describe _ "ticket_id" _) as [ticket_id|[?|?|?]];
    cbn [bind]; try (intros [= <-]; discriminate); try discriminate.
  intros [= <-] _. cbv zeta. unfold listed.
  cbn [get String.eqb Ascii.eqb Bool.eqb].
  destruct (number_requirements_spec priority
              (criteria ++ described_requirements findall text) 1)
    as [_ Hreq].
  destruct (non_functional_requirements_spec (lower text) nfr_keywords 1)
    as [Hlen Hnfr]. cbv zeta in Hlen, Hnfr.
  split; [|split; [exact Hnfr|split; [exact Hlen|split]]].
  - rewrite Hreq. f_equal. f_equal.
    now destruct (number_requirements_spec priority
                    (criteria ++ described_requirements findall text) 1).
  - now apply Hpoints.
  - reflexivity.
Qed.

Lemma lacks_false (key : string) (data : dict) (v : value) :
  get key data = Some v -> lacks key data = false.
Proof.
  unfold lacks. intros H. destruct data; [discriminate|]. now rewrite H.
Qed.

Lemma texts_of_strings (l : list value) :
  forallb is_string l = true ->
  exists texts, texts_of describe l = Return texts.
Proof.
  induction l as [|v l IH]; [now exists []|].
  cbn [forallb]. intros [Hv Hl]%andb_prop.
  destruct v; try discriminate. destruct (IH Hl) as [texts Htexts].
  cbn [texts_of text_of bind]. rewrite Htexts. cbn [bind]. eauto.
Qed.

Lemma joined_strings (l : list value) :
  forallb is_string l = true ->
  exists names, joined describe (VList l) = Return names.
Proof.
  intros [texts Htexts]%texts_of_strings. unfold joined.
  cbn [items bind]. rewrite Htexts. cbn [bind]. eauto.
Qed.

Lemma forallb_app_true {A : Type} (p : A -> bool) (l l' : list A) :
  forallb p l = true -> forallb p l' = true -> forallb p (l ++ l') = true.
Proof. intros H H'. now rewrite forallb_app, H, H'. Qed.

Lemma described_requirements_are_strings (text : string) :
  forallb is_string (described_requirements findall text) = true.
Proof.
  unfold described_requirements.
  induction requirement_patterns as [|pattern patterns IH]; [reflexivity|].
  cbn [flat_map]. apply forallb_app_true; [|exact IH].
  induction (long_matches (findall pattern false text)); [reflexivity|].
  assumption.
Qed.

Lemma numbered_requirements_well_formed (priority : value)
    (l : list value) :
  forallb is_string l = true ->
  forall n,
    forallb well_formed_functional (number_requirements priority n l)
    = true.
Proof.
  induction l as [|v l IH]; [reflexivity|].
  cbn [forallb]. intros [Hv Hl]%andb_prop n. destruct v; try discriminate.
  cbn [number_requirements forallb]. rewrite (IH Hl). reflexivity.
Qed.

Lemma non_functional_requirements_well_formed (description_lower : string)
    (table : list (string * list string)) :
  forall n,
    forallb well_formed_nfr
      (non_functional_requirements str_title description_lower n table)
    = true.
Proof.
  induction table as [|[nfr_type keywords] table IH]; intros n;
    [reflexivity|].
  cbn [non_functional_requirements].
  destruct (any_in keywords description_lower); [|apply IH].
  cbn [forallb]. rewrite IH. reflexivity.
Qed.

Lemma extract_requirements_accepts (ticket_data ticket : dict) :
  get "ticket" ticket_data = Some (VDict ticket) ->
  well_formed_ticket ticket = true ->
  exists d requirements,
    extract_requirements describe findall str_title ticket_data = Return d /\
    get "status" d = Some (VStr "success") /\
    get "requirements" d = Some requirements /\
    well_formed_requirements requirements = true.
Proof.
  intros Hticket Hwf.
  unfold extract_requirements, extract_requirements_body, guarded.
  rewrite (lacks_false _ _ _ Hticket), Hticket.
  cbn [default from_option id dict_get bind]. unfold well_formed_ticket in Hwf.
  destruct (get "acceptance_criteria" ticket) as [[| | | |criteria|]|];
    try discriminate.
  destruct (get "description" ticket) as [[| | |text| |]|];
    try discriminate.
  destruct (get "components" ticket) as [[| | | |components|]|];
    try discriminate.
  apply andb_prop in Hwf as [Hcriteria Hcomponents].
  cbn [default from_option id dict_get bind items text_of].
  unfold integration_points_of. cbn [length_of bind].
  destruct (joined_strings components Hcomponents) as [names Hnames].
  destruct (1 <? len components)%Z.
  - rewrite Hnames. cbn [bind]. eexists. eexists.
    split; [reflexivity|]. split; [reflexivity|]. split; [reflexivity|].
    cbn [well_formed_requirements get String.eqb Ascii.eqb Bool.eqb].
    rewrite numbered_requirements_well_formed,
      non_functional_requirements_well_formed.
    + cbn [forallb well_formed_integration get String.eqb Ascii.eqb
             Bool.eqb andb].
      now rewrite Hcomponents.
    + apply forallb_app_true;
        [exact Hcriteria | apply described_requirements_are_strings].
  - cbn [bind]. eexists. eexists.
    split; [reflexivity|]. split; [reflexivity|]. split; [reflexivity|].
    cbn [well_formed_requirements get String.eqb Ascii.eqb Bool.eqb].
    rewrite numbered_requirements_well_formed,
      non_functional_requirements_well_formed.
    + reflexivity.
    + apply forallb_app_true;
        [exact Hcriteria | apply described_requirements_are_strings].
Qed.

Lemma functional_scenarios_accept (l : list value) :
  forallb well_formed_functional l = true ->
  forall c, exists r,
    for_each (functional_scenarios describe repr) c l = Return r.
Proof.
  induction l as [|v l IH]; [intros _ c; now eexists|].
  cbn [forallb]. intros [Hv Hl]%andb_prop c.
  destruct v as [| | | | |d]; try discriminate.
  unfold well_formed_functional in Hv.
  destruct (get "description" d) as [[| | |text| |]|] eqn:Hdescription;
    try discriminate.
  destruct (get "id" d) as [requirement|] eqn:Hid; try discriminate.
  cbn [for_each]. unfold functional_scenarios at 1.
  cbn [subscript dict_get]. rewrite Hdescription, Hid.
  cbn [bind slice50 fst snd].
  destruct (IH Hl (c + 2)%Z) as [r ->]. cbn [bind]. eauto.
Qed.

Lemma nfr_scenarios_accept (l : list value) :
  forallb well_formed_nfr l = true ->
  forall c, exists r,
    for_each (nfr_scenarios describe repr str_title) c l = Return r.
Proof.
  induction l as [|v l IH]; [intros _ c; now eexists|].
  cbn [forallb]. intros [Hv Hl]%andb_prop c.
  destruct v as [| | | | |d]; try discriminate.
  unfold well_formed_nfr in Hv.
  destruct (get "type" d) as [[| | |nfr_type| |]|] eqn:Htype;
    try discriminate.
  destruct (get "description" d) as [description|] eqn:Hdescription;
    try discriminate.
  destruct (get "id" d) as [requirement|] eqn:Hid; try discriminate.
  cbn [for_each]. unfold nfr_scenarios at 1.
  cbn [subscript dict_get]. rewrite Htype, Hdescription, Hid.
  cbn [bind fst snd].
  destruct (IH Hl (c + 1)%Z) as [r ->]. cbn [bind]. eauto.
Qed.

Lemma integration_scenarios_accept (l : list value) :
  forallb well_formed_integration l = true ->
  forall c, exists r,
    for_each (integration_scenarios describe) c l = Return r.
Proof.
  induction l as [|v l IH]; [intros _ c; now eexists|].
  cbn [forallb]. intros [Hv Hl]%andb_prop c.
  destruct v as [| | | | |d]; try discriminate.
  unfold well_formed_integration in Hv.
  destruct (get "components" d) as [[| | | |components|]|] eqn:Hcomponents;
    try discriminate.
  destruct (get "description" d) as [description|] eqn:Hdescription;
    try discriminate.
  destruct (joined_strings components Hv) as [names Hnames].
  cbn [for_each]. unfold integration_scenarios at 1.
  cbn [subscript]. rewrite Hcomponents, Hdescription.
  cbn [bind]. rewrite Hnames. cbn [bind fst snd].
  destruct (IH Hl (c + 1)%Z) as [r ->]. cbn [bind]. eauto.
Qed.

Lemma generate_scenarios_accepts (requirements_data : dict) (requirements : value) :
  get "requirements" requirements_data = Some requirements ->
  well_formed_requirements requirements = true ->
  exists d,
    generate_test_scenarios_from_jira describe repr str_title
      requirements_data = Return d /\
    get "status" d = Some (VStr "success").
Proof.
  intros Hrequirements Hwf.
  unfold generate_test_scenarios_from_jira,
    generate_test_scenarios_from_jira_body, guarded.
  rewrite (lacks_false _ _ _ Hrequirements), Hrequirements.
  cbn [default from_option id].
  destruct requirements as [| | | | |d]; try discriminate.
  unfold well_formed_requirements in Hwf.
  cbn [dict_get bind].
  destruct (get "functional_requirements" d) as [[| | | |f|]|];
    try discriminate.
  destruct (get "non_functional_requirements" d) as [[| | | |n|]|];
    try discriminate.
  destruct (get "integration_points" d) as [[| | | |i|]|];
    try discriminate.
  apply andb_prop in Hwf as [[Hf Hn]%andb_prop Hi].
  cbn [default from_option id items bind].
  destruct (functional_scenarios_accept f Hf 1) as [[cases1 c1] ->].
  cbn [bind fst snd].
  destruct (nfr_scenarios_accept n Hn c1) as [[cases2 c2] ->].
  cbn [bind fst snd].
  destruct (integration_scenarios_accept i Hi c2) as [[cases3 c3] ->].
  cbn [bind fst snd]. eexists. split; reflexivity.
Qed.

Lemma number_requirements_descriptions (priority : value)
    (l : list value) :
  forall n, map description_of (number_requirements priority n l) = l.
Proof.
  induction l as [|v l IH]; intros n; [reflexivity|].
  cbn [number_requirements map]. now rewrite IH.
Qed.

(** X24: [extract_requirements] succeeds on every ticket whose
    acceptance criteria and components are lists of texts and whose
    description is a text.  Its functional requirements describe the
    acceptance criteria, in their order, and after them what the patterns
    find in the description; there is an integration point exactly when
    the ticket names more than one component. *)
Theorem criteria_become_requirements (ticket_data ticket : dict) :
  get "ticket" ticket_data = Some (VDict ticket) ->
  well_formed_ticket ticket = true ->
  exists d criteria text components,
    get "acceptance_criteria" ticket = Some (VList criteria) /\
    get "description" ticket = Some (VStr text) /\
    get "components" ticket = Some (VList components) /\
    extract_requirements describe findall str_title ticket_data = Return d /\
    get "status" d = Some (VStr "success") /\
    map description_of (listed "requirements" "functional_requirements" d)
    = criteria ++ described_requirements findall text /\
    List.length (listed "requirements" "integration_points" d)
    = (if (1 <? len components)%Z then 1 else 0).
Proof.
  intros Hticket Hwf.
  unfold extract_requirements, extract_requirements_body, guarded.
  rewrite (lacks_false _ _ _ Hticket), Hticket.
  cbn [default from_option id dict_get bind].
  unfold well_formed_ticket in Hwf.
  destruct (get "acceptance_criteria" ticket) as [[| | | |criteria|]|];
    try discriminate.
  destruct (get "description" ticket) as [[| | |text| |]|];
    try discriminate.
  destruct (get "components" ticket) as [[| | | |components|]|];
    try discriminate.
  apply andb_prop in Hwf as [_ Hcomponents].
  cbn [default from_option id dict_get bind items text_of].
  unfold integration_points_of. cbn [length_of bind].
  destruct (joined_strings components Hcomponents) as [names Hnames].
  destruct (1 <? len components)%Z eqn:Hmany.
  - rewrite Hnames. cbn [bind].
    eexists. exists criteria, text, components.
    do 4 (split; [reflexivity|]). split; [reflexivity|].
    unfold listed. cbn [get String.eqb Ascii.eqb Bool.eqb].
    split; [apply number_requirements_descriptions|].
    rewrite Hmany. reflexivity.
  - cbn [bind].
    eexists. exists criteria, text, components.
    do 4 (split; [reflexivity|]). split; [reflexivity|].
    unfold listed. cbn [get String.eqb Ascii.eqb Bool.eqb].
    split; [apply number_requirements_descriptions|].
    rewrite Hmany. reflexivity.
Qed.

Lemma fetch_cases (urlparse : string -> parsed)
    (ticket_url_or_id jira_base_url username api_token : string) :
  (exists message,
      fetch_jira_ticket urlparse ticket_url_or_id jira_base_url username
        api_token
      = Return [("status", VStr "error"); ("message", VStr message);
                ("ticket", VNone)]) \/
  (exists message ticket,
      fetch_jira_ticket urlparse ticket_url_or_id jira_base_url username
        api_token
      = Return [("status", VStr "success"); ("message", VStr message);
                ("ticket", VDict ticket)] /\
      well_formed_ticket ticket = true).
Proof.
  unfold fetch_jira_ticket, fetch_jira_ticket_body.
  assert (Hid : (exists ticket_id,
                    extract_ticket_id urlparse ticket_url_or_id
                      jira_base_url = Return ticket_id) \/
                (exists msg,
                    extract_ticket_id urlparse ticket_url_or_id
                      jira_base_url = Raise (Exception msg))).
  { unfold extract_ticket_id.
    destruct (startswith "http" ticket_url_or_id); [|eauto].
    destruct (negb (nonempty jira_base_url)); [|eauto].
    destruct (urlparse ticket_url_or_id); eauto. }
  destruct Hid as [[ticket_id ->]|[msg ->]]; cbn [bind]; [|eauto].
  destruct (negb (nonempty ticket_id)); [eauto|].
  destruct (lookup_ticket ticket_id mock_ticket_data) as [ticket|] eqn:Hl.
  - right. do 2 eexists. split; [reflexivity|].
    unfold lookup_ticket, mock_ticket_data in Hl.
    destruct (String.eqb ticket_id "PROJ-123");
      [injection Hl as <-; reflexivity|].
    destruct (String.eqb ticket_id "STORY-456");
      [injection Hl as <-; reflexivity | discriminate].
  - right. do 2 eexists. split; reflexivity.
Qed.

(** X25: in the chain fetch, extract, generate of the JIRA tools no step
    raises; the extraction reports the status of the fetch; the
    generation reports success whatever the fetch did, and after a failed
    fetch its only scenario is the edge-case scenario TS-001. *)
Theorem jira_workflow_generation_always_succeeds
    (urlparse : string -> parsed)
    (ticket_url_or_id jira_base_url username api_token : string) :
  let '(fetched, extracted, generated) :=
    jira_workflow_steps describe repr findall str_title urlparse
      ticket_url_or_id jira_base_url username api_token in
  exists f e g,
    fetched = Return f /\ extracted = Return e /\ generated = Return g /\
    get "status" e = get "status" f /\
    get "status" g = Some (VStr "success") /\
    (get "status" f = Some (VStr "error") ->
     scenarios_of g = [edge_case_scenario 1]).
Proof.
  unfold jira_workflow_steps.
  destruct (fetch_cases urlparse ticket_url_or_id jira_base_url username
              api_token) as [[message ->]|[message [ticket [-> Hwf]]]].
  - do 3 eexists.
    split; [reflexivity|]. split; [reflexivity|]. split; [reflexivity|].
    split; [reflexivity|]. split; reflexivity.
  - cbn [bind].
    destruct (extract_requirements_accepts
                [("status", VStr "success"); ("message", VStr message);
                 ("ticket", VDict ticket)] ticket eq_refl Hwf)
      as [e [requirements [-> [He [Hrequirements Hr]]]]].
    cbn [bind].
    destruct (generate_scenarios_accepts e requirements Hrequirements Hr)
      as [g [-> Hg]].
    do 3 eexists.
    split; [reflexivity|]. split; [reflexivity|]. split; [reflexivity|].
    split; [exact He|]. split; [exact Hg|]. discriminate.
Qed.

End Facts.

Lemma scenarios_are_numbered_without_gap_witness :
  map scenario_id
    (scenarios_of
       (match generate_test_scenarios_from_jira plain_describe plain_repr
                same_title
                [("requirements", VDict
                    [("functional_requirements", VList
                        [functional_requirement (VStr "High") 1
                           (VStr "User can log in")])])] with
        | Return d => d
        | Raise _ => []
        end))
  = map scenario_numbered (counters 1 3).
Proof.
  destruct (scenarios_are_numbered_without_gap plain_describe plain_repr
              same_title
              [("requirements", VDict
                  [("functional_requirements", VList
                      [functional_requirement (VStr "High") 1
                         (VStr "User can log in")])])] _ eq_refl eq_refl)
    as [r [fv [nv [iv [f [n [i [Hr [Hfv [Hf [Hnv [Hn [Hiv [Hi H]]]]]]]]]]]]]].
  injection Hr as <-. injection Hfv as <-. injection Hf as <-.
  injection Hnv as <-. injection Hn as <-. injection Hiv as <-.
  injection Hi as <-. exact (proj1 (proj2 H)).
Defined.

Lemma requirements_are_numbered_in_order_witness :
  map requirement_id
    (listed "requirements" "functional_requirements"
       (match extract_requirements plain_describe no_match same_title
                [("ticket", VDict (generic_ticket "PROJ-7"))] with
        | Return d => d
        | Raise _ => []
        end))
  = map (requirement_numbered "REQ-") (counters 1 4).
Proof.
  exact (proj1 (requirements_are_numbered_in_order plain_describe no_match
                  same_title [("ticket", VDict (generic_ticket "PROJ-7"))]
                  _ eq_refl eq_refl)).
Defined.

Lemma criteria_become_requirements_witness :
  exists d,
    extract_requirements plain_describe no_match same_title
      [("ticket", VDict (generic_ticket "PROJ-7"))] = Return d /\
    map description_of (listed "requirements" "functional_requirements" d)
    = [VStr "Implement the required functionality";
       VStr "Add appropriate error handling";
       VStr "Include unit tests";
       VStr "Update documentation"] /\
    listed "requirements" "integration_points" d = [].
Proof.
  destruct (criteria_become_requirements plain_describe no_match same_title
              [("ticket", VDict (generic_ticket "PROJ-7"))]
              (generic_ticket "PROJ-7") eq_refl eq_refl)
    as [d [criteria [text [components [Hc [Ht [Hk [Hd [_ [Hf Hi]]]]]]]]]].
  injection Hc as <-. injection Ht as <-. injection Hk as <-.
  exists d. split; [exact Hd|]. split; [exact Hf|].
  now destruct (listed "requirements" "integration_points" d).
Defined.

End RequirementsFacts.

